(** * Telemetry endpoints of the 16personalities tracker backend

    A shallow embedding of [api/check-time.js]: the refactored POST handler
    (validators, [handleEvent], [handleAnswers], [handleTestResult] and the
    routing [handler]) and the earlier [api/log-answers.js] variants that the
    same file carries.  JavaScript values are embedded as a JSON-like tree
    whose numbers are IEEE binary64 floats, strings are sequences of UTF-16
    code units, a [throw] is an explicit abrupt completion, and the database
    driver is an oracle that either commits a call or rejects it. *)

From Stdlib Require Import List Bool ZArith NArith String Ascii Floats Lia.
Import ListNotations.

Set Warnings "-inexact-float,-register-all".

(* ================================================================== *)
(** ** Strings *)

(** A JavaScript string: its UTF-16 code units. *)
Definition jsstring : Type := list N.

(** An ASCII literal of the source as a JavaScript string. *)
Definition lit (s : string) : jsstring :=
  map N_of_ascii (list_ascii_of_string s).
Arguments lit s%_string.

Fixpoint str_eqb (a b : jsstring) : bool :=
  match a, b with
  | [], [] => true
  | x :: a', y :: b' => N.eqb x y && str_eqb a' b'
  | _, _ => false
  end.

(** [s.startsWith(prefix)] *)
Fixpoint startsWith (s prefix : jsstring) {struct prefix} : bool :=
  match prefix, s with
  | [], _ => true
  | p :: prefix', c :: s' => N.eqb c p && startsWith s' prefix'
  | _ :: _, [] => false
  end.

(** ECMAScript WhiteSpace and LineTerminator code points, the ones
    [String.prototype.trim] strips (all of them lie in the BMP). *)
Definition isWhiteSpace (c : N) : bool :=
  (existsb (N.eqb c)
     [0x09; 0x0A; 0x0B; 0x0C; 0x0D; 0x20; 0xA0; 0x1680; 0x2028; 0x2029;
      0x202F; 0x205F; 0x3000; 0xFEFF]
   || (N.leb 0x2000 c && N.leb c 0x200A))%N.

Fixpoint trimStart (s : jsstring) : jsstring :=
  match s with
  | c :: s' => if isWhiteSpace c then trimStart s' else s
  | [] => []
  end.

Definition trimEnd (s : jsstring) : jsstring := rev (trimStart (rev s)).

(** [s.trim()] *)
Definition trim (s : jsstring) : jsstring := trimEnd (trimStart s).

(** Decimal rendering of a length, as a template literal prints it. *)
Fixpoint digits (fuel n : nat) (acc : jsstring) : jsstring :=
  match fuel with
  | O => acc
  | S fuel' =>
      let acc' := (48 + N.of_nat (n mod 10))%N :: acc in
      if Nat.ltb n 10 then acc' else digits fuel' (n / 10) acc'
  end.

Definition nat_toString (n : nat) : jsstring := digits (S n) n [].

(* ================================================================== *)
(** ** Values *)

(** What [JSON.parse] can produce, plus [undefined] (the value of an absent
    property).  An object is its list of own properties; a read takes the
    first binding of the key. *)
Inductive JsVal : Type :=
| JUndefined
| JNull
| JBool (b : bool)
| JNum (n : float)
| JStr (s : jsstring)
| JArr (items : list JsVal)
| JObj (fields : list (jsstring * JsVal)).

Inductive JsType : Type :=
| TUndefined | TObject | TBoolean | TNumber | TString.

(** [typeof v] *)
Definition typeof (v : JsVal) : JsType :=
  match v with
  | JUndefined => TUndefined
  | JNull | JArr _ | JObj _ => TObject
  | JBool _ => TBoolean
  | JNum _ => TNumber
  | JStr _ => TString
  end.

Definition JsType_eqb (a b : JsType) : bool :=
  match a, b with
  | TUndefined, TUndefined | TObject, TObject | TBoolean, TBoolean
  | TNumber, TNumber | TString, TString => true
  | _, _ => false
  end.

(** ToBoolean: [false], [0], [-0], [NaN], the empty string, [null] and
    [undefined] are falsy. *)
Definition truthy (v : JsVal) : bool :=
  match v with
  | JUndefined | JNull => false
  | JBool b => b
  | JNum n => negb (PrimFloat.eqb n 0 || PrimFloat.is_nan n)
  | JStr s => match s with [] => false | _ => true end
  | JArr _ | JObj _ => true
  end.

Definition is_undefined (v : JsVal) : bool :=
  match v with JUndefined => true | _ => false end.

Definition is_null (v : JsVal) : bool :=
  match v with JNull => true | _ => false end.

Definition nullish (v : JsVal) : bool := is_undefined v || is_null v.

(** [v === 'literal'] *)
Definition is_string (v : JsVal) (s : jsstring) : bool :=
  match v with JStr x => str_eqb x s | _ => false end.

(** [Array.isArray(v)] *)
Definition isArray (v : JsVal) : bool :=
  match v with JArr _ => true | _ => false end.

Fixpoint lookup (k : jsstring) (fields : list (jsstring * JsVal)) : JsVal :=
  match fields with
  | [] => JUndefined
  | (k', v) :: rest => if str_eqb k' k then v else lookup k rest
  end.

(* ================================================================== *)
(** ** Errors and completions *)

(** The constructors an [instanceof] test of the source can tell apart;
    [PlainError] stands for [Error] itself and for whatever the database
    driver rejects with. *)
Inductive ErrorClass : Type :=
| ValidationError | TypeError | SyntaxError | PlainError.

(** An [Error] instance: its class, its [message], and the ad hoc
    [isValidationError] mark one variant sets. *)
Record JsError : Type := mkError {
  ename : ErrorClass;
  emessage : jsstring;
  isValidationError : bool
}.

Definition new (c : ErrorClass) (m : jsstring) : JsError :=
  {| ename := c; emessage := m; isValidationError := false |}.

Definition instanceof (e : JsError) (c : ErrorClass) : bool :=
  match ename e, c with
  | ValidationError, ValidationError | TypeError, TypeError
  | SyntaxError, SyntaxError => true
  | _, PlainError => true   (* every class here extends Error *)
  | _, _ => false
  end.

(** What a [catch] clause can be handed: an [Error] instance or any other
    value, since [throw] takes any value and a promise rejects with any. *)
Inductive Thrown : Type :=
| Err (e : JsError)
| Raw (v : JsVal).
Coercion Err : JsError >-> Thrown.

(** [error instanceof C]: only an [Error] instance is one. *)
Definition isInstance (error : Thrown) (c : ErrorClass) : bool :=
  match error with
  | Err e => instanceof e c
  | Raw _ => false
  end.

(** How an evaluation of the handlers' own code ends: with a value, or by
    a [throw]; what that code throws is an [Error] instance (its own
    [throw new ...] and the TypeErrors of the runtime). *)
Inductive completion (A : Type) : Type :=
| Normal (a : A)
| Throw (e : JsError).
Arguments Normal {A} a.
Arguments Throw {A} e.

Definition cbind {A B} (c : completion A) (k : A -> completion B)
  : completion B :=
  match c with
  | Normal a => k a
  | Throw e => Throw e
  end.

Declare Scope js_scope.
Delimit Scope js_scope with js.
Notation "x <- c ;; k" := (cbind c (fun x => k))
  (at level 61, c at next level, right associativity) : js_scope.
Notation "' p <- c ;; k" := (cbind c (fun x => match x with p => k end))
  (at level 61, p pattern, c at next level, right associativity) : js_scope.
Open Scope js_scope.

(** [v.k] and [v[k]]: a read off [null] or [undefined] throws a TypeError
    (worded as V8 does); off anything else it yields the own property or
    [undefined].  The handlers read only the fixed property names of the
    payload schema, none of which an array, string, number or boolean
    carries, so those yield [undefined]. *)
Definition get (v : JsVal) (k : jsstring) : completion JsVal :=
  match v with
  | JUndefined =>
      Throw (new TypeError
        (lit "Cannot read properties of undefined (reading '" ++ k ++ lit "')"))
  | JNull =>
      Throw (new TypeError
        (lit "Cannot read properties of null (reading '" ++ k ++ lit "')"))
  | JObj fields => Normal (lookup k fields)
  | _ => Normal JUndefined
  end.

(** [error.message] for the [error] of a catch clause. *)
Definition message_of (error : Thrown) : completion JsVal :=
  match error with
  | Err e => Normal (JStr (emessage e))
  | Raw v => get v (lit "message")
  end.

(** [error.isValidationError], as a condition. *)
Definition validationMark (error : Thrown) : completion bool :=
  match error with
  | Err e => Normal (isValidationError e)
  | Raw v => mark <- get v (lit "isValidationError") ;; Normal (truthy mark)
  end.

(** [m.startsWith(prefix)] for the [m] that [error.message] gave: only a
    string has the method. *)
Definition message_startsWith (m : JsVal) (prefix : jsstring)
  : completion bool :=
  match m with
  | JStr s => Normal (startsWith s prefix)
  | JUndefined =>
      Throw (new TypeError
        (lit "Cannot read properties of undefined (reading 'startsWith')"))
  | JNull =>
      Throw (new TypeError
        (lit "Cannot read properties of null (reading 'startsWith')"))
  | _ => Throw (new TypeError (lit "error.message.startsWith is not a function"))
  end.

(** The two built-ins whose output the handlers only splice into messages:
    number-to-string conversion and [JSON.stringify] (as a template literal
    renders its result). *)
Class Runtime : Type := {
  Number_toString : float -> jsstring;
  JSON_stringify : JsVal -> jsstring
}.

(** Whether ToPrimitive, the first step of the ToString a template literal
    [`${v}`] applies, succeeds.  A parsed object inherits
    [Object.prototype.toString] unless it carries an own property named
    [toString]; an own one is a JSON value, hence not callable, and the
    [valueOf] tried next is not callable either or is the inherited one,
    which returns the object itself: the conversion throws.  An array is
    converted by [Array.prototype.join], which converts each element other
    than [null] and [undefined] in turn. *)
Fixpoint convertible (v : JsVal) : bool :=
  match v with
  | JObj fields =>
      negb (existsb (fun kv => str_eqb (fst kv) (lit "toString")) fields)
  | JArr items => forallb convertible items
  | _ => true
  end.

(** The string ToString yields where the conversion succeeds (see
    [convertible]); [interpolate] below is the conversion itself. *)
Fixpoint ToString `{Runtime} (v : JsVal) : jsstring :=
  match v with
  | JUndefined => lit "undefined"
  | JNull => lit "null"
  | JBool true => lit "true"
  | JBool false => lit "false"
  | JNum n => Number_toString n
  | JStr s => s
  | JArr items =>
      (fix join (l : list JsVal) : jsstring :=
         match l with
         | [] => []
         | x :: rest =>
             (match x with
              | JUndefined | JNull => []
              | _ => ToString x
              end)
             ++ match rest with [] => [] | _ => lit "," ++ join rest end
         end) items
  | JObj _ => lit "[object Object]"
  end.

(** [`${v}`]: the string, or the TypeError of a failed conversion (worded
    as V8 does). *)
Definition interpolate `{Runtime} (v : JsVal) : completion jsstring :=
  if convertible v then Normal (ToString v)
  else Throw (new TypeError (lit "Cannot convert object to primitive value")).

(* ================================================================== *)
(** ** The response object and the store *)

(** The JSON body every handler answers with: [{ message, error? }].  The
    [error] is what [error.message] gave, a string for an [Error]
    instance. *)
Record Body : Type := mkBody {
  message : jsstring;
  error : option JsVal
}.

Inductive Sent : Type :=
| Json (b : Body)     (* res.json(body) *)
| End.                (* res.end()      *)

(** What has been written to [res] when the handler returns. *)
Record Response : Type := mkResponse {
  headers : list (jsstring * list jsstring);
  status : Z;
  sent : Sent
}.

(** The SQL texts of the source, up to their parameters; the flag records
    the [::timestamptz] cast the first variant lacks. *)
Inductive SqlText : Type :=
| InsertTestEvents (cast : bool)
| InsertTestAnswers (cast : bool)
| InsertTestResults.

(** A tagged-template query [sql`...`]: built, not yet run.  The driver
    sends it only when it is awaited or handed to [sql.transaction]. *)
Record Statement : Type := mkStatement {
  text : SqlText;
  params : list JsVal
}.

(** A round trip to the database. *)
Inductive StoreCall : Type :=
| Execute (q : Statement)                 (* await sql`...`               *)
| Transaction (qs : list Statement).      (* await sql.transaction([...]) *)

Definition statements (c : StoreCall) : list Statement :=
  match c with
  | Execute q => [q]
  | Transaction qs => qs
  end.

(** The rows committed so far and the calls made so far. *)
Record Store : Type := mkStore {
  rows : list Statement;
  calls : list StoreCall
}.

(** The database as the handlers see it: given the committed rows and a
    call, it accepts ([None]) or rejects with an error, an [Error] instance
    (the driver rejects with its own error class or with the TypeError of a
    failed fetch). *)
Definition Oracle : Type := list Statement -> StoreCall -> option JsError.

(** A computation that may touch the store and may throw. *)
Definition M (A : Type) : Type := Store -> Store * completion A.

Definition ret {A} (a : A) : M A := fun st => (st, Normal a).

Definition bind {A B} (m : M A) (k : A -> M B) : M B :=
  fun st =>
    match m st with
    | (st', Normal a) => k a st'
    | (st', Throw e) => (st', Throw e)
    end.

(** A pure evaluation inside a store computation. *)
Definition lift {A} (c : completion A) : M A := fun st => (st, c).

(** [try { body } catch (e) { handler }]: the clause is written for any
    thrown value and is handed what the body threw. *)
Definition try_catch {A} (body : M A) (handler : Thrown -> M A) : M A :=
  fun st =>
    match body st with
    | (st', Normal a) => (st', Normal a)
    | (st', Throw e) => handler (Err e) st'
    end.

Notation "x <~ m ;; k" := (bind m (fun x => k))
  (at level 61, m at next level, right associativity) : js_scope.
Notation "' p <~ m ;; k" := (bind m (fun x => match x with p => k end))
  (at level 61, p pattern, m at next level, right associativity) : js_scope.

(** The driver's contract, the external collaborator of every handler: a
    call is one round trip; an accepted call commits all of its statements,
    a rejected one commits none and rejects the awaited promise.
    [sql.transaction] runs its statements in a single transaction. *)
Definition perform (db : Oracle) (c : StoreCall) : M unit :=
  fun st =>
    match db (rows st) c with
    | None =>
        ({| rows := rows st ++ statements c; calls := calls st ++ [c] |},
         Normal tt)
    | Some e =>
        ({| rows := rows st; calls := calls st ++ [c] |}, Throw e)
    end.

(** An incoming request: its method and what reading [req.body] gives (the
    platform parses the body lazily, so the read itself may throw; what it
    throws is an [Error] instance, the platform's error for a body that is
    not JSON). *)
Record Request : Type := mkRequest {
  method : jsstring;
  body : completion JsVal
}.

(** The same with nothing assumed of the read: it may throw any value. *)
Inductive BodyRead : Type :=
| Parsed (payload : JsVal)
| ReadThrows (thrown : Thrown).

Record Invocation : Type := mkInvocation {
  verb : jsstring;
  read : BodyRead
}.

Definition invocation (req : Request) : Invocation :=
  {| verb := method req;
     read := match body req with
             | Normal payload => Parsed payload
             | Throw e => ReadThrows (Err e)
             end |}.

(** [res.status(code).json({ message })] *)
Definition json (hs : list (jsstring * list jsstring)) (code : Z)
  (msg : jsstring) : Response :=
  {| headers := hs; status := code;
     sent := Json {| message := msg; error := None |} |}.

(** [res.status(code).json({ message, error })] *)
Definition json_error (hs : list (jsstring * list jsstring)) (code : Z)
  (msg err : jsstring) : Response :=
  {| headers := hs; status := code;
     sent := Json {| message := msg; error := Some (JStr err) |} |}.

(** The same with the [error] as a read gave it: a property that is
    [undefined] is left out of the JSON sent. *)
Definition json_with (hs : list (jsstring * list jsstring)) (code : Z)
  (msg : jsstring) (err : JsVal) : Response :=
  {| headers := hs; status := code;
     sent := Json {| message := msg;
                     error := if is_undefined err then None else Some err |} |}.

(** A catch clause that answers [{ message, error: error.message }]. *)
Definition answerWith (hs : list (jsstring * list jsstring)) (code : Z)
  (msg : jsstring) (error : Thrown) : M Response :=
  err <~ lift (message_of error) ;;
  ret (json_with hs code msg err).

Definition allowHeader : jsstring * list jsstring :=
  (lit "Allow", [lit "POST"; lit "OPTIONS"]).

(** [answers.map(f)] with a callback that may throw: elements are visited
    in order and the first throw aborts the map. *)
Fixpoint map_completion {A B} (f : A -> completion B) (l : list A)
  : completion (list B) :=
  match l with
  | [] => Normal []
  | a :: rest =>
      b <- f a ;;
      bs <- map_completion f rest ;;
      Normal (b :: bs)
  end.

(** The elements a method call [v.map(...)] ranges over; on a value that is
    not an array the call itself fails. *)
Definition elements (v : JsVal) : completion (list JsVal) :=
  match v with
  | JArr items => Normal items
  | JUndefined | JNull =>
      Throw (new TypeError (lit "Cannot read properties of undefined (reading 'map')"))
  | _ => Throw (new TypeError (lit "answers.map is not a function"))
  end.

(** The text [Missing or empty "answers" array], followed by the full stop
    the older variants add. *)
Definition missingAnswers (stop : jsstring) : jsstring :=
  lit "Missing or empty " ++ [34%N] ++ lit "answers" ++ [34%N]
  ++ lit " array" ++ stop.

Definition profilePrefix : jsstring :=
  lit "https://www.16personalities.com/profiles/".

Definition requiredTraits : list jsstring :=
  [lit "mind"; lit "energy"; lit "nature"; lit "tactics"; lit "identity"].

(* ================================================================== *)
(** ** The refactored handler (validators, per-type handlers, routing) *)

Module Main.
Section WithRuntime.
Context {rt : Runtime} (db : Oracle).

Definition validateCommonFields (payload : JsVal)
  : completion (JsVal * JsVal * JsVal) :=
  userId <- get payload (lit "userId") ;;
  sessionId <- get payload (lit "sessionId") ;;
  timestamp <- get payload (lit "timestamp") ;;
  if negb (truthy userId) || negb (JsType_eqb (typeof userId) TString) then
    Throw (new ValidationError (lit "Missing or invalid userId (string required)"))
  else if negb (truthy sessionId) || negb (JsType_eqb (typeof sessionId) TString) then
    Throw (new ValidationError (lit "Missing or invalid sessionId (string required)"))
  else if negb (truthy timestamp) || negb (JsType_eqb (typeof timestamp) TString) then
    Throw (new ValidationError (lit "Missing or invalid timestamp (string required)"))
  else Normal (userId, sessionId, timestamp).

(** The condition of the [if] inside the loop of [isValidTraitObject], for
    one required key: [true] when the entry fails.  The range test is the
    source's [percent < 0 || percent > 100] on binary64 numbers. *)
Definition traitFails (traits : JsVal) (trait : jsstring) : completion bool :=
  entry <- get traits trait ;;
  if negb (truthy entry) then Normal true else
  percent <- get entry (lit "percent") ;;
  match percent with
  | JNum p =>
      if PrimFloat.ltb p 0 || PrimFloat.ltb 100 p then Normal true else
      type <- get entry (lit "type") ;;
      match type with
      | JStr s => Normal (str_eqb (trim s) [])
      | _ => Normal true
      end
  | _ => Normal true
  end.

Fixpoint forRequiredTraits (traits : JsVal) (keys : list jsstring)
  : completion bool :=
  match keys with
  | [] => Normal true
  | trait :: rest =>
      bad <- traitFails traits trait ;;
      if bad then Normal false else forRequiredTraits traits rest
  end.

Definition isValidTraitObject (traits : JsVal) : completion bool :=
  if negb (truthy traits) || negb (JsType_eqb (typeof traits) TObject)
  then Normal false
  else forRequiredTraits traits requiredTraits.

(** The condition of the [if] inside [answers.forEach]. *)
Definition answerIsInvalid (answer : JsVal) : completion bool :=
  question_number <- get answer (lit "question_number") ;;
  question_text <- get answer (lit "question_text") ;;
  answer_value <- get answer (lit "answer_value") ;;
  Normal (is_undefined question_number
          || is_null question_number
          || negb (truthy question_text)
          || is_undefined answer_value).

Definition invalidAnswerMessage (answer : JsVal) : jsstring :=
  lit "Invalid answer format in array: " ++ JSON_stringify answer.

Fixpoint forEachAnswer (answers : list JsVal) : completion unit :=
  match answers with
  | [] => Normal tt
  | answer :: rest =>
      bad <- answerIsInvalid answer ;;
      if bad then Throw (new ValidationError (invalidAnswerMessage answer))
      else forEachAnswer rest
  end.

Definition validateAnswers (answers : JsVal) : completion JsVal :=
  match answers with
  | JArr ((_ :: _) as items) =>
      _ <- forEachAnswer items ;;
      Normal answers
  | _ => Throw (new ValidationError (missingAnswers []))
  end.

Definition validateTestResult (payload : JsVal)
  : completion (JsVal * JsVal * JsVal * JsVal) :=
  profileUrl <- get payload (lit "profileUrl") ;;
  mbtiResult <- get payload (lit "mbtiResult") ;;
  mbtiCode <- get payload (lit "mbtiCode") ;;
  traits <- get payload (lit "traits") ;;
  if negb (truthy profileUrl)
     || negb (JsType_eqb (typeof profileUrl) TString)
     || negb (match profileUrl with
              | JStr s => startsWith s profilePrefix
              | _ => false
              end)
  then Throw (new ValidationError (lit "Missing or invalid profileUrl format"))
  else if negb (truthy mbtiResult)
          || negb (JsType_eqb (typeof mbtiResult) TString)
  then Throw (new ValidationError (lit "Missing or invalid mbtiResult (full string)"))
  else if truthy mbtiCode && negb (JsType_eqb (typeof mbtiCode) TString)
  then Throw (new ValidationError
                (lit "Invalid mbtiCode format (should be string or null)"))
  else
    ok <- isValidTraitObject traits ;;
    if negb ok
    then Throw (new ValidationError (lit "Invalid or incomplete traits object"))
    else Normal (profileUrl, mbtiResult, mbtiCode, traits).

Definition corsHeaders : list (jsstring * list jsstring) :=
  [(lit "Access-Control-Allow-Origin", [lit "https://www.16personalities.com"]);
   (lit "Access-Control-Allow-Methods", [lit "POST, OPTIONS"]);
   (lit "Access-Control-Allow-Headers", [lit "Content-Type"]);
   (lit "Access-Control-Allow-Credentials", [lit "true"])].

Definition eventQuery (userId sessionId eventName timestamp : JsVal)
  : Statement :=
  {| text := InsertTestEvents true;
     params := [userId; sessionId; eventName; timestamp] |}.

Definition handleEvent (payload : JsVal) : M Response :=
  '(userId, sessionId, timestamp) <~ lift (validateCommonFields payload) ;;
  eventName <~ lift (get payload (lit "eventName")) ;;
  (* the [console.log] ahead of the [try] is the first to convert
     [eventName]; the later templates convert the same value *)
  name <~ lift (interpolate eventName) ;;
  try_catch
    (_ <~ perform db (Execute (eventQuery userId sessionId eventName timestamp)) ;;
     ret (json corsHeaders 200
            (name ++ lit " event received (logged server-side)")))
    (fun dbError =>
       answerWith corsHeaders 500
         (lit "Error logging " ++ name ++ lit " event") dbError).

(** [answer.answer_label || 'N/A'] *)
Definition labelOrNA (answer_label : JsVal) : JsVal :=
  if truthy answer_label then answer_label else JStr (lit "N/A").

(** The callback of [answers.map] in [handleAnswers]: one insert per answer. *)
Definition answerQuery (userId sessionId timestamp answer : JsVal)
  : completion Statement :=
  question_number <- get answer (lit "question_number") ;;
  question_text <- get answer (lit "question_text") ;;
  answer_value <- get answer (lit "answer_value") ;;
  answer_label <- get answer (lit "answer_label") ;;
  Normal {| text := InsertTestAnswers true;
            params := [userId; sessionId; question_number; question_text;
                       answer_value; labelOrNA answer_label; timestamp] |}.

Definition handleAnswers (payload : JsVal) : M Response :=
  '(userId, sessionId, timestamp) <~ lift (validateCommonFields payload) ;;
  payload_answers <~ lift (get payload (lit "answers")) ;;
  answers <~ lift (validateAnswers payload_answers) ;;
  try_catch
    (items <~ lift (elements answers) ;;
     queries <~ lift (map_completion
                        (answerQuery userId sessionId timestamp) items) ;;
     _ <~ perform db (Transaction queries) ;;
     ret (json corsHeaders 201
            (lit "Successfully logged " ++ nat_toString (List.length items)
             ++ lit " answers.")))
    (fun error =>
       answerWith corsHeaders 500 (lit "Database error inserting answers")
         error).

(** [traits.<trait>.percent] and [traits.<trait>.type], as the insert reads
    them. *)
Definition traitParams (traits : JsVal) (trait : jsstring)
  : completion (list JsVal) :=
  entry <- get traits trait ;;
  percent <- get entry (lit "percent") ;;
  type <- get entry (lit "type") ;;
  Normal [percent; type].

Fixpoint allTraitParams (traits : JsVal) (keys : list jsstring)
  : completion (list JsVal) :=
  match keys with
  | [] => Normal []
  | trait :: rest =>
      ps <- traitParams traits trait ;;
      qs <- allTraitParams traits rest ;;
      Normal (ps ++ qs)
  end.

Definition handleTestResult (payload : JsVal) : M Response :=
  '(userId, sessionId, timestamp) <~ lift (validateCommonFields payload) ;;
  '(profileUrl, _, mbtiCode, traits) <~ lift (validateTestResult payload) ;;
  try_catch
    (ps <~ lift (allTraitParams traits requiredTraits) ;;
     _ <~ perform db
            (Execute {| text := InsertTestResults;
                        params := [userId; sessionId; mbtiCode; profileUrl]
                                  ++ ps ++ [timestamp] |}) ;;
     ret (json corsHeaders 201 (lit "Test result logged successfully.")))
    (fun dbError =>
       answerWith corsHeaders 500
         (lit "Database error inserting test result") dbError).

Definition isEventName (eventName : JsVal) : bool :=
  is_string eventName (lit "test_started")
  || is_string eventName (lit "test_finished").

(** The body of the handler's [try] block. *)
Definition route (req : Request) : M Response :=
  payload <~ lift (body req) ;;
  if negb (truthy payload) || negb (JsType_eqb (typeof payload) TObject) then
    ret (json corsHeaders 400
           (lit "Invalid payload format. Expected JSON object."))
  else
    type <~ lift (get payload (lit "type")) ;;
    eventName <~ lift (get payload (lit "eventName")) ;;
    if is_string type (lit "event") && isEventName eventName then
      handleEvent payload
    else if is_string type (lit "answers") then
      handleAnswers payload
    else if is_string type (lit "result") then
      handleTestResult payload
    else
      shown <~ lift (interpolate type) ;;
      ret (json corsHeaders 400
             (lit "Invalid payload type specified: '" ++ shown ++ lit "'")).

(** The handler's [catch] block. *)
Definition onError (error : Thrown) : M Response :=
  if isInstance error ValidationError then
    answerWith corsHeaders 400 (lit "Data validation failed") error
  else if isInstance error SyntaxError then
    answerWith corsHeaders 400 (lit "Invalid JSON format") error
  else
    answerWith corsHeaders 500
      (lit "Internal Server Error processing request.") error.

Definition handler (req : Request) : M Response :=
  if str_eqb (method req) (lit "OPTIONS") then
    ret {| headers := corsHeaders; status := 200; sent := End |}
  else if negb (str_eqb (method req) (lit "POST")) then
    ret (json (corsHeaders ++ [allowHeader]) 405 (lit "Method Not Allowed"))
  else
    try_catch (route req) onError.

(** The handler with nothing assumed of what reading [req.body] throws:
    the read is the first statement of the [try] block, so what it throws
    goes to the [catch] block. *)
Definition serve (inv : Invocation) : M Response :=
  if str_eqb (verb inv) (lit "OPTIONS") then
    ret {| headers := corsHeaders; status := 200; sent := End |}
  else if negb (str_eqb (verb inv) (lit "POST")) then
    ret (json (corsHeaders ++ [allowHeader]) 405 (lit "Method Not Allowed"))
  else
    match read inv with
    | Parsed payload =>
        try_catch (route {| method := verb inv; body := Normal payload |})
          onError
    | ReadThrows thrown => onError thrown
    end.

End WithRuntime.
End Main.

(* ================================================================== *)
(** ** The earlier [api/log-answers.js] variants

    Three earlier versions of the same endpoint sit in the file after the
    refactored handler.  They inline the checks of the validators above (the
    per-answer condition and [isValidTraitObject] are the same text, and are
    shared here) and differ in how they catch. *)

Definition missingCommonFields : jsstring :=
  lit "Missing or invalid required fields: userId (string), sessionId (string), timestamp (string)".

(** The common-field gate the variants inline:
    [!userId || !sessionId || !timestamp || typeof userId !== 'string' || ...] *)
Definition commonFieldsMissing (userId sessionId timestamp : JsVal) : bool :=
  negb (truthy userId) || negb (truthy sessionId) || negb (truthy timestamp)
  || negb (JsType_eqb (typeof userId) TString)
  || negb (JsType_eqb (typeof sessionId) TString)
  || negb (JsType_eqb (typeof timestamp) TString).

(** First variant: a failed event insert is logged and answered with 200;
    answers are validated inside the [map] that builds the queries and every
    error is sorted out by the outer [catch] from its message. *)
Module LogAnswersV1.
Section WithRuntime.
Context {rt : Runtime} (db : Oracle).

Definition corsHeaders : list (jsstring * list jsstring) :=
  [(lit "Access-Control-Allow-Origin", [lit "https://www.16personalities.com"]);
   (lit "Access-Control-Allow-Methods", [lit "POST, OPTIONS"]);
   (lit "Access-Control-Allow-Headers", [lit "Content-Type"])].

Definition answerQuery (userId sessionId timestamp answer : JsVal)
  : completion Statement :=
  bad <- Main.answerIsInvalid answer ;;
  if bad then Throw (new PlainError (Main.invalidAnswerMessage answer)) else
  question_number <- get answer (lit "question_number") ;;
  question_text <- get answer (lit "question_text") ;;
  answer_value <- get answer (lit "answer_value") ;;
  answer_label <- get answer (lit "answer_label") ;;
  Normal {| text := InsertTestAnswers false;
            params := [userId; sessionId; question_number; question_text;
                       answer_value; answer_label; timestamp] |}.

Definition route (req : Request) : M Response :=
  payload <~ lift (body req) ;;
  if negb (truthy payload) || negb (JsType_eqb (typeof payload) TObject) then
    ret (json corsHeaders 400
           (lit "Invalid payload format. Expected JSON object."))
  else
    type <~ lift (get payload (lit "type")) ;;
    userId <~ lift (get payload (lit "userId")) ;;
    sessionId <~ lift (get payload (lit "sessionId")) ;;
    timestamp <~ lift (get payload (lit "timestamp")) ;;
    if commonFieldsMissing userId sessionId timestamp then
      ret (json corsHeaders 400 missingCommonFields)
    else
      eventName <~ lift (get payload (lit "eventName")) ;;
      if is_string type (lit "event") && Main.isEventName eventName then
        _ <~ try_catch
               (perform db
                  (Execute {| text := InsertTestEvents false;
                              params := [userId; sessionId; eventName;
                                         timestamp] |}))
               (fun dbError => ret tt) ;;
        ret (json corsHeaders 200
               (ToString eventName
                ++ lit " event received (logged server-side)"))
      else if is_string type (lit "answers") then
        answers <~ lift (get payload (lit "answers")) ;;
        match answers with
        | JArr ((_ :: _) as items) =>
            queries <~ lift (map_completion
                               (answerQuery userId sessionId timestamp)
                               items) ;;
            _ <~ perform db (Transaction queries) ;;
            ret (json corsHeaders 201
                   (lit "Successfully logged "
                    ++ nat_toString (List.length items) ++ lit " answers."))
        | _ => ret (json corsHeaders 400 (missingAnswers (lit ".")))
        end
      else
        ret (json corsHeaders 400 (lit "Invalid payload type specified.")).

Definition onError (error : Thrown) : M Response :=
  validation <~ lift (m <- message_of error ;;
                      invalid <- message_startsWith m
                                   (lit "Invalid answer format") ;;
                      if invalid then Normal true
                      else message_startsWith m (lit "Missing")) ;;
  if validation
  then answerWith corsHeaders 400 (lit "Data validation failed") error
  else answerWith corsHeaders 500
         (lit "Internal Server Error processing request.") error.

Definition handler (req : Request) : M Response :=
  if str_eqb (method req) (lit "OPTIONS") then
    ret {| headers := corsHeaders; status := 200; sent := End |}
  else if negb (str_eqb (method req) (lit "POST")) then
    ret (json (corsHeaders ++ [allowHeader]) 405 (lit "Method Not Allowed"))
  else
    try_catch (route req) onError.

Definition serve (inv : Invocation) : M Response :=
  if str_eqb (verb inv) (lit "OPTIONS") then
    ret {| headers := corsHeaders; status := 200; sent := End |}
  else if negb (str_eqb (verb inv) (lit "POST")) then
    ret (json (corsHeaders ++ [allowHeader]) 405 (lit "Method Not Allowed"))
  else
    match read inv with
    | Parsed payload =>
        try_catch (route {| method := verb inv; body := Normal payload |})
          onError
    | ReadThrows thrown => onError thrown
    end.

End WithRuntime.
End LogAnswersV1.

(** Second variant (the one with the staged [try] blocks): a failed event
    insert answers 500; validation errors thrown inside the [map] carry an
    [isValidationError] mark and are answered with 400 by the inner
    [catch]; the result payload is handled as well. *)
Module LogAnswersV2.
Section WithRuntime.
Context {rt : Runtime} (db : Oracle).

Definition corsHeaders : list (jsstring * list jsstring) := Main.corsHeaders.

Definition answerQuery (userId sessionId timestamp answer : JsVal)
  : completion Statement :=
  bad <- Main.answerIsInvalid answer ;;
  if bad then
    Throw {| ename := PlainError;
             emessage := Main.invalidAnswerMessage answer;
             isValidationError := true |}
  else
  question_number <- get answer (lit "question_number") ;;
  question_text <- get answer (lit "question_text") ;;
  answer_value <- get answer (lit "answer_value") ;;
  answer_label <- get answer (lit "answer_label") ;;
  Normal {| text := InsertTestAnswers true;
            params := [userId; sessionId; question_number; question_text;
                       answer_value; Main.labelOrNA answer_label;
                       timestamp] |}.

Definition handleAnswers (userId sessionId timestamp answers : JsVal)
  : M Response :=
  match answers with
  | JArr ((_ :: _) as items) =>
      try_catch
        (queries <~ lift (map_completion
                            (answerQuery userId sessionId timestamp) items) ;;
         try_catch
           (_ <~ perform db (Transaction queries) ;;
            ret (json corsHeaders 201
                   (lit "Successfully logged "
                    ++ nat_toString (List.length items) ++ lit " answers.")))
           (fun dbError =>
              answerWith corsHeaders 500
                (lit "Database error inserting answers") dbError))
        (fun error =>
           marked <~ lift (validationMark error) ;;
           if marked then
             answerWith corsHeaders 400
               (lit "Data validation failed for answers") error
           else
             answerWith corsHeaders 500
               (lit "Internal server error processing answers") error)
  | _ => ret (json corsHeaders 400 (missingAnswers (lit ".")))
  end.

Definition handleResult (userId sessionId timestamp payload : JsVal)
  : M Response :=
  profileUrl <~ lift (get payload (lit "profileUrl")) ;;
  mbtiResult <~ lift (get payload (lit "mbtiResult")) ;;
  mbtiCode <~ lift (get payload (lit "mbtiCode")) ;;
  traits <~ lift (get payload (lit "traits")) ;;
  if negb (truthy profileUrl)
     || negb (JsType_eqb (typeof profileUrl) TString)
     || negb (match profileUrl with
              | JStr s => startsWith s profilePrefix
              | _ => false
              end)
  then ret (json corsHeaders 400 (lit "Missing or invalid profileUrl format."))
  else if negb (truthy mbtiResult)
          || negb (JsType_eqb (typeof mbtiResult) TString)
  then ret (json corsHeaders 400
              (lit "Missing or invalid mbtiResult (full string)."))
  else if truthy mbtiCode && negb (JsType_eqb (typeof mbtiCode) TString)
  then ret (json corsHeaders 400
              (lit "Invalid mbtiCode format (should be string or null)."))
  else
    ok <~ lift (Main.isValidTraitObject traits) ;;
    if negb ok
    then ret (json corsHeaders 400 (lit "Invalid or incomplete traits object."))
    else
      try_catch
        (ps <~ lift (Main.allTraitParams traits requiredTraits) ;;
         _ <~ perform db
                (Execute {| text := InsertTestResults;
                            params := [userId; sessionId; mbtiCode; profileUrl]
                                      ++ ps ++ [timestamp] |}) ;;
         ret (json corsHeaders 201 (lit "Test result logged successfully.")))
        (fun dbError =>
           answerWith corsHeaders 500
             (lit "Database error inserting test result") dbError).

Definition route (req : Request) : M Response :=
  payload <~ lift (body req) ;;
  if negb (truthy payload) || negb (JsType_eqb (typeof payload) TObject) then
    ret (json corsHeaders 400
           (lit "Invalid payload format. Expected JSON object."))
  else
    type <~ lift (get payload (lit "type")) ;;
    userId <~ lift (get payload (lit "userId")) ;;
    sessionId <~ lift (get payload (lit "sessionId")) ;;
    timestamp <~ lift (get payload (lit "timestamp")) ;;
    if commonFieldsMissing userId sessionId timestamp then
      ret (json corsHeaders 400 missingCommonFields)
    else
      eventName <~ lift (get payload (lit "eventName")) ;;
      if is_string type (lit "event") && Main.isEventName eventName then
        try_catch
          (_ <~ perform db
                  (Execute (Main.eventQuery userId sessionId eventName
                              timestamp)) ;;
           ret (json corsHeaders 200
                  (ToString eventName
                   ++ lit " event received (logged server-side)")))
          (fun dbError =>
             answerWith corsHeaders 500
               (lit "Error logging " ++ ToString eventName ++ lit " event")
               dbError)
      else if is_string type (lit "answers") then
        answers <~ lift (get payload (lit "answers")) ;;
        handleAnswers userId sessionId timestamp answers
      else if is_string type (lit "result") then
        handleResult userId sessionId timestamp payload
      else
        shown <~ lift (interpolate type) ;;
        ret (json corsHeaders 400
               (lit "Invalid payload type specified: '" ++ shown ++ lit "'")).

Definition onError (error : Thrown) : M Response :=
  validation <~ lift (m <- message_of error ;;
                      invalid <- message_startsWith m
                                   (lit "Invalid answer format") ;;
                      missing <- (if invalid then Normal true
                                  else message_startsWith m (lit "Missing")) ;;
                      Normal (missing || isInstance error SyntaxError)) ;;
  if validation
  then answerWith corsHeaders 400 (lit "Data validation or parsing failed")
         error
  else answerWith corsHeaders 500
         (lit "Internal Server Error processing request.") error.

Definition handler (req : Request) : M Response :=
  if str_eqb (method req) (lit "OPTIONS") then
    ret {| headers := corsHeaders; status := 200; sent := End |}
  else if negb (str_eqb (method req) (lit "POST")) then
    ret (json (corsHeaders ++ [allowHeader]) 405 (lit "Method Not Allowed"))
  else
    try_catch (route req) onError.

Definition serve (inv : Invocation) : M Response :=
  if str_eqb (verb inv) (lit "OPTIONS") then
    ret {| headers := corsHeaders; status := 200; sent := End |}
  else if negb (str_eqb (verb inv) (lit "POST")) then
    ret (json (corsHeaders ++ [allowHeader]) 405 (lit "Method Not Allowed"))
  else
    match read inv with
    | Parsed payload =>
        try_catch (route {| method := verb inv; body := Normal payload |})
          onError
    | ReadThrows thrown => onError thrown
    end.

End WithRuntime.
End LogAnswersV2.

(** Third variant: only the callback of its [answers.map] is embedded (the
    check of the first variant followed by the insert of the second); its
    [try] carries two [catch] clauses, which is not a statement the
    language accepts, so there is no run of its handler to describe. *)
Module LogAnswersV3.
Section WithRuntime.
Context {rt : Runtime}.

Definition answerQuery (userId sessionId timestamp answer : JsVal)
  : completion Statement :=
  bad <- Main.answerIsInvalid answer ;;
  if bad then Throw (new PlainError (Main.invalidAnswerMessage answer)) else
  question_number <- get answer (lit "question_number") ;;
  question_text <- get answer (lit "question_text") ;;
  answer_value <- get answer (lit "answer_value") ;;
  answer_label <- get answer (lit "answer_label") ;;
  Normal {| text := InsertTestAnswers true;
            params := [userId; sessionId; question_number; question_text;
                       answer_value; Main.labelOrNA answer_label;
                       timestamp] |}.

End WithRuntime.
End LogAnswersV3.

(* ================================================================== *)
(** ** The diagnostic endpoints ([api/hello.js] and the server-time
    handler at the head of [api/check-time.js])

    Neither reads the body nor touches the store; what they report comes
    from the process and from [new Date()], which are inputs here. *)

Module Diagnostics.

(** What the process exposes: [process.env.NODE_ENV] ([undefined] when
    unset), [process.version] and the resolved time zone. *)
Record Host : Type := mkHost {
  NODE_ENV : JsVal;
  version : jsstring;
  timeZone : jsstring
}.

(** [new Date()] as the handlers use it: its three renderings
    ([toISOString()], [toUTCString()] and [toString()], the last one named
    [toLocalString] here) and its time value in milliseconds. *)
Record Instant : Type := mkInstant {
  toISOString : jsstring;
  toUTCString : jsstring;
  toLocalString : jsstring;
  getTime : float
}.

(** What has been written to [res]: the body is any JSON value. *)
Record Reply : Type := mkReply {
  replyHeaders : list (jsstring * list jsstring);
  replyStatus : Z;
  replyBody : option JsVal
}.

Definition allowGet : jsstring * list jsstring :=
  (lit "Allow", [lit "GET"; lit "OPTIONS"]).

Definition methodNotAllowed : JsVal :=
  JObj [(lit "message", JStr (lit "Method Not Allowed"))].

(** [process.env.NODE_ENV || 'development'] *)
Definition environment (host : Host) : JsVal :=
  if truthy (NODE_ENV host) then NODE_ENV host
  else JStr (lit "development").

Definition helloHeaders : list (jsstring * list jsstring) :=
  [(lit "Access-Control-Allow-Origin", [lit "*"]);
   (lit "Access-Control-Allow-Methods", [lit "GET, OPTIONS"]);
   (lit "Access-Control-Allow-Headers", [lit "Content-Type"])].

(** [api/hello.js] *)
Definition hello (host : Host) (now : Instant) (method : jsstring) : Reply :=
  if str_eqb method (lit "OPTIONS") then
    {| replyHeaders := helloHeaders; replyStatus := 200; replyBody := None |}
  else if negb (str_eqb method (lit "GET")) then
    {| replyHeaders := helloHeaders ++ [allowGet]; replyStatus := 405;
       replyBody := Some methodNotAllowed |}
  else
    {| replyHeaders := helloHeaders; replyStatus := 200;
       replyBody :=
         Some (JObj [(lit "message", JStr (lit "Hello, World!"));
                     (lit "timestamp", JStr (toISOString now));
                     (lit "environment", environment host)]) |}.

Definition checkTimeHeaders : list (jsstring * list jsstring) :=
  [(lit "Access-Control-Allow-Origin", [lit "https://www.16personalities.com"]);
   (lit "Access-Control-Allow-Methods", [lit "GET, OPTIONS"]);
   (lit "Access-Control-Allow-Headers", [lit "Content-Type"])].

(** The server-time handler; [Math_floor] is the built-in. *)
Definition checkTime (Math_floor : float -> float) (host : Host)
  (now : Instant) (method : jsstring) : Reply :=
  if str_eqb method (lit "OPTIONS") then
    {| replyHeaders := checkTimeHeaders; replyStatus := 200;
       replyBody := None |}
  else if negb (str_eqb method (lit "GET")) then
    {| replyHeaders := checkTimeHeaders ++ [allowGet]; replyStatus := 405;
       replyBody := Some methodNotAllowed |}
  else
    {| replyHeaders := checkTimeHeaders; replyStatus := 200;
       replyBody :=
         Some (JObj
           [(lit "status", JStr (lit "online"));
            (lit "time",
             JObj [(lit "iso", JStr (toISOString now));
                   (lit "utc", JStr (toUTCString now));
                   (lit "local", JStr (toLocalString now));
                   (lit "unixTimestamp",
                    JNum (Math_floor (PrimFloat.div (getTime now) 1000)))]);
            (lit "serverInfo",
             JObj [(lit "timezone", JStr (timeZone host));
                   (lit "nodeVersion", JStr (version host));
                   (lit "env", environment host)])]) |}.

End Diagnostics.

(* ================================================================== *)
(** ** Reference notions the properties are stated with *)

(** The property [k] of [v] where a read cannot throw ([undefined] when [v]
    has no such property). *)
Definition field (v : JsVal) (k : jsstring) : JsVal :=
  match v with
  | JObj fields => lookup k fields
  | _ => JUndefined
  end.

Definition nonEmptyString (v : JsVal) : bool :=
  match v with
  | JStr (_ :: _) => true
  | _ => false
  end.

(** The closed interval [[0,100]] on binary64 numbers. *)
Definition inRange (p : float) : bool :=
  PrimFloat.leb 0 p && PrimFloat.leb p 100.

(** What the range test of the source lets through: the numbers of
    [[0,100]], and NaN, which compares false with everything. *)
Definition passesRangeTest (p : float) : bool :=
  inRange p || PrimFloat.is_nan p.

(** A trait score: a numeric [percent] accepted by [percentOk] and a [type]
    that is a string with something left after trimming. *)
Definition traitScore (percentOk : float -> bool) (entry : JsVal) : Prop :=
  exists p s,
    field entry (lit "percent") = JNum p /\ percentOk p = true /\
    field entry (lit "type") = JStr s /\ trim s <> [].

(** A traits object: all five required keys hold a trait score. *)
Definition validTraits (percentOk : float -> bool) (traits : JsVal) : Prop :=
  Forall (fun trait => traitScore percentOk (field traits trait))
    requiredTraits.

(** [{ percent, type }] *)
Definition score (percent : float) (type : jsstring) : JsVal :=
  JObj [(lit "percent", JNum percent); (lit "type", JStr type)].

(** A traits object whose five scores all carry the given percent. *)
Definition traitsWith (percent : float) : JsVal :=
  JObj (map (fun trait => (trait, score percent (lit "X"))) requiredTraits).

(** Per-element validation of an answer, in the words of the contract:
    [question_number] absent (undefined or null), [question_text] falsy, or
    [answer_value] undefined. *)
Definition illFormed (answer : JsVal) : bool :=
  nullish (field answer (lit "question_number"))
  || negb (truthy (field answer (lit "question_text")))
  || is_undefined (field answer (lit "answer_value")).

(** What per-element validation guarantees of an answer it lets through. *)
Definition accepted (answer : JsVal) : Prop :=
  nullish answer = false
  /\ nullish (field answer (lit "question_number")) = false
  /\ truthy (field answer (lit "question_text")) = true
  /\ is_undefined (field answer (lit "answer_value")) = false.

(** [Number.isInteger] *)
Definition Number_isInteger (n : float) : bool :=
  match Prim2SF n with
  | S754_zero _ => true
  | S754_finite _ m e =>
      (0 <=? e)%Z || (Z.pos m mod 2 ^ (- e) =? 0)%Z
  | _ => false
  end.

Definition isInteger (v : JsVal) : bool :=
  match v with
  | JNum n => Number_isInteger n
  | _ => false
  end.

(** The insert the handlers build for one answer of a request. *)
Definition answerRow (userId sessionId timestamp answer : JsVal) : Statement :=
  {| text := InsertTestAnswers true;
     params := [userId; sessionId;
                field answer (lit "question_number");
                field answer (lit "question_text");
                field answer (lit "answer_value");
                Main.labelOrNA (field answer (lit "answer_label"));
                timestamp] |}.

(** The store went from [st] to [st'] by one call that was accepted. *)
Definition committed (db : Oracle) (st st' : Store) : Prop :=
  exists call,
    db (rows st) call = None
    /\ st' = {| rows := rows st ++ statements call;
                calls := calls st ++ [call] |}.

(** The outcome of a per-type handler: a throw before any store call, a
    500 with an error in the body, or the success code after an accepted
    call. *)
Definition settled (db : Oracle) (success : Z) (st : Store)
  (out : Store * completion Response) : Prop :=
  match out with
  | (st', Throw _) => st' = st
  | (st', Normal r) =>
      (status r = 500%Z /\ exists msg err, sent r = Json (mkBody msg (Some err)))
      \/ (status r = success /\ committed db st st'
          /\ exists msg, sent r = Json (mkBody msg None))
  end.

(** The [answer_label] parameter of an answers insert (the sixth). *)
Definition labelParam (q : Statement) : option JsVal := nth_error (params q) 5.

(** A POST request whose body parsed to [payload]. *)
Definition post (payload : JsVal) : Request :=
  {| method := lit "POST"; body := Normal payload |}.

(** An object literal with ASCII keys. *)
Definition fieldsOf (fields : list (string * JsVal))
  : list (jsstring * JsVal) :=
  map (fun kv => (lit (fst kv), snd kv)) fields.

Definition obj (fields : list (string * JsVal)) : JsVal :=
  JObj (fieldsOf fields).

Definition emptyStore : Store := {| rows := []; calls := [] |}.

(** A database that accepts every call, and one that rejects every call. *)
Definition accepting : Oracle := fun _ _ => None.
Definition rejecting (e : JsError) : Oracle := fun _ _ => Some e.

(** A runtime for closed examples; the messages it renders are never
    inspected beyond their literal parts. *)
Definition plainRuntime : Runtime :=
  {| Number_toString := fun _ => lit "0";
     JSON_stringify := fun _ => lit "{}" |}.

(** The requests of the scenarios. *)
Definition common : list (string * JsVal) :=
  [("userId"%string, JStr (lit "u1"));
   ("sessionId"%string, JStr (lit "s1"));
   ("timestamp"%string, JStr (lit "2024-01-01T00:00:00Z"))].

Definition answer1 : JsVal :=
  obj [("question_number"%string, JNum 1);
       ("question_text"%string, JStr (lit "Q1"));
       ("answer_value"%string, JNum 3)].

Definition answer2_missing_number : JsVal :=
  obj [("question_text"%string, JStr (lit "Q2"))].

Definition answersFields (answers : list JsVal) : list (jsstring * JsVal) :=
  fieldsOf (("type"%string, JStr (lit "answers")) :: common
            ++ [("answers"%string, JArr answers)]).

Definition answersPayload (answers : list JsVal) : JsVal :=
  JObj (answersFields answers).

Definition eventFields (eventName : JsVal) : list (jsstring * JsVal) :=
  fieldsOf (("type"%string, JStr (lit "event"))
            :: ("eventName"%string, eventName) :: common).

Definition eventPayload (eventName : JsVal) : JsVal :=
  JObj (eventFields eventName).

(** An answer with a string for a number and a boolean for a text. *)
Definition answer_loose : JsVal :=
  obj [("question_number"%string, JStr (lit "one"));
       ("question_text"%string, JBool true);
       ("answer_value"%string, JNull)].

(** A valid answer whose label is the empty string. *)
Definition answer_empty_label : JsVal :=
  obj [("question_number"%string, JNum 1);
       ("question_text"%string, JStr (lit "Q1"));
       ("answer_value"%string, JNum 3);
       ("answer_label"%string, JStr [])].

Definition resultPayload : JsVal :=
  obj (("type"%string, JStr (lit "result"))
       :: ("profileUrl"%string,
           JStr (lit "https://www.16personalities.com/profiles/abcd"))
       :: ("mbtiResult"%string, JStr (lit "INTJ Architect"))
       :: ("mbtiCode"%string, JStr (lit "INTJ"))
       :: ("traits"%string,
           obj [("mind"%string, score 60 (lit "Introverted"));
                ("energy"%string, score 55 (lit "Intuitive"));
                ("nature"%string, score 70 (lit "Thinking"));
                ("tactics"%string, score 40 (lit "Judging"));
                ("identity"%string, score 50 (lit "Assertive"))])
       :: common).

Definition storeDown : JsError := new PlainError (lit "connection refused").

(** *** The decision table of the POST endpoint *)

(** The outcome of one store call: the store after it and the status the
    handler answers with. *)
Definition run (db : Oracle) (call : StoreCall) (success : Z) (st : Store)
  : Store * Z :=
  match db (rows st) call with
  | None =>
      ({| rows := rows st ++ statements call; calls := calls st ++ [call] |},
       success)
  | Some _ =>
      ({| rows := rows st; calls := calls st ++ [call] |}, 500%Z)
  end.

(** [mbtiCode] is looked at only when it is truthy. *)
Definition mbtiCodeOk (mbtiCode : JsVal) : bool :=
  negb (truthy mbtiCode) || JsType_eqb (typeof mbtiCode) TString.

Definition profileUrlOk (profileUrl : JsVal) : bool :=
  match profileUrl with
  | JStr s => startsWith s profilePrefix
  | _ => false
  end.

Definition traitsOk (traits : JsVal) : bool :=
  match Main.isValidTraitObject traits with
  | Normal ok => ok
  | Throw _ => false
  end.

(** The four checks a result payload has to pass. *)
Definition resultOk (payload : JsVal) : bool :=
  profileUrlOk (field payload (lit "profileUrl"))
  && nonEmptyString (field payload (lit "mbtiResult"))
  && mbtiCodeOk (field payload (lit "mbtiCode"))
  && traitsOk (field payload (lit "traits")).

(** The percent and type of the five traits, in the order of the columns. *)
Definition traitColumns (traits : JsVal) : list JsVal :=
  flat_map (fun trait =>
              [field (field traits trait) (lit "percent");
               field (field traits trait) (lit "type")])
    requiredTraits.

(** The insert built for a result payload. *)
Definition resultRow (payload : JsVal) : Statement :=
  {| text := InsertTestResults;
     params := [field payload (lit "userId");
                field payload (lit "sessionId");
                field payload (lit "mbtiCode");
                field payload (lit "profileUrl")]
               ++ traitColumns (field payload (lit "traits"))
               ++ [field payload (lit "timestamp")] |}.

Definition eventRow (payload : JsVal) : Statement :=
  Main.eventQuery (field payload (lit "userId"))
    (field payload (lit "sessionId")) (field payload (lit "eventName"))
    (field payload (lit "timestamp")).

Definition answerRows (payload : JsVal) (items : list JsVal)
  : list Statement :=
  map (answerRow (field payload (lit "userId"))
         (field payload (lit "sessionId"))
         (field payload (lit "timestamp"))) items.

Definition commonOk (payload : JsVal) : bool :=
  nonEmptyString (field payload (lit "userId"))
  && nonEmptyString (field payload (lit "sessionId"))
  && nonEmptyString (field payload (lit "timestamp")).

(** What a POST with a parsed body comes to in the refactored handler: the
    store afterwards and the status of the response.  The type is looked at
    first, the common fields inside the per-type handler; a type that is
    none of the three is rendered into the message, and answered 500 when
    it cannot be rendered. *)
Definition decisionTable (db : Oracle) (payload : JsVal) (st : Store)
  : Store * Z :=
  if negb (truthy payload) || negb (JsType_eqb (typeof payload) TObject)
  then (st, 400%Z)
  else
    let type := field payload (lit "type") in
    if is_string type (lit "event")
       && Main.isEventName (field payload (lit "eventName"))
    then
      if commonOk payload
      then run db (Execute (eventRow payload)) 200 st
      else (st, 400%Z)
    else if is_string type (lit "answers") then
      if commonOk payload then
        match field payload (lit "answers") with
        | JArr ((_ :: _) as items) =>
            match find illFormed items with
            | Some answer => (st, if nullish answer then 500%Z else 400%Z)
            | None => run db (Transaction (answerRows payload items)) 201 st
            end
        | _ => (st, 400%Z)
        end
      else (st, 400%Z)
    else if is_string type (lit "result") then
      if commonOk payload then
        if resultOk payload
        then run db (Execute (resultRow payload)) 201 st
        else (st, 400%Z)
      else (st, 400%Z)
    else (st, if convertible type then 400%Z else 500%Z).

(** The same for the second log-answers variant, which checks the common
    fields ahead of the type. *)
Definition decisionTableV2 (db : Oracle) (payload : JsVal) (st : Store)
  : Store * Z :=
  if negb (truthy payload) || negb (JsType_eqb (typeof payload) TObject)
  then (st, 400%Z)
  else if negb (commonOk payload) then (st, 400%Z)
  else decisionTable db payload st.

(** The message of the first common field that is not a non-empty string,
    in the order userId, sessionId, timestamp. *)
Definition firstMissing (payload : JsVal) : jsstring :=
  if negb (nonEmptyString (field payload (lit "userId")))
  then lit "Missing or invalid userId (string required)"
  else if negb (nonEmptyString (field payload (lit "sessionId")))
  then lit "Missing or invalid sessionId (string required)"
  else lit "Missing or invalid timestamp (string required)".

(** The message of the first check a result payload fails. *)
Definition firstResultError (payload : JsVal) : jsstring :=
  if negb (profileUrlOk (field payload (lit "profileUrl")))
  then lit "Missing or invalid profileUrl format"
  else if negb (nonEmptyString (field payload (lit "mbtiResult")))
  then lit "Missing or invalid mbtiResult (full string)"
  else if negb (mbtiCodeOk (field payload (lit "mbtiCode")))
  then lit "Invalid mbtiCode format (should be string or null)"
  else lit "Invalid or incomplete traits object".

(** What a request may do to the store, by the status it is answered with:
    nothing, or exactly one call, which appends its statements when the
    database accepts it (the answer is then 200 or 201) and leaves the rows
    as they were when the database rejects it (the answer is then 500). *)
Definition effect (db : Oracle) (st st' : Store) (code : Z) : Prop :=
  (st' = st /\ In code [200; 400; 405; 500]%Z)
  \/ exists call,
       calls st' = calls st ++ [call]
       /\ ((db (rows st) call = None
            /\ rows st' = rows st ++ statements call
            /\ (code = 200%Z \/ code = 201%Z))
           \/ (exists e, db (rows st) call = Some e)
              /\ rows st' = rows st /\ code = 500%Z).

(** The insert the first log-answers variant builds for one answer: no
    cast, and the label as the client sent it. *)
Definition rawAnswerRow (userId sessionId timestamp answer : JsVal)
  : Statement :=
  {| text := InsertTestAnswers false;
     params := [userId; sessionId;
                field answer (lit "question_number");
                field answer (lit "question_text");
                field answer (lit "answer_value");
                field answer (lit "answer_label");
                timestamp] |}.

(** [error.message.startsWith('Invalid answer format') ||
     error.message.startsWith('Missing')] *)
Definition looksLikeValidation (msg : jsstring) : bool :=
  startsWith msg (lit "Invalid answer format") || startsWith msg (lit "Missing").

(** A store error whose message happens to start with the word Missing. *)
Definition missingColumn : JsError :=
  new PlainError (lit "Missing column answer_label in relation test_answers").

(** Closes the three facts stated of a response once its status and body
    are known. *)
Ltac shape :=
  split;
  [ cbn; auto 10
  | split;
    [ intros [H | H]; first [discriminate H | auto]
    | intros [H | H]; first [discriminate H | eauto] ] ].

(** Closes [exists r, run = (st, Normal r) /\ status r = _ /\ headers r = _]
    once the run has been computed. *)
Ltac answered := eexists; split; [reflexivity | split; reflexivity].

(* ================================================================== *)
(** * Properties *)

Arguments lit : simpl never.

(** ** Strings and property reads *)

Lemma str_eqb_eq (a b : jsstring) : str_eqb a b = true <-> a = b.
Proof.
  revert b; induction a as [|x a IH]; intros [|y b]; cbn [str_eqb];
    try (split; (reflexivity || discriminate)).
  rewrite andb_true_iff, N.eqb_eq, IH.
  split; [intros [-> ->]; reflexivity | intros [= -> ->]; auto].
Qed.

Lemma str_eqb_refl (a : jsstring) : str_eqb a a = true.
Proof. now apply str_eqb_eq. Qed.

Lemma startsWith_app (p rest : jsstring) : startsWith (p ++ rest) p = true.
Proof.
  induction p as [|c p IH]; [reflexivity|].
  cbn [startsWith app]. now rewrite N.eqb_refl, IH.
Qed.

Lemma startsWith_inv (s p : jsstring) :
  startsWith s p = true -> exists rest, s = p ++ rest.
Proof.
  revert s; induction p as [|c p IH]; intros s H.
  - now exists s.
  - destruct s as [|d s]; [discriminate|].
    cbn [startsWith] in H. apply andb_true_iff in H as [Hc Hs].
    apply N.eqb_eq in Hc as ->.
    destruct (IH _ Hs) as [rest ->]. now exists rest.
Qed.

Lemma trimStart_nil (s : jsstring) :
  trimStart s = [] <-> forallb isWhiteSpace s = true.
Proof.
  induction s as [|c s IH]; cbn [trimStart forallb]; [tauto|].
  destruct (isWhiteSpace c); cbn [andb]; [exact IH|].
  split; discriminate.
Qed.

Lemma trimStart_head (s : jsstring) (c : N) (rest : jsstring) :
  trimStart s = c :: rest -> isWhiteSpace c = false.
Proof.
  induction s as [|d s IH]; cbn [trimStart]; [discriminate|].
  destruct (isWhiteSpace d) eqn:E; [exact IH|].
  now intros [= <- _].
Qed.

(** [s.trim() === ''] holds exactly of the strings made of white space. *)
Lemma trim_nil (s : jsstring) :
  trim s = [] <-> forallb isWhiteSpace s = true.
Proof.
  rewrite <- trimStart_nil. unfold trim, trimEnd. split.
  - intros H. apply (f_equal (@rev N)) in H.
    rewrite rev_involutive in H. cbn [rev] in H.
    apply trimStart_nil in H.
    destruct (trimStart s) as [|c rest] eqn:E; [reflexivity|].
    apply trimStart_head in E.
    rewrite forallb_forall in H.
    rewrite (H c) in E; [discriminate E|].
    apply -> in_rev. now left.
  - now intros ->.
Qed.

Lemma get_field (v : JsVal) (k : jsstring) :
  nullish v = false -> get v k = Normal (field v k).
Proof. destruct v; (discriminate || reflexivity). Qed.

Lemma truthy_not_nullish (v : JsVal) : truthy v = true -> nullish v = false.
Proof. destruct v; (discriminate || reflexivity). Qed.

Lemma nonEmptyString_spec (v : JsVal) :
  nonEmptyString v = truthy v && JsType_eqb (typeof v) TString.
Proof. destruct v as [| | [] | | [] | |]; try reflexivity.
  cbn. now rewrite andb_false_r. Qed.

(** ** The range test on binary64 numbers *)

Lemma SFcompare_finite_antisym (m1 : positive) (e1 : Z) (m2 : positive) (e2 : Z) :
  SFcompare (S754_finite false m1 e1) (S754_finite false m2 e2)
  = option_map CompOpp
      (SFcompare (S754_finite false m2 e2) (S754_finite false m1 e1)).
Proof.
  cbn [SFcompare option_map]. f_equal.
  rewrite (Z.compare_antisym e1 e2).
  destruct (e1 ?= e2)%Z; cbn [CompOpp]; trivial.
  change (PosDef.Pos.compare_cont Eq m1 m2) with (Pos.compare m1 m2).
  change (PosDef.Pos.compare_cont Eq m2 m1) with (Pos.compare m2 m1).
  apply Pos.compare_antisym.
Qed.

(** [!(p < 0 || p > 100)] holds of the numbers of [[0,100]] and of NaN. *)
Lemma range_test (p : float) :
  negb (PrimFloat.ltb p 0 || PrimFloat.ltb 100 p)
  = inRange p || PrimFloat.is_nan p.
Proof.
  unfold inRange, PrimFloat.is_nan.
  rewrite !ltb_spec, !leb_spec, eqb_spec.
  change (Prim2SF 0) with (S754_zero false).
  set (h := Prim2SF 100). vm_compute in h. subst h.
  destruct (Prim2SF p) as [s | s | | s m e].
  - destruct s; reflexivity.
  - destruct s; reflexivity.
  - reflexivity.
  - assert (Hrefl : SFeqb (S754_finite s m e) (S754_finite s m e) = true).
    { unfold SFeqb. cbn [SFcompare]. rewrite Z.compare_refl.
      change (PosDef.Pos.compare_cont Eq m m) with (Pos.compare m m).
      rewrite Pos.compare_refl. now destruct s. }
    rewrite Hrefl. destruct s.
    + reflexivity.
    + unfold SFltb, SFleb.
      rewrite (SFcompare_finite_antisym m e).
      destruct (SFcompare (S754_finite false _ _) (S754_finite false m e))
        as [[]|] eqn:E; try reflexivity.
      cbn [SFcompare] in E. discriminate E.
Qed.

Section Validators.
Context {rt : Runtime}.

(** ** [isValidTraitObject] *)

Lemma traitFails_spec (traits : JsVal) (trait : jsstring) :
  nullish traits = false ->
  exists bad, Main.traitFails traits trait = Normal bad /\
    (bad = false <-> traitScore passesRangeTest (field traits trait)).
Proof.
  intros Hn. unfold Main.traitFails. rewrite (get_field _ _ Hn).
  cbn [cbind]. unfold traitScore.
  destruct (field traits trait) as [| | b | n | s | l | fs] eqn:E.
  1-2: exists true; split; [reflexivity|];
       split; [discriminate | intros (p & s & Hp & _); discriminate Hp].
  1-4: destruct (truthy _); cbn [negb cbind get];
       exists true; (split; [reflexivity|]);
       split; try discriminate; intros (p & s' & Hp & _); discriminate Hp.
  cbn [truthy negb get cbind field].
  destruct (lookup (lit "percent") fs) as [| | b | p | s | l | gs] eqn:Ep;
    try (exists true; split; [reflexivity|];
         split; [discriminate | intros (p' & s' & Hp & _); discriminate Hp]).
  pose proof (range_test p) as Hr.
  unfold passesRangeTest.
  destruct (PrimFloat.ltb p 0 || PrimFloat.ltb 100 p).
  { exists true; split; [reflexivity|]. split; [discriminate|].
    intros (p' & s' & [= <-] & Hok & _). rewrite Hok in Hr. discriminate Hr. }
  cbn [negb] in Hr. cbn [cbind].
  destruct (lookup (lit "type") fs) as [| | b | n | s | l | gs] eqn:Et;
    try (exists true; split; [reflexivity|];
         split; [discriminate | intros (p' & s' & _ & _ & Hs & _); discriminate Hs]).
  exists (str_eqb (trim s) []). split; [reflexivity|]. split.
  - intros Hb. exists p, s. repeat split; auto.
    intros Ht. rewrite Ht in Hb. discriminate Hb.
  - intros (p' & s' & _ & _ & [= <-] & Hne).
    destruct (str_eqb (trim s) []) eqn:Eb; [|reflexivity].
    apply str_eqb_eq in Eb. contradiction.
Qed.

Lemma forRequiredTraits_spec (traits : JsVal) (keys : list jsstring) :
  nullish traits = false ->
  exists ok, Main.forRequiredTraits traits keys = Normal ok /\
    (ok = true <->
     Forall (fun trait => traitScore passesRangeTest (field traits trait)) keys).
Proof.
  intros Hn. induction keys as [|k keys (ok & Hrun & Hok)].
  - exists true. split; [reflexivity|]. split; auto.
  - cbn [Main.forRequiredTraits].
    destruct (traitFails_spec traits k Hn) as (bad & -> & Hbad). cbn [cbind].
    destruct bad.
    + exists false. split; [reflexivity|]. split; [discriminate|].
      intros H. inversion H as [|? ? Hk _]; subst.
      apply Hbad in Hk. discriminate Hk.
    + exists ok. split; [exact Hrun|]. rewrite Hok. split.
      * intros H. constructor; [now apply Hbad | exact H].
      * intros H. now inversion H.
Qed.

(** [isValidTraitObject] never throws, and answers [true] exactly on the
    traits objects whose five scores pass the range test. *)
Lemma isValidTraitObject_spec (traits : JsVal) :
  exists ok, Main.isValidTraitObject traits = Normal ok /\
    (ok = true <-> validTraits passesRangeTest traits).
Proof.
  unfold Main.isValidTraitObject, validTraits.
  destruct (negb (truthy traits) || negb (JsType_eqb (typeof traits) TObject))
    eqn:Eg.
  - exists false. split; [reflexivity|]. split; [discriminate|].
    intros H. exfalso.
    inversion H as [|? ? (p & s & Hp & _) _]; subst.
    destruct traits as [| | | | | |fs]; try discriminate Hp.
    discriminate Eg.
  - apply forRequiredTraits_spec.
    destruct traits; try reflexivity; discriminate Eg.
Qed.

End Validators.

Lemma field_traitsWith_mind (p : float) :
  field (traitsWith p) (lit "mind") = score p (lit "X").
Proof. reflexivity. Qed.

Lemma validTraits_traitsWith (ok : float -> bool) (p : float) :
  validTraits ok (traitsWith p) <-> ok p = true.
Proof.
  split.
  - intros H. inversion H as [|? ? (q & s & Hq & Hok & _) _]; subst.
    rewrite field_traitsWith_mind in Hq. cbn in Hq.
    now injection Hq as <-.
  - intros Hok. unfold validTraits, requiredTraits.
    repeat constructor;
      (exists p, (lit "X"); repeat split; [exact Hok | discriminate]).
Qed.

(** C2, as amended.  [isValidTraitObject] never throws and returns [true]
    exactly when the argument is an object whose five keys mind, energy,
    nature, tactics and identity each hold an entry with a numeric [percent]
    that passes the range test of the source and a [type] that is a string
    with something left after trimming.  The range test [p < 0 || p > 100]
    lets through every number of the closed interval [[0,100]], 0 and 100
    included, and NaN; -0.001, 100.001 and every number below 0 or above
    100, the infinities among them, are rejected. *)
Theorem isValidTraitObject_range_or_NaN :
  (forall traits,
      Main.isValidTraitObject traits = Normal true
      \/ Main.isValidTraitObject traits = Normal false)
  /\ (forall traits,
         Main.isValidTraitObject traits = Normal true
         <-> validTraits passesRangeTest traits)
  /\ (forall p, passesRangeTest p = inRange p || PrimFloat.is_nan p)
  /\ Main.isValidTraitObject (traitsWith 0) = Normal true
  /\ Main.isValidTraitObject (traitsWith 100) = Normal true
  /\ Main.isValidTraitObject (traitsWith (-0.001)) = Normal false
  /\ Main.isValidTraitObject (traitsWith 100.001) = Normal false
  /\ Main.isValidTraitObject (traitsWith infinity) = Normal false
  /\ Main.isValidTraitObject (traitsWith neg_infinity) = Normal false
  /\ (forall p,
         PrimFloat.ltb p 0 = true \/ PrimFloat.ltb 100 p = true ->
         Main.isValidTraitObject (traitsWith p) = Normal false)
  /\ (forall p,
         inRange p = true ->
         Main.isValidTraitObject (traitsWith p) = Normal true).
Proof.
  assert (Hiff : forall traits,
             Main.isValidTraitObject traits = Normal true
             <-> validTraits passesRangeTest traits).
  { intros traits.
    destruct (isValidTraitObject_spec traits) as (ok & -> & Hok).
    rewrite <- Hok. split; [now intros [= ->] | now intros ->]. }
  assert (Htotal : forall traits,
             Main.isValidTraitObject traits = Normal true
             \/ Main.isValidTraitObject traits = Normal false).
  { intros traits.
    destruct (isValidTraitObject_spec traits) as ([] & -> & _); auto. }
  repeat split; try (vm_compute; reflexivity); try apply Hiff; auto.
  - intros p Hout.
    destruct (Htotal (traitsWith p)) as [Hyes | Hno]; [exfalso | exact Hno].
    apply Hiff, validTraits_traitsWith in Hyes.
    unfold passesRangeTest in Hyes. rewrite <- range_test in Hyes.
    destruct Hout as [H | H]; rewrite H in Hyes;
      [| rewrite orb_true_r in Hyes]; discriminate Hyes.
  - intros p Hin. apply Hiff, validTraits_traitsWith.
    unfold passesRangeTest. now rewrite Hin.
Qed.

Lemma isValidTraitObject_range_or_NaN_witness :
  Main.isValidTraitObject (traitsWith 150) = Normal false
  /\ Main.isValidTraitObject (traitsWith 37.5) = Normal true.
Proof.
  split.
  - apply isValidTraitObject_range_or_NaN. right. reflexivity.
  - apply isValidTraitObject_range_or_NaN. reflexivity.
Defined.

(** C2 as stated fails: a traits object whose percents are NaN is accepted,
    although NaN is a number outside the closed interval [[0,100]]. *)
Lemma isValidTraitObject_accepts_NaN :
  Main.isValidTraitObject (traitsWith nan) = Normal true
  /\ typeof (JNum nan) = TNumber
  /\ inRange nan = false
  /\ ~ validTraits inRange (traitsWith nan).
Proof.
  repeat split; try (vm_compute; reflexivity).
  intros H. apply validTraits_traitsWith in H. vm_compute in H.
  discriminate H.
Qed.

(** ** [validateCommonFields] *)

(** C5, as amended.  On a payload that is not null or undefined,
    [validateCommonFields] throws a ValidationError exactly when at least
    one of userId, sessionId and timestamp is missing, is not a string, or
    is the empty string; when all three are non-empty strings it returns
    exactly those three fields. *)
Theorem validateCommonFields_spec (payload : JsVal) :
  nullish payload = false ->
  let userId := field payload (lit "userId") in
  let sessionId := field payload (lit "sessionId") in
  let timestamp := field payload (lit "timestamp") in
  let allThere :=
    nonEmptyString userId && nonEmptyString sessionId
    && nonEmptyString timestamp in
  (allThere = true ->
   Main.validateCommonFields payload = Normal (userId, sessionId, timestamp))
  /\ (allThere = false ->
      exists msg,
        Main.validateCommonFields payload = Throw (new ValidationError msg))
  /\ ((exists e, Main.validateCommonFields payload = Throw e
                 /\ ename e = ValidationError)
      <-> allThere = false).
Proof.
  intros Hn userId sessionId timestamp allThere.
  unfold Main.validateCommonFields. rewrite !(get_field _ _ Hn).
  cbn [cbind]. fold userId sessionId timestamp.
  subst allThere. rewrite !nonEmptyString_spec.
  destruct (truthy userId), (JsType_eqb (typeof userId) TString);
    cbn [negb orb andb];
    try (repeat split; try discriminate; eauto;
         intros _ ; eexists; split; reflexivity).
  destruct (truthy sessionId), (JsType_eqb (typeof sessionId) TString);
    cbn [negb orb andb];
    try (repeat split; try discriminate; eauto;
         intros _ ; eexists; split; reflexivity).
  destruct (truthy timestamp), (JsType_eqb (typeof timestamp) TString);
    cbn [negb orb andb];
    try (repeat split; try discriminate; eauto;
         intros _ ; eexists; split; reflexivity).
  repeat split; try discriminate; auto.
  intros (e & He & _). discriminate He.
Qed.

Lemma validateCommonFields_spec_witness :
  Main.validateCommonFields (obj common)
  = Normal (JStr (lit "u1"), JStr (lit "s1"),
            JStr (lit "2024-01-01T00:00:00Z")).
Proof.
  exact (proj1 (validateCommonFields_spec (obj common) eq_refl) eq_refl).
Defined.

(** C5 as stated fails: with userId the empty string all three fields are
    strings, yet [validateCommonFields] throws a ValidationError. *)
Lemma validateCommonFields_rejects_empty_string :
  let payload :=
    obj [("userId"%string, JStr []);
         ("sessionId"%string, JStr (lit "s1"));
         ("timestamp"%string, JStr (lit "2024-01-01T00:00:00Z"))] in
  typeof (field payload (lit "userId")) = TString
  /\ typeof (field payload (lit "sessionId")) = TString
  /\ typeof (field payload (lit "timestamp")) = TString
  /\ Main.validateCommonFields payload
     = Throw (new ValidationError
                (lit "Missing or invalid userId (string required)")).
Proof. repeat split. Qed.

(** ** Per-answer validation *)

Lemma answerIsInvalid_spec (answer : JsVal) :
  nullish answer = false ->
  Main.answerIsInvalid answer = Normal (illFormed answer).
Proof.
  intros Hn. unfold Main.answerIsInvalid, illFormed, nullish.
  now rewrite !(get_field _ _ Hn).
Qed.

Lemma answerIsInvalid_nullish (answer : JsVal) :
  nullish answer = true ->
  exists msg, Main.answerIsInvalid answer = Throw (new TypeError msg).
Proof.
  destruct answer; try discriminate; intros _; eexists; reflexivity.
Qed.

Lemma answerIsInvalid_false (answer : JsVal) :
  Main.answerIsInvalid answer = Normal false -> accepted answer.
Proof.
  intros H. destruct (nullish answer) eqn:Hn.
  - destruct (answerIsInvalid_nullish _ Hn) as (msg & Hm).
    rewrite Hm in H. discriminate H.
  - rewrite (answerIsInvalid_spec _ Hn) in H. injection H as H.
    unfold illFormed in H.
    apply orb_false_iff in H as [H Hav].
    apply orb_false_iff in H as [Hqn Hqt].
    apply negb_false_iff in Hqt. now repeat split.
Qed.

Lemma accepted_wellFormed (answer : JsVal) :
  accepted answer <-> nullish answer = false /\ illFormed answer = false.
Proof.
  unfold accepted, illFormed. split.
  - intros (Hn & -> & -> & ->). auto.
  - intros (Hn & H).
    apply orb_false_iff in H as [H Hav].
    apply orb_false_iff in H as [Hqn Hqt].
    apply negb_false_iff in Hqt. now repeat split.
Qed.

Section Answers.
Context {rt : Runtime}.

(** Over elements that are not null or undefined, the [forEach] of
    [validateAnswers] stops at the first ill-formed answer. *)
Lemma forEachAnswer_spec (items : list JsVal) :
  Forall (fun a => nullish a = false) items ->
  Main.forEachAnswer items
  = match find illFormed items with
    | Some answer =>
        Throw (new ValidationError (Main.invalidAnswerMessage answer))
    | None => Normal tt
    end.
Proof.
  induction 1 as [|a items Ha _ IH]; [reflexivity|].
  cbn [Main.forEachAnswer find]. rewrite (answerIsInvalid_spec _ Ha).
  cbn [cbind]. now destruct (illFormed a).
Qed.

Lemma forEachAnswer_accepts (items : list JsVal) :
  Main.forEachAnswer items = Normal tt -> Forall accepted items.
Proof.
  induction items as [|a items IH]; intros H; [constructor|].
  cbn [Main.forEachAnswer] in H.
  destruct (Main.answerIsInvalid a) as [[]|e] eqn:Ea; try discriminate H.
  constructor; [now apply answerIsInvalid_false | now apply IH].
Qed.

(** What a successful [validateAnswers] says of its argument. *)
Lemma validateAnswers_inv (answers v : JsVal) :
  Main.validateAnswers answers = Normal v ->
  v = answers /\ exists items,
    answers = JArr items /\ items <> [] /\ Forall accepted items.
Proof.
  unfold Main.validateAnswers.
  destruct answers as [| | | | | [|a items] |]; try discriminate.
  destruct (Main.forEachAnswer (a :: items)) as [[]|e] eqn:E;
    try discriminate.
  cbn [cbind]. intros [= <-]. split; [reflexivity|].
  exists (a :: items). repeat split; [discriminate|].
  now apply forEachAnswer_accepts.
Qed.

(** [validateAnswers] on arrays without null or undefined elements. *)
Lemma validateAnswers_spec (items : list JsVal) :
  Forall (fun a => nullish a = false) items ->
  Main.validateAnswers (JArr items)
  = match items with
    | [] => Throw (new ValidationError (missingAnswers []))
    | _ :: _ =>
        match find illFormed items with
        | Some answer =>
            Throw (new ValidationError (Main.invalidAnswerMessage answer))
        | None => Normal (JArr items)
        end
    end.
Proof.
  intros H. destruct items as [|a items]; [reflexivity|].
  unfold Main.validateAnswers. rewrite (forEachAnswer_spec _ H).
  now destruct (find illFormed (a :: items)).
Qed.

(** C6, at the input where the code departs from it.  The second element
    of [[null, {}]] has an undefined [question_number], so the claim has
    [validateAnswers] throw a ValidationError; reading [question_number]
    off the first element throws a TypeError instead, and the handler
    answers 500 where a validation failure would be answered 400. *)
Theorem validateAnswers_null_element (db : Oracle) (st : Store) :
  let answers := [JNull; obj []] in
  existsb illFormed answers = true
  /\ (exists msg,
        Main.validateAnswers (JArr answers) = Throw (new TypeError msg))
  /\ (exists msg,
        Main.validateAnswers (JArr [JNull]) = Throw (new TypeError msg))
  /\ (exists r,
        Main.handler db (post (answersPayload answers)) st = (st, Normal r)
        /\ status r = 500%Z).
Proof.
  repeat split; try (eexists; reflexivity).
  eexists. split; reflexivity.
Qed.

(** C8, as amended.  An element accepted by the answers validation (the
    [forEach] of [validateAnswers], and the check at the head of the [map]
    callback of the older variants) is not null or undefined, has a
    [question_number] that is neither undefined nor null, a truthy
    [question_text] (so not the empty string), and an [answer_value] that is
    not undefined.  Whether [question_number] is an integer and whether
    [question_text] is a string is not checked. *)
Theorem accepted_answer_shape (answer : JsVal) :
  (exists items v,
      Main.validateAnswers (JArr items) = Normal v /\ In answer items)
  \/ (exists userId sessionId timestamp q,
         LogAnswersV3.answerQuery userId sessionId timestamp answer
         = Normal q) ->
  accepted answer /\ field answer (lit "question_text") <> JStr [].
Proof.
  intros H.
  assert (Hacc : accepted answer).
  { destruct H as [(items & v & Hv & Hin) | (u & s & t & q & Hq)].
    - apply validateAnswers_inv in Hv as (_ & items' & [= <-] & _ & Hacc).
      rewrite Forall_forall in Hacc. now apply Hacc.
    - unfold LogAnswersV3.answerQuery in Hq.
      destruct (Main.answerIsInvalid answer) as [[]|e] eqn:E;
        try discriminate Hq.
      now apply answerIsInvalid_false. }
  split; [exact Hacc|].
  destruct Hacc as (_ & _ & Hqt & _). intros E. rewrite E in Hqt.
  discriminate Hqt.
Qed.

End Answers.

Lemma accepted_answer_shape_witness :
  accepted answer1 /\ field answer1 (lit "question_text") <> JStr [].
Proof.
  apply (@accepted_answer_shape plainRuntime answer1).
  left. exists [answer1], (JArr [answer1]). split; [reflexivity|].
  left; reflexivity.
Defined.

(** C8 as stated fails: an answer whose [question_number] is a string and
    whose [question_text] is the boolean [true] passes the validation, in
    [validateAnswers] and in the [map] callback of the older variant. *)
Lemma validation_accepts_loose_answer :
  @Main.validateAnswers plainRuntime (JArr [answer_loose])
  = Normal (JArr [answer_loose])
  /\ (exists q,
        @LogAnswersV3.answerQuery plainRuntime JNull JNull JNull answer_loose
        = Normal q)
  /\ isInteger (field answer_loose (lit "question_number")) = false
  /\ nonEmptyString (field answer_loose (lit "question_text")) = false.
Proof.
  repeat split. eexists. reflexivity.
Qed.

(** ** [validateTestResult] *)

Lemma profilePrefix_truthy (rest : jsstring) :
  truthy (JStr (profilePrefix ++ rest)) = true.
Proof. reflexivity. Qed.

(** C9.  On a result payload, [validateTestResult] throws the profileUrl
    ValidationError whenever [profileUrl] is not a string that starts with
    the fixed prefix; a [profileUrl] made of the prefix and anything after
    it passes that check, whatever follows the prefix: the outcome is then
    that of the later checks (success, or one of their three errors). *)
Theorem validateTestResult_profileUrl (payload : JsVal) :
  nullish payload = false ->
  let profileUrl := field payload (lit "profileUrl") in
  ((forall rest, profileUrl <> JStr (profilePrefix ++ rest)) ->
   Main.validateTestResult payload
   = Throw (new ValidationError (lit "Missing or invalid profileUrl format")))
  /\ (forall rest,
         profileUrl = JStr (profilePrefix ++ rest) ->
         Main.validateTestResult payload
         = Normal (profileUrl, field payload (lit "mbtiResult"),
                   field payload (lit "mbtiCode"),
                   field payload (lit "traits"))
         \/ exists msg,
              In msg [lit "Missing or invalid mbtiResult (full string)";
                      lit "Invalid mbtiCode format (should be string or null)";
                      lit "Invalid or incomplete traits object"]
              /\ Main.validateTestResult payload
                 = Throw (new ValidationError msg)).
Proof.
  intros Hn profileUrl. unfold Main.validateTestResult.
  rewrite !(get_field _ _ Hn). cbn [cbind]. fold profileUrl. split.
  - intros Hno.
    destruct profileUrl as [| | b | n | s | l | fs];
      try (now rewrite orb_true_r); try reflexivity.
    destruct (startsWith s profilePrefix) eqn:Es.
    + apply startsWith_inv in Es as (rest & ->). now destruct (Hno rest).
    + cbn [negb]. now rewrite orb_true_r.
  - intros rest ->.
    rewrite profilePrefix_truthy, startsWith_app. cbn [typeof JsType_eqb negb orb].
    destruct (negb (truthy _) || negb (JsType_eqb _ TString)).
    { right. eexists. split; [|reflexivity]. cbn; auto. }
    destruct (truthy _ && negb (JsType_eqb _ TString)).
    { right. eexists. split; [|reflexivity]. cbn; auto. }
    destruct (isValidTraitObject_spec (field payload (lit "traits")))
      as ([] & -> & _); cbn [cbind negb].
    + left. reflexivity.
    + right. eexists. split; [|reflexivity]. cbn; auto.
Qed.

Lemma validateTestResult_profileUrl_witness :
  Main.validateTestResult
    (obj [("profileUrl"%string, JStr (lit "https://example.com/profiles/abcd"))])
  = Throw (new ValidationError (lit "Missing or invalid profileUrl format")).
Proof.
  apply (proj1 (validateTestResult_profileUrl
                  (obj [("profileUrl"%string,
                         JStr (lit "https://example.com/profiles/abcd"))])
                  eq_refl)).
  intros rest E. vm_compute in E. discriminate E.
Defined.

(** ** The label of a built answers insert *)

Lemma get_Normal (v : JsVal) (k : jsstring) (x : JsVal) :
  get v k = Normal x -> nullish v = false /\ x = field v k.
Proof. destruct v; cbn; intros [= <-] || discriminate; auto. Qed.

Section Labels.
Context {rt : Runtime}.

Lemma answerQuery_Normal (userId sessionId timestamp answer : JsVal)
  (q : Statement) :
  Main.answerQuery userId sessionId timestamp answer = Normal q
  \/ LogAnswersV2.answerQuery userId sessionId timestamp answer = Normal q
  \/ LogAnswersV3.answerQuery userId sessionId timestamp answer = Normal q ->
  nullish answer = false /\ q = answerRow userId sessionId timestamp answer.
Proof.
  destruct (nullish answer) eqn:Hn.
  - destruct answer; try discriminate Hn;
      intros [H | [H | H]]; discriminate H.
  - unfold Main.answerQuery, LogAnswersV2.answerQuery,
      LogAnswersV3.answerQuery.
    rewrite (answerIsInvalid_spec _ Hn), !(get_field _ _ Hn). cbn [cbind].
    intros [H | [H | H]]; split; trivial;
      try (destruct (illFormed answer); try discriminate H);
      now injection H as <-.
Qed.

End Labels.

(** ** Requests through the handlers *)

Lemma nonEmptyString_pass (v : JsVal) :
  nonEmptyString v = true ->
  truthy v = true /\ JsType_eqb (typeof v) TString = true.
Proof. rewrite nonEmptyString_spec. now intros H%andb_true_iff. Qed.

Lemma commonFieldsMissing_false (userId sessionId timestamp : JsVal) :
  nonEmptyString userId = true -> nonEmptyString sessionId = true ->
  nonEmptyString timestamp = true ->
  commonFieldsMissing userId sessionId timestamp = false.
Proof.
  unfold commonFieldsMissing.
  intros [-> ->]%nonEmptyString_pass [-> ->]%nonEmptyString_pass
    [-> ->]%nonEmptyString_pass.
  reflexivity.
Qed.

Lemma validateCommonFields_ok (payload : JsVal) :
  nullish payload = false ->
  nonEmptyString (field payload (lit "userId")) = true ->
  nonEmptyString (field payload (lit "sessionId")) = true ->
  nonEmptyString (field payload (lit "timestamp")) = true ->
  Main.validateCommonFields payload
  = Normal (field payload (lit "userId"), field payload (lit "sessionId"),
            field payload (lit "timestamp")).
Proof.
  intros Hn [Hu Hu']%nonEmptyString_pass [Hs Hs']%nonEmptyString_pass
    [Ht Ht']%nonEmptyString_pass.
  unfold Main.validateCommonFields. rewrite !(get_field _ _ Hn).
  cbn [cbind]. now rewrite Hu, Hu', Hs, Hs', Ht, Ht'.
Qed.

Lemma isEventName_spec (eventName : JsVal) :
  Main.isEventName eventName = true
  <-> eventName = JStr (lit "test_started")
      \/ eventName = JStr (lit "test_finished").
Proof.
  unfold Main.isEventName, is_string. split.
  - destruct eventName; try discriminate.
    intros [H | H]%orb_true_iff; apply str_eqb_eq in H; subst; auto.
  - intros [-> | ->]; reflexivity.
Qed.

Lemma interpolate_eventName {rt : Runtime} (eventName : JsVal) :
  Main.isEventName eventName = true ->
  interpolate eventName = Normal (ToString eventName).
Proof. destruct eventName; (discriminate || reflexivity). Qed.

Lemma interpolate_convertible {rt : Runtime} (v : JsVal) :
  convertible v = true -> interpolate v = Normal (ToString v).
Proof. unfold interpolate. now intros ->. Qed.

Lemma interpolate_stuck {rt : Runtime} (v : JsVal) :
  convertible v = false ->
  interpolate v
  = Throw (new TypeError (lit "Cannot convert object to primitive value")).
Proof. unfold interpolate. now intros ->. Qed.

Section Handlers.
Context {rt : Runtime} (db : Oracle).

Lemma handler_post (payload : JsVal) (st : Store) :
  Main.handler db (post payload) st
  = try_catch (Main.route db (post payload)) Main.onError st.
Proof. reflexivity. Qed.

(** C7.  A POST whose payload has type "event" reaches [handleEvent], the
    only place an event insert is issued, exactly when [eventName] is the
    string "test_started" or "test_finished"; with any other [eventName]
    it is answered 400 with the invalid-payload-type message and the store
    is left as it was: no call is made. *)
Theorem event_dispatch (fields : list (jsstring * JsVal)) (st : Store) :
  lookup (lit "type") fields = JStr (lit "event") ->
  let payload := JObj fields in
  let eventName := lookup (lit "eventName") fields in
  (Main.isEventName eventName = true
   <-> eventName = JStr (lit "test_started")
       \/ eventName = JStr (lit "test_finished"))
  /\ (Main.isEventName eventName = true ->
      Main.handler db (post payload) st
      = try_catch (Main.handleEvent db payload) Main.onError st)
  /\ (Main.isEventName eventName = false ->
      Main.handler db (post payload) st
      = (st, Normal (json Main.corsHeaders 400
                       (lit "Invalid payload type specified: 'event'")))).
Proof.
  intros Htype payload eventName.
  split; [apply isEventName_spec|].
  rewrite handler_post. unfold try_catch, Main.route, post, payload.
  cbn [body lift bind get truthy typeof JsType_eqb negb orb].
  rewrite Htype. fold eventName.
  split; intros ->; reflexivity.
Qed.

(** C3, as amended.  In the refactored handler and in the second
    log-answers variant, an event request that passes validation and whose
    single INSERT the store rejects is answered 500 with the store's error
    message in the body; nothing is committed.  (The first log-answers
    variant logs the failure and answers 200.) *)
Theorem event_store_failure (fields : list (jsstring * JsVal)) (st : Store)
  (e : JsError) :
  let payload := JObj fields in
  let userId := lookup (lit "userId") fields in
  let sessionId := lookup (lit "sessionId") fields in
  let timestamp := lookup (lit "timestamp") fields in
  let eventName := lookup (lit "eventName") fields in
  let insert := Execute (Main.eventQuery userId sessionId eventName timestamp) in
  lookup (lit "type") fields = JStr (lit "event") ->
  Main.isEventName eventName = true ->
  nonEmptyString userId = true ->
  nonEmptyString sessionId = true ->
  nonEmptyString timestamp = true ->
  db (rows st) insert = Some e ->
  let failed :=
    ({| rows := rows st; calls := calls st ++ [insert] |},
     Normal (json_error Main.corsHeaders 500
               (lit "Error logging " ++ ToString eventName ++ lit " event")
               (emessage e))) in
  Main.handler db (post payload) st = failed
  /\ LogAnswersV2.handler db (post payload) st = failed.
Proof.
  intros payload userId sessionId timestamp eventName insert
    Htype Hev Hu Hs Ht Hdb failed.
  split.
  - rewrite handler_post. unfold try_catch, Main.route, post, payload.
    cbn [body lift bind get truthy typeof JsType_eqb negb orb].
    rewrite Htype. fold eventName. rewrite Hev.
    cbn [is_string andb]. rewrite str_eqb_refl.
    unfold Main.handleEvent, bind, lift, try_catch.
    rewrite (validateCommonFields_ok (JObj fields) eq_refl Hu Hs Ht).
    cbn [get field]. rewrite (interpolate_eventName _ Hev).
    fold userId sessionId timestamp eventName insert.
    unfold perform. cbn [andb]. now rewrite Hdb.
  - unfold LogAnswersV2.handler, post. cbn [method].
    change (str_eqb (lit "POST") (lit "OPTIONS")) with false.
    change (str_eqb (lit "POST") (lit "POST")) with true.
    cbn [negb]. unfold try_catch, LogAnswersV2.route, payload.
    cbn [body lift bind get truthy typeof JsType_eqb negb orb].
    fold userId sessionId timestamp eventName.
    rewrite (commonFieldsMissing_false _ _ _ Hu Hs Ht). cbn [bind lift].
    rewrite Htype, Hev.
    cbn [is_string andb]. rewrite str_eqb_refl.
    unfold try_catch, bind, perform. fold insert. cbn [andb].
    now rewrite Hdb.
Qed.

End Handlers.

Lemma event_dispatch_witness :
  @Main.handler plainRuntime accepting
    (post (eventPayload (JStr (lit "test_paused")))) emptyStore
  = (emptyStore,
     Normal (json Main.corsHeaders 400
               (lit "Invalid payload type specified: 'event'"))).
Proof.
  refine (proj2 (proj2 (@event_dispatch plainRuntime accepting
                          (eventFields (JStr (lit "test_paused"))) emptyStore
                          eq_refl)) eq_refl).
Defined.

Lemma event_store_failure_witness :
  @Main.handler plainRuntime (rejecting storeDown)
    (post (eventPayload (JStr (lit "test_started")))) emptyStore
  = ({| rows := [];
        calls := [Execute (Main.eventQuery (JStr (lit "u1")) (JStr (lit "s1"))
                             (JStr (lit "test_started"))
                             (JStr (lit "2024-01-01T00:00:00Z")))] |},
     Normal (json_error Main.corsHeaders 500
               (lit "Error logging test_started event")
               (lit "connection refused"))).
Proof.
  refine (proj1 (@event_store_failure plainRuntime (rejecting storeDown)
                   (eventFields (JStr (lit "test_started"))) emptyStore
                   storeDown
                   eq_refl eq_refl eq_refl eq_refl eq_refl eq_refl)).
Defined.

(** C3 as stated fails on the first log-answers variant: the store rejects
    the event insert, nothing is committed, and the handler still answers
    200 with the success message. *)
Lemma first_variant_swallows_event_failure :
  @LogAnswersV1.handler plainRuntime (rejecting storeDown)
    (post (eventPayload (JStr (lit "test_started")))) emptyStore
  = ({| rows := [];
        calls := [Execute {| text := InsertTestEvents false;
                             params := [JStr (lit "u1"); JStr (lit "s1");
                                        JStr (lit "test_started");
                                        JStr (lit "2024-01-01T00:00:00Z")] |}] |},
     Normal (json LogAnswersV1.corsHeaders 200
               (lit "test_started event received (logged server-side)"))).
Proof. reflexivity. Qed.

(** ** Answers requests *)

Section AnswersRequests.
Context {rt : Runtime} (db : Oracle).

Lemma map_answerQuery (userId sessionId timestamp : JsVal)
  (items : list JsVal) :
  Forall (fun a => nullish a = false) items ->
  map_completion (Main.answerQuery userId sessionId timestamp) items
  = Normal (map (answerRow userId sessionId timestamp) items).
Proof.
  induction 1 as [|a items Ha _ IH]; [reflexivity|].
  cbn [map_completion map]. rewrite IH.
  unfold Main.answerQuery. now rewrite !(get_field _ _ Ha).
Qed.

Lemma map_answerQuery_V2 (userId sessionId timestamp : JsVal)
  (items : list JsVal) :
  Forall (fun a => nullish a = false) items ->
  map_completion (LogAnswersV2.answerQuery userId sessionId timestamp) items
  = match find illFormed items with
    | Some answer =>
        Throw {| ename := PlainError;
                 emessage := Main.invalidAnswerMessage answer;
                 isValidationError := true |}
    | None => Normal (map (answerRow userId sessionId timestamp) items)
    end.
Proof.
  induction 1 as [|a items Ha _ IH]; [reflexivity|].
  cbn [map_completion map find]. rewrite IH.
  unfold LogAnswersV2.answerQuery.
  rewrite (answerIsInvalid_spec _ Ha), !(get_field _ _ Ha).
  destruct (illFormed a); [reflexivity|]. cbn [cbind].
  now destruct (find illFormed items).
Qed.

(** X18.  Take an answers request whose common fields validate and whose
    [answers] array holds no null or undefined element.  If some
    element fails per-element validation, no store call is made (the store
    is left as it was) and the answer is 400 with an error naming the first
    offending element.  If the array is non-empty and every element
    validates, exactly one call is made, a single transaction carrying one
    insert per element in order: when the store accepts it every row is
    committed and the answer is 201, when the store rejects it no row is
    committed and the answer is 500 with the store's message.  This holds
    of the refactored handler and of the second log-answers variant. *)
Theorem answers_all_or_nothing (fields : list (jsstring * JsVal))
  (items : list JsVal) (st : Store) :
  let payload := JObj fields in
  let userId := lookup (lit "userId") fields in
  let sessionId := lookup (lit "sessionId") fields in
  let timestamp := lookup (lit "timestamp") fields in
  lookup (lit "type") fields = JStr (lit "answers") ->
  nonEmptyString userId = true ->
  nonEmptyString sessionId = true ->
  nonEmptyString timestamp = true ->
  lookup (lit "answers") fields = JArr items ->
  Forall (fun a => nullish a = false) items ->
  (forall answer,
      find illFormed items = Some answer ->
      Main.handler db (post payload) st
      = (st, Normal (json_error Main.corsHeaders 400
                       (lit "Data validation failed")
                       (Main.invalidAnswerMessage answer)))
      /\ LogAnswersV2.handler db (post payload) st
         = (st, Normal (json_error Main.corsHeaders 400
                          (lit "Data validation failed for answers")
                          (Main.invalidAnswerMessage answer))))
  /\ (items <> [] ->
      find illFormed items = None ->
      let inserts := map (answerRow userId sessionId timestamp) items in
      let outcome :=
        match db (rows st) (Transaction inserts) with
        | None =>
            ({| rows := rows st ++ inserts;
                calls := calls st ++ [Transaction inserts] |},
             Normal (json Main.corsHeaders 201
                       (lit "Successfully logged "
                        ++ nat_toString (List.length items)
                        ++ lit " answers.")))
        | Some e =>
            ({| rows := rows st;
                calls := calls st ++ [Transaction inserts] |},
             Normal (json_error Main.corsHeaders 500
                       (lit "Database error inserting answers")
                       (emessage e)))
        end in
      Main.handler db (post payload) st = outcome
      /\ LogAnswersV2.handler db (post payload) st = outcome).
Proof.
  intros payload userId sessionId timestamp Htype Hu Hs Ht Hans Hnn.
  assert (Hmain : Main.handler db (post payload) st
                  = try_catch (Main.handleAnswers db payload) Main.onError st).
  { rewrite handler_post. unfold try_catch, Main.route, post, payload.
    cbn [body lift bind get truthy typeof JsType_eqb negb orb].
    now rewrite Htype. }
  assert (Hv2 : LogAnswersV2.handler db (post payload) st
                = LogAnswersV2.handleAnswers db userId sessionId timestamp
                    (JArr items) st).
  { unfold LogAnswersV2.handler, post. cbn [method].
    change (str_eqb (lit "POST") (lit "OPTIONS")) with false.
    change (str_eqb (lit "POST") (lit "POST")) with true.
    cbn [negb]. unfold try_catch, LogAnswersV2.route, payload.
    cbn [body lift bind get truthy typeof JsType_eqb negb orb].
    fold userId sessionId timestamp.
    rewrite (commonFieldsMissing_false _ _ _ Hu Hs Ht). cbn [bind lift].
    rewrite Htype, Hans. cbn [is_string andb].
    change (str_eqb (lit "answers") (lit "event")) with false.
    rewrite str_eqb_refl. cbn [andb bind lift].
    unfold LogAnswersV2.handleAnswers.
    destruct items as [|a items']; [reflexivity|].
    unfold try_catch, bind, lift.
    destruct (map_completion _ _) as [qs|e0]; [|cbn [validationMark]; destruct (isValidationError e0); reflexivity].
    unfold perform. now destruct (db (rows st) (Transaction qs)). }
  rewrite Hmain, Hv2. clear Hmain Hv2. subst payload.
  unfold Main.handleAnswers, LogAnswersV2.handleAnswers, try_catch, bind, lift.
  rewrite (validateCommonFields_ok (JObj fields) eq_refl Hu Hs Ht).
  cbn [get field]. fold userId sessionId timestamp. rewrite Hans.
  rewrite (validateAnswers_spec _ Hnn).
  split.
  - intros answer Hfind.
    destruct items as [|a items']; [discriminate Hfind|].
    rewrite (map_answerQuery_V2 _ _ _ _ Hnn), Hfind. split; reflexivity.
  - intros Hne Hfind.
    destruct items as [|a items']; [now destruct Hne|].
    rewrite (map_answerQuery_V2 _ _ _ _ Hnn), Hfind.
    cbn [elements]. rewrite (map_answerQuery _ _ _ _ Hnn).
    unfold perform.
    destruct (db (rows st) (Transaction _)); split; reflexivity.
Qed.

End AnswersRequests.

Lemma answers_all_or_nothing_witness :
  @Main.handler plainRuntime accepting
    (post (answersPayload [answer1; answer2_missing_number])) emptyStore
  = (emptyStore,
     Normal (json_error Main.corsHeaders 400
               (lit "Data validation failed")
               (@Main.invalidAnswerMessage plainRuntime
                  answer2_missing_number))).
Proof.
  refine (proj1 (proj1 (@answers_all_or_nothing plainRuntime accepting
                          (answersFields [answer1; answer2_missing_number])
                          [answer1; answer2_missing_number] emptyStore
                          eq_refl eq_refl eq_refl eq_refl eq_refl _)
                   answer2_missing_number eq_refl)).
  repeat constructor.
Defined.

(** C1.  At a null element the handlers leave the contract of the answers
    request.  The request carries valid common fields and the answers
    [[null, {}]]; the second element fails per-element validation, so the
    answer should be a 400 naming the offending answer.  Reading
    [question_number] off the first element throws a TypeError instead,
    which neither handler takes for a validation failure: both answer 500,
    with the store untouched.  It is the missed case of [validateAnswers]
    (C6), met again in the [map] callback of the second variant. *)
Theorem answers_null_element_500 {rt : Runtime} (db : Oracle) (st : Store) :
  let payload := answersPayload [JNull; obj []] in
  let thrown :=
    lit "Cannot read properties of null (reading 'question_number')" in
  commonOk payload = true
  /\ illFormed (obj []) = true
  /\ Main.handler db (post payload) st
     = (st, Normal (json_error Main.corsHeaders 500
                      (lit "Internal Server Error processing request.")
                      thrown))
  /\ LogAnswersV2.handler db (post payload) st
     = (st, Normal (json_error Main.corsHeaders 500
                      (lit "Internal server error processing answers")
                      thrown)).
Proof. repeat split. Qed.

(** ** Every request is answered *)

Section Boundary.
Context {rt : Runtime} (db : Oracle).

Lemma perform_settled (call : StoreCall) (st : Store) (success : Z)
  (hs : list (jsstring * list jsstring)) (ok failure : jsstring) :
  settled db success st
    (try_catch
       (_ <~ perform db call ;; ret (json hs success ok))
       (fun dbError => answerWith hs 500 failure dbError)
       st).
Proof.
  unfold try_catch, bind, perform, settled.
  destruct (db (rows st) call) as [e|] eqn:E; cbn.
  - left. split; [reflexivity|]. eauto.
  - right. split; [reflexivity|]. split; [|eauto]. now exists call.
Qed.

Lemma handleEvent_settled (payload : JsVal) (st : Store) :
  settled db 200 st (Main.handleEvent db payload st).
Proof.
  unfold Main.handleEvent, bind at 1, lift at 1.
  destruct (Main.validateCommonFields payload) as [[[u s] t]|e];
    [|reflexivity].
  unfold bind at 1, lift at 1.
  destruct (get payload (lit "eventName")) as [ev|e]; [|reflexivity].
  unfold bind at 1, lift at 1.
  destruct (interpolate ev) as [name|e]; [|reflexivity].
  apply perform_settled.
Qed.

Lemma handleAnswers_settled (payload : JsVal) (st : Store) :
  settled db 201 st (Main.handleAnswers db payload st).
Proof.
  unfold Main.handleAnswers, bind at 1, lift at 1.
  destruct (Main.validateCommonFields payload) as [[[u s] t]|e];
    [|reflexivity].
  unfold bind at 1, lift at 1.
  destruct (get payload (lit "answers")) as [a|e]; [|reflexivity].
  unfold bind at 1, lift at 1.
  destruct (Main.validateAnswers a) as [answers|e]; [|reflexivity].
  unfold try_catch, bind, lift, perform, settled.
  destruct (elements answers) as [items|e];
    [|cbn; left; split; [reflexivity | eauto]].
  destruct (map_completion (Main.answerQuery u s t) items) as [qs|e];
    [|cbn; left; split; [reflexivity | eauto]].
  destruct (db (rows st) (Transaction qs)) as [e|] eqn:E; cbn.
  - left. split; [reflexivity|]. eauto.
  - right. split; [reflexivity|]. split; [|eauto].
    now exists (Transaction qs).
Qed.

Lemma handleTestResult_settled (payload : JsVal) (st : Store) :
  settled db 201 st (Main.handleTestResult db payload st).
Proof.
  unfold Main.handleTestResult, bind at 1, lift at 1.
  destruct (Main.validateCommonFields payload) as [[[u s] t]|e];
    [|reflexivity].
  unfold bind at 1, lift at 1.
  destruct (Main.validateTestResult payload) as [[[[p m] c] tr]|e];
    [|reflexivity].
  unfold try_catch, bind, lift, perform, settled.
  destruct (Main.allTraitParams tr requiredTraits) as [ps|e];
    [|cbn; left; split; [reflexivity | eauto]].
  match goal with
  | |- context [db (rows st) ?c] =>
      destruct (db (rows st) c) as [e|] eqn:E; cbn;
      [ left; split; [reflexivity | eauto]
      | right; split; [reflexivity|]; split; [now exists c | eauto] ]
  end.
Qed.

(** The [try] block of the handler: a throw leaves the store untouched, a
    400 is sent before any store call, and otherwise the per-type handler
    has settled. *)
Lemma route_settled (req : Request) (st : Store) :
  match Main.route db req st with
  | (st', Throw _) => st' = st
  | (st', Normal r) =>
      (status r = 400%Z /\ st' = st
       /\ exists msg, sent r = Json (mkBody msg None))
      \/ settled db 200 st (st', Normal r)
      \/ settled db 201 st (st', Normal r)
  end.
Proof.
  unfold Main.route, bind at 1, lift at 1.
  destruct (body req) as [payload|e]; [|reflexivity].
  destruct (negb (truthy payload) || negb (JsType_eqb (typeof payload) TObject)).
  { left. cbn. eauto. }
  unfold bind at 1, lift at 1.
  destruct (get payload (lit "type")) as [type|e]; [|reflexivity].
  unfold bind at 1, lift at 1.
  destruct (get payload (lit "eventName")) as [ev|e]; [|reflexivity].
  destruct (is_string type (lit "event") && Main.isEventName ev).
  { pose proof (handleEvent_settled payload st) as H.
    destruct (Main.handleEvent db payload st) as [st' [r|e]]; auto. }
  destruct (is_string type (lit "answers")).
  { pose proof (handleAnswers_settled payload st) as H.
    destruct (Main.handleAnswers db payload st) as [st' [r|e]]; auto. }
  destruct (is_string type (lit "result")).
  { pose proof (handleTestResult_settled payload st) as H.
    destruct (Main.handleTestResult db payload st) as [st' [r|e]]; auto. }
  unfold bind, lift.
  destruct (interpolate type) as [shown|e]; [|reflexivity].
  left. cbn. eauto.
Qed.

(** The three outer [catch] blocks on an [Error] instance. *)
Lemma onError_answers (error : JsError) (st : Store) :
  exists code msg,
    Main.onError error st
    = (st, Normal (json_error Main.corsHeaders code msg (emessage error)))
    /\ (code = 400%Z \/ code = 500%Z)
    /\ (code = 400%Z
        <-> ename error = ValidationError \/ ename error = SyntaxError).
Proof.
  unfold Main.onError, isInstance, instanceof.
  destruct (ename error); cbn;
    do 2 eexists; (split; [reflexivity|]); split; auto;
    split; auto; try discriminate; intros [H | H]; discriminate H.
Qed.

Lemma onError_V1_answers (error : JsError) (st : Store) :
  exists code msg,
    LogAnswersV1.onError error st
    = (st, Normal (json_error LogAnswersV1.corsHeaders code msg
                     (emessage error)))
    /\ (code = 400%Z \/ code = 500%Z).
Proof.
  unfold LogAnswersV1.onError, bind, lift.
  cbn [message_of cbind message_startsWith].
  destruct (startsWith (emessage error) (lit "Invalid answer format"));
    [|destruct (startsWith (emessage error) (lit "Missing"))];
    do 2 eexists; (split; [reflexivity | auto]).
Qed.

Lemma onError_V2_answers (error : JsError) (st : Store) :
  exists code msg,
    LogAnswersV2.onError error st
    = (st, Normal (json_error LogAnswersV2.corsHeaders code msg
                     (emessage error)))
    /\ (code = 400%Z \/ code = 500%Z).
Proof.
  unfold LogAnswersV2.onError, bind, lift.
  cbn [message_of cbind message_startsWith].
  destruct (startsWith (emessage error) (lit "Invalid answer format"));
    [|destruct (startsWith (emessage error) (lit "Missing"))];
    cbn [cbind orb];
    [ | | destruct (isInstance error SyntaxError)];
    do 2 eexists; (split; [reflexivity | auto]).
Qed.

(** The same blocks on a thrown value that is not an [Error] instance: the
    read of [error.message] throws on [null] and [undefined], and the call
    of [startsWith] throws on a message that is not a string. *)
Lemma onError_raw (v : JsVal) (st : Store) :
  if nullish v
  then exists e,
         Main.onError (Raw v) st = (st, Throw e) /\ ename e = TypeError
  else Main.onError (Raw v) st
       = (st, Normal (json_with Main.corsHeaders 500
                        (lit "Internal Server Error processing request.")
                        (field v (lit "message")))).
Proof.
  unfold Main.onError, answerWith, bind, lift.
  destruct v; cbn; eauto.
Qed.

Lemma onError_variants_raw (v : JsVal) (st : Store) :
  match field v (lit "message") with
  | JStr s =>
      (exists code msg,
          LogAnswersV1.onError (Raw v) st
          = (st, Normal (json_error LogAnswersV1.corsHeaders code msg s))
          /\ (code = 400%Z \/ code = 500%Z))
      /\ (exists code msg,
             LogAnswersV2.onError (Raw v) st
             = (st, Normal (json_error LogAnswersV2.corsHeaders code msg s))
             /\ (code = 400%Z \/ code = 500%Z))
  | _ =>
      (exists e,
          LogAnswersV1.onError (Raw v) st = (st, Throw e)
          /\ ename e = TypeError)
      /\ (exists e,
             LogAnswersV2.onError (Raw v) st = (st, Throw e)
             /\ ename e = TypeError)
  end.
Proof.
  unfold LogAnswersV1.onError, LogAnswersV2.onError, answerWith, bind, lift.
  destruct v as [| | b | n | s | items | fields];
    cbn [field message_of get cbind message_startsWith isInstance orb];
    try (split; eexists; split; reflexivity).
  destruct (lookup (lit "message") fields) as [| | b | n | s | items | fs];
    cbn [cbind message_startsWith];
    try (split; eexists; split; reflexivity).
  destruct (startsWith s (lit "Invalid answer format"));
    [|destruct (startsWith s (lit "Missing"))];
    cbn [cbind orb]; split; do 2 eexists; (split; [reflexivity | auto]).
Qed.

(** The handlers on a request are the handlers with the free body read,
    taken at a read that throws [Error] instances. *)
Lemma handler_serve (req : Request) (st : Store) :
  Main.handler db req st = Main.serve db (invocation req) st
  /\ LogAnswersV1.handler db req st = LogAnswersV1.serve db (invocation req) st
  /\ LogAnswersV2.handler db req st = LogAnswersV2.serve db (invocation req) st.
Proof.
  unfold Main.handler, Main.serve, LogAnswersV1.handler, LogAnswersV1.serve,
    LogAnswersV2.handler, LogAnswersV2.serve, invocation.
  cbn [verb read].
  destruct (str_eqb (method req) (lit "OPTIONS")); [repeat split|].
  destruct (negb (str_eqb (method req) (lit "POST"))); [repeat split|].
  unfold try_catch, Main.route, LogAnswersV1.route, LogAnswersV2.route.
  unfold bind at 1 3 5 7, lift at 1 3 5 7.
  cbn [body].
  destruct (body req) as [payload|e]; repeat split.
Qed.

(** C4, as amended.  Take any request, with nothing assumed of what reading
    its body throws, and let the errors raised during processing be [Error]
    instances: the read of the body, if it throws, throws one, as the store
    does when it rejects a call and as the handlers' own code does.  Then
    the handler returns a response and never throws.  In the refactored
    handler the status is one of 200, 201, 400, 405 and 500, and a 200 or
    201 is sent only for a preflight or after the one store call was
    accepted: every error raised on the way (a body that fails to parse, a
    validation failure, a failure while the statements are built, a store
    failure) ends in a 400 or a 500 with a JSON body.  An error that
    reaches the outer [catch] is answered 400 when it is a ValidationError
    or a SyntaxError and 500 otherwise, with its message in the body.  The
    first and second log-answers variants never throw either, and their
    outer [catch] answers 400 or 500 with the error's message to every
    error that reaches it (a store failure on the event path of the first
    does not: an inner [catch] swallows it and the answer is 200).  The
    restriction to [Error] instances is needed: handed a thrown [null] or
    [undefined], the outer [catch] of the refactored handler throws while
    reading [error.message], and the outer [catch] of the variants throws
    on every thrown value whose [message] is not a string.  (A per-type
    [catch] of the refactored handler and of the second variant sits
    inside the outer [try]: whatever it is handed, the answer is 500.) *)
Theorem handler_never_throws (inv : Invocation) (st : Store) :
  (forall thrown, read inv = ReadThrows thrown -> exists e, thrown = Err e) ->
  (exists st' r,
      Main.serve db inv st = (st', Normal r)
      /\ In (status r) [200; 201; 400; 405; 500]%Z
      /\ (status r = 200%Z \/ status r = 201%Z ->
          sent r = End \/ committed db st st')
      /\ (status r = 400%Z \/ status r = 500%Z ->
          exists b, sent r = Json b))
  /\ (exists st' r, LogAnswersV1.serve db inv st = (st', Normal r))
  /\ (exists st' r, LogAnswersV2.serve db inv st = (st', Normal r))
  /\ (forall req : Request,
         Main.handler db req st = Main.serve db (invocation req) st
         /\ LogAnswersV1.handler db req st
            = LogAnswersV1.serve db (invocation req) st
         /\ LogAnswersV2.handler db req st
            = LogAnswersV2.serve db (invocation req) st)
  /\ (forall (req : Request) st1 error,
         method req = lit "POST" ->
         Main.route db req st = (st1, Throw error) ->
         st1 = st
         /\ exists code msg,
              Main.handler db req st
              = (st, Normal (json_error Main.corsHeaders code msg
                               (emessage error)))
              /\ (code = 400%Z \/ code = 500%Z)
              /\ (code = 400%Z
                  <-> ename error = ValidationError
                      \/ ename error = SyntaxError))
  /\ (forall (req : Request) st1 error,
         method req = lit "POST" ->
         LogAnswersV1.route db req st = (st1, Throw error) ->
         exists code msg,
           LogAnswersV1.handler db req st
           = (st1, Normal (json_error LogAnswersV1.corsHeaders code msg
                             (emessage error)))
           /\ (code = 400%Z \/ code = 500%Z))
  /\ (forall (thrown : Thrown) hs msg,
         (exists r,
             try_catch (answerWith hs 500 msg thrown) Main.onError st
             = (st, Normal r) /\ status r = 500%Z)
         /\ (exists r,
                try_catch (answerWith hs 500 msg thrown) LogAnswersV2.onError
                  st
                = (st, Normal r) /\ status r = 500%Z))
  /\ (forall v : JsVal,
         (nullish v = true ->
          exists e,
            Main.onError (Raw v) st = (st, Throw e) /\ ename e = TypeError)
         /\ (nullish v = false ->
             exists r,
               Main.onError (Raw v) st = (st, Normal r) /\ status r = 500%Z)
         /\ ((forall s, field v (lit "message") <> JStr s) ->
             (exists e,
                 LogAnswersV1.onError (Raw v) st = (st, Throw e)
                 /\ ename e = TypeError)
             /\ (exists e,
                    LogAnswersV2.onError (Raw v) st = (st, Throw e)
                    /\ ename e = TypeError))).
Proof.
  intros Hread.
  repeat match goal with |- _ /\ _ => split end.
  - unfold Main.serve.
    destruct (str_eqb (verb inv) (lit "OPTIONS")).
    { do 2 eexists. split; [reflexivity|]. cbn [status sent]. shape. }
    destruct (negb (str_eqb (verb inv) (lit "POST"))).
    { do 2 eexists. split; [reflexivity|]. cbn [status sent json]. shape. }
    destruct (read inv) as [payload|thrown].
    + unfold try_catch.
      pose proof (route_settled
                    {| method := verb inv; body := Normal payload |} st) as H.
      destruct (Main.route db _ st) as [st' [r|e]].
      * exists st', r. split; [reflexivity|].
        destruct H as [(Hs & -> & msg & Hb)
                      | [[(Hs & msg & err & Hb) | (Hs & Hc & msg & Hb)]
                        | [(Hs & msg & err & Hb) | (Hs & Hc & msg & Hb)]]];
          rewrite Hs, Hb; shape.
      * subst st'.
        destruct (onError_answers e st) as (code & msg & -> & [-> | ->] & _);
          do 2 eexists; (split; [reflexivity|]);
          cbn [status sent json_error]; shape.
    + destruct (Hread thrown eq_refl) as [e ->].
      destruct (onError_answers e st) as (code & msg & -> & [-> | ->] & _);
        do 2 eexists; (split; [reflexivity|]);
        cbn [status sent json_error]; shape.
  - unfold LogAnswersV1.serve.
    destruct (str_eqb (verb inv) (lit "OPTIONS")); [unfold ret; eauto|].
    destruct (negb (str_eqb (verb inv) (lit "POST"))); [unfold ret; eauto|].
    destruct (read inv) as [payload|thrown].
    + unfold try_catch.
      destruct (LogAnswersV1.route db _ st) as [st' [r|e]]; [eauto|].
      destruct (onError_V1_answers e st') as (code & msg & -> & _). eauto.
    + destruct (Hread thrown eq_refl) as [e ->].
      destruct (onError_V1_answers e st) as (code & msg & -> & _). eauto.
  - unfold LogAnswersV2.serve.
    destruct (str_eqb (verb inv) (lit "OPTIONS")); [unfold ret; eauto|].
    destruct (negb (str_eqb (verb inv) (lit "POST"))); [unfold ret; eauto|].
    destruct (read inv) as [payload|thrown].
    + unfold try_catch.
      destruct (LogAnswersV2.route db _ st) as [st' [r|e]]; [eauto|].
      destruct (onError_V2_answers e st') as (code & msg & -> & _). eauto.
    + destruct (Hread thrown eq_refl) as [e ->].
      destruct (onError_V2_answers e st) as (code & msg & -> & _). eauto.
  - intros req. apply handler_serve.
  - intros req st1 error Hpost Hroute.
    pose proof (route_settled req st) as H. rewrite Hroute in H. subst st1.
    split; [reflexivity|].
    unfold Main.handler. rewrite Hpost.
    change (str_eqb (lit "POST") (lit "OPTIONS")) with false.
    change (str_eqb (lit "POST") (lit "POST")) with true.
    cbn [negb]. unfold try_catch. rewrite Hroute.
    apply onError_answers.
  - intros req st1 error Hpost Hroute.
    unfold LogAnswersV1.handler. rewrite Hpost.
    change (str_eqb (lit "POST") (lit "OPTIONS")) with false.
    change (str_eqb (lit "POST") (lit "POST")) with true.
    cbn [negb]. unfold try_catch. rewrite Hroute.
    apply onError_V1_answers.
  - intros [e|v] hs msg; [|destruct v];
      split; eexists; split; reflexivity.
  - intros v. split; [|split].
    + intros Hn. pose proof (onError_raw v st) as H. now rewrite Hn in H.
    + intros Hn. pose proof (onError_raw v st) as H. rewrite Hn in H.
      rewrite H. eexists. split; reflexivity.
    + intros Hm. pose proof (onError_variants_raw v st) as H.
      destruct (field v (lit "message")) as [| | b | n | s | items | fs];
        try exact H.
      now destruct (Hm s).
Qed.

End Boundary.

Lemma handler_never_throws_witness :
  let parseError := new SyntaxError (lit "Unexpected token } in JSON") in
  let inv := {| verb := lit "POST"; read := ReadThrows (Err parseError) |} in
  exists st' r,
    @Main.serve plainRuntime accepting inv emptyStore = (st', Normal r)
    /\ In (status r) [200; 201; 400; 405; 500]%Z
    /\ (status r = 200%Z \/ status r = 201%Z ->
        sent r = End \/ committed accepting emptyStore st')
    /\ (status r = 400%Z \/ status r = 500%Z ->
        exists b, sent r = Json b).
Proof.
  refine (proj1
            (@handler_never_throws plainRuntime accepting
               {| verb := lit "POST";
                  read := ReadThrows
                            (Err (new SyntaxError
                                    (lit "Unexpected token } in JSON"))) |}
               emptyStore _)).
  intros thrown H. injection H as <-. eexists. reflexivity.
Defined.

(** C4 as stated fails twice.  On the first log-answers variant the store
    rejects the event insert, an error raised during processing, and the
    response is neither a 400 nor a 500.  And a thrown value can make the
    handler itself throw: when reading the body throws [null], the outer
    [catch] of the refactored handler throws a TypeError while reading
    [error.message]; so does the one of the first variant, which also
    throws when handed a thrown string. *)
Lemma first_variant_answers_200_after_store_error :
  let req := post (eventPayload (JStr (lit "test_finished"))) in
  let inv := {| verb := lit "POST"; read := ReadThrows (Raw JNull) |} in
  let escaped :=
    Throw (new TypeError
             (lit "Cannot read properties of null (reading 'message')")) in
  ((forall committedRows call,
       rejecting storeDown committedRows call = Some storeDown)
   /\ exists st' r,
        @LogAnswersV1.handler plainRuntime (rejecting storeDown) req emptyStore
        = (st', Normal r)
        /\ rows st' = []
        /\ status r = 200%Z)
  /\ @Main.serve plainRuntime accepting inv emptyStore = (emptyStore, escaped)
  /\ @LogAnswersV1.serve plainRuntime accepting inv emptyStore
     = (emptyStore, escaped)
  /\ LogAnswersV1.onError (Raw (JStr (lit "timeout"))) emptyStore
     = (emptyStore,
        Throw (new TypeError
                 (lit "Cannot read properties of undefined (reading 'startsWith')"))).
Proof.
  repeat split. do 2 eexists. repeat split.
Qed.

(** ** The scenarios of the specification, run on the embedding *)

Example scenario_event :
  exists st' r,
    @Main.handler plainRuntime accepting
      (post (eventPayload (JStr (lit "test_started")))) emptyStore
    = (st', Normal r)
    /\ status r = 200%Z
    /\ rows st'
       = [Main.eventQuery (JStr (lit "u1")) (JStr (lit "s1"))
            (JStr (lit "test_started")) (JStr (lit "2024-01-01T00:00:00Z"))].
Proof. do 2 eexists. repeat split. Qed.

Example scenario_answers :
  exists st' r,
    @Main.handler plainRuntime accepting
      (post (answersPayload [answer1])) emptyStore
    = (st', Normal r)
    /\ status r = 201%Z
    /\ rows st'
       = [answerRow (JStr (lit "u1")) (JStr (lit "s1"))
            (JStr (lit "2024-01-01T00:00:00Z")) answer1]
    /\ sent r = Json (mkBody (lit "Successfully logged 1 answers.") None).
Proof. do 2 eexists. repeat split. Qed.

Example scenario_answers_missing_number :
  exists r,
    @Main.handler plainRuntime accepting
      (post (answersPayload [answer1; answer2_missing_number])) emptyStore
    = (emptyStore, Normal r)
    /\ status r = 400%Z.
Proof. eexists. split; reflexivity. Qed.

Example scenario_result :
  exists st' r,
    @Main.handler plainRuntime accepting (post resultPayload) emptyStore
    = (st', Normal r)
    /\ status r = 201%Z
    /\ map params (rows st')
       = [[JStr (lit "u1"); JStr (lit "s1"); JStr (lit "INTJ");
           JStr (lit "https://www.16personalities.com/profiles/abcd");
           JNum 60; JStr (lit "Introverted");
           JNum 55; JStr (lit "Intuitive");
           JNum 70; JStr (lit "Thinking");
           JNum 40; JStr (lit "Judging");
           JNum 50; JStr (lit "Assertive");
           JStr (lit "2024-01-01T00:00:00Z")]].
Proof. do 2 eexists. repeat split. Qed.

Example scenario_preflight (db : Oracle) (b : completion JsVal) :
  @Main.handler plainRuntime db {| method := lit "OPTIONS"; body := b |}
    emptyStore
  = (emptyStore,
     Normal {| headers := Main.corsHeaders; status := 200; sent := End |}).
Proof. reflexivity. Qed.

Example scenario_wrong_method (db : Oracle) (b : completion JsVal) :
  exists r,
    @Main.handler plainRuntime db {| method := lit "GET"; body := b |}
      emptyStore
    = (emptyStore, Normal r)
    /\ status r = 405%Z
    /\ In allowHeader (headers r).
Proof. eexists. repeat split. cbn. auto 10. Qed.

(* ================================================================== *)
(** * Further properties of the handlers *)

Lemma illFormed_nullish (answer : JsVal) :
  nullish answer = true -> illFormed answer = true.
Proof. destruct answer; (discriminate || reflexivity). Qed.

Lemma wellFormed_not_nullish (answer : JsVal) :
  illFormed answer = false -> nullish answer = false.
Proof.
  destruct (nullish answer) eqn:E; [|reflexivity].
  now rewrite (illFormed_nullish _ E).
Qed.

Lemma find_none_wellFormed (items : list JsVal) :
  find illFormed items = None ->
  Forall (fun a => nullish a = false) items.
Proof.
  induction items as [|a items IH]; [constructor|].
  cbn [find]. destruct (illFormed a) eqn:E; [discriminate|].
  intros H. constructor; [now apply wellFormed_not_nullish | now apply IH].
Qed.

Lemma commonFieldsMissing_commonOk (payload : JsVal) :
  commonFieldsMissing (field payload (lit "userId"))
    (field payload (lit "sessionId")) (field payload (lit "timestamp"))
  = negb (commonOk payload).
Proof.
  unfold commonFieldsMissing, commonOk. rewrite !nonEmptyString_spec.
  destruct (truthy (field payload (lit "userId"))),
    (truthy (field payload (lit "sessionId"))),
    (truthy (field payload (lit "timestamp"))),
    (JsType_eqb (typeof (field payload (lit "userId"))) TString),
    (JsType_eqb (typeof (field payload (lit "sessionId"))) TString),
    (JsType_eqb (typeof (field payload (lit "timestamp"))) TString);
    reflexivity.
Qed.

Lemma commonOk_fields (payload : JsVal) :
  commonOk payload = true ->
  nonEmptyString (field payload (lit "userId")) = true
  /\ nonEmptyString (field payload (lit "sessionId")) = true
  /\ nonEmptyString (field payload (lit "timestamp")) = true.
Proof.
  unfold commonOk. intros [[Hu Hs]%andb_true_iff Ht]%andb_true_iff. auto.
Qed.

Lemma validateCommonFields_fail (payload : JsVal) :
  nullish payload = false ->
  commonOk payload = false ->
  Main.validateCommonFields payload
  = Throw (new ValidationError (firstMissing payload)).
Proof.
  intros Hn Hc. unfold Main.validateCommonFields, firstMissing.
  rewrite !(get_field _ _ Hn). cbn [cbind].
  unfold commonOk in Hc. rewrite !nonEmptyString_spec in *.
  destruct (truthy (field payload (lit "userId"))),
    (JsType_eqb (typeof (field payload (lit "userId"))) TString);
    cbn [negb orb andb] in *; try reflexivity.
  destruct (truthy (field payload (lit "sessionId"))),
    (JsType_eqb (typeof (field payload (lit "sessionId"))) TString);
    cbn [negb orb andb] in *; try reflexivity.
  destruct (truthy (field payload (lit "timestamp"))),
    (JsType_eqb (typeof (field payload (lit "timestamp"))) TString);
    cbn [negb orb andb] in *; try reflexivity.
  discriminate Hc.
Qed.

Section Stops.
Context {rt : Runtime}.

(** The [forEach] of [validateAnswers] is decided by the first element
    that is null, undefined or ill-formed. *)
Lemma forEachAnswer_find (items : list JsVal) :
  match find illFormed items with
  | None => Main.forEachAnswer items = Normal tt
  | Some answer =>
      if nullish answer
      then exists msg, Main.forEachAnswer items = Throw (new TypeError msg)
      else Main.forEachAnswer items
           = Throw (new ValidationError (Main.invalidAnswerMessage answer))
  end.
Proof.
  induction items as [|a items IH]; [reflexivity|].
  cbn [find Main.forEachAnswer].
  destruct (nullish a) eqn:Hn.
  - rewrite (illFormed_nullish _ Hn), Hn.
    destruct (answerIsInvalid_nullish _ Hn) as (msg & ->). now exists msg.
  - rewrite (answerIsInvalid_spec _ Hn). cbn [cbind].
    destruct (illFormed a); [now rewrite Hn | exact IH].
Qed.

Lemma answerQuery_V2_cases (userId sessionId timestamp a : JsVal) :
  if nullish a
  then exists msg,
      LogAnswersV2.answerQuery userId sessionId timestamp a
      = Throw (new TypeError msg)
  else LogAnswersV2.answerQuery userId sessionId timestamp a
       = if illFormed a
         then Throw {| ename := PlainError;
                       emessage := Main.invalidAnswerMessage a;
                       isValidationError := true |}
         else Normal (answerRow userId sessionId timestamp a).
Proof.
  unfold LogAnswersV2.answerQuery. destruct (nullish a) eqn:Hn.
  - destruct (answerIsInvalid_nullish _ Hn) as (msg & ->). now exists msg.
  - rewrite (answerIsInvalid_spec _ Hn), !(get_field _ _ Hn).
    now destruct (illFormed a).
Qed.

Lemma answerQuery_V1_cases (userId sessionId timestamp a : JsVal) :
  if nullish a
  then exists msg,
      LogAnswersV1.answerQuery userId sessionId timestamp a
      = Throw (new TypeError msg)
  else LogAnswersV1.answerQuery userId sessionId timestamp a
       = if illFormed a
         then Throw (new PlainError (Main.invalidAnswerMessage a))
         else Normal (rawAnswerRow userId sessionId timestamp a).
Proof.
  unfold LogAnswersV1.answerQuery. destruct (nullish a) eqn:Hn.
  - destruct (answerIsInvalid_nullish _ Hn) as (msg & ->). now exists msg.
  - rewrite (answerIsInvalid_spec _ Hn), !(get_field _ _ Hn).
    now destruct (illFormed a).
Qed.

Lemma map_answerQuery_V2_find (userId sessionId timestamp : JsVal)
  (items : list JsVal) :
  match find illFormed items with
  | None =>
      map_completion (LogAnswersV2.answerQuery userId sessionId timestamp)
        items
      = Normal (map (answerRow userId sessionId timestamp) items)
  | Some answer =>
      if nullish answer
      then exists msg,
          map_completion (LogAnswersV2.answerQuery userId sessionId timestamp)
            items
          = Throw (new TypeError msg)
      else map_completion (LogAnswersV2.answerQuery userId sessionId timestamp)
             items
           = Throw {| ename := PlainError;
                      emessage := Main.invalidAnswerMessage answer;
                      isValidationError := true |}
  end.
Proof.
  induction items as [|a items IH]; [reflexivity|].
  cbn [find map_completion map].
  pose proof (answerQuery_V2_cases userId sessionId timestamp a) as Ha.
  destruct (nullish a) eqn:Hn.
  - rewrite (illFormed_nullish _ Hn), Hn.
    destruct Ha as (msg & ->). now exists msg.
  - rewrite Ha. destruct (illFormed a); [now rewrite Hn|]. cbn [cbind].
    destruct (find illFormed items) as [b|].
    + destruct (nullish b).
      * destruct IH as (msg & ->). now exists msg.
      * now rewrite IH.
    + now rewrite IH.
Qed.

Lemma map_answerQuery_V1_find (userId sessionId timestamp : JsVal)
  (items : list JsVal) :
  match find illFormed items with
  | None =>
      map_completion (LogAnswersV1.answerQuery userId sessionId timestamp)
        items
      = Normal (map (rawAnswerRow userId sessionId timestamp) items)
  | Some answer =>
      if nullish answer
      then exists msg,
          map_completion (LogAnswersV1.answerQuery userId sessionId timestamp)
            items
          = Throw (new TypeError msg)
      else map_completion (LogAnswersV1.answerQuery userId sessionId timestamp)
             items
           = Throw (new PlainError (Main.invalidAnswerMessage answer))
  end.
Proof.
  induction items as [|a items IH]; [reflexivity|].
  cbn [find map_completion map].
  pose proof (answerQuery_V1_cases userId sessionId timestamp a) as Ha.
  destruct (nullish a) eqn:Hn.
  - rewrite (illFormed_nullish _ Hn), Hn.
    destruct Ha as (msg & ->). now exists msg.
  - rewrite Ha. destruct (illFormed a); [now rewrite Hn|]. cbn [cbind].
    destruct (find illFormed items) as [b|].
    + destruct (nullish b).
      * destruct IH as (msg & ->). now exists msg.
      * now rewrite IH.
    + now rewrite IH.
Qed.

End Stops.

(** ** Result payloads *)

Lemma allTraitParams_columns (traits : JsVal) (keys : list jsstring) :
  nullish traits = false ->
  Forall (fun trait => nullish (field traits trait) = false) keys ->
  Main.allTraitParams traits keys
  = Normal (flat_map (fun trait =>
                        [field (field traits trait) (lit "percent");
                         field (field traits trait) (lit "type")]) keys).
Proof.
  intros Hn. induction 1 as [|k keys Hk _ IH]; [reflexivity|].
  cbn [Main.allTraitParams flat_map]. rewrite IH.
  unfold Main.traitParams. rewrite (get_field _ _ Hn). cbn [cbind].
  now rewrite !(get_field _ _ Hk).
Qed.

Lemma traitsOk_columns (traits : JsVal) :
  traitsOk traits = true ->
  Main.allTraitParams traits requiredTraits = Normal (traitColumns traits).
Proof.
  unfold traitsOk. intros H.
  destruct (isValidTraitObject_spec traits) as (ok & Hrun & Hok).
  rewrite Hrun in H. subst ok.
  pose proof (proj1 Hok eq_refl) as Hv. unfold validTraits in Hv.
  assert (Hn : nullish traits = false).
  { inversion Hv as [|? ? (p & s & Hp & _) _]; subst.
    destruct traits; try discriminate Hp; reflexivity. }
  apply allTraitParams_columns; [exact Hn|].
  eapply Forall_impl; [|exact Hv].
  intros k (p & s & Hp & _).
  destruct (field traits k); try discriminate Hp; reflexivity.
Qed.

Lemma profileUrl_gate (profileUrl : JsVal) :
  negb (truthy profileUrl)
  || negb (JsType_eqb (typeof profileUrl) TString)
  || negb (match profileUrl with
           | JStr s => startsWith s profilePrefix
           | _ => false
           end)
  = negb (profileUrlOk profileUrl).
Proof.
  destruct profileUrl as [| | b | n | [|c s] | l | fs];
    cbn [truthy typeof JsType_eqb negb orb profileUrlOk];
    rewrite ?orb_true_r; reflexivity.
Qed.

Lemma validateTestResult_run (payload : JsVal) :
  nullish payload = false ->
  Main.validateTestResult payload
  = if resultOk payload
    then Normal (field payload (lit "profileUrl"),
                 field payload (lit "mbtiResult"),
                 field payload (lit "mbtiCode"),
                 field payload (lit "traits"))
    else Throw (new ValidationError (firstResultError payload)).
Proof.
  intros Hn. unfold Main.validateTestResult, resultOk, firstResultError.
  rewrite !(get_field _ _ Hn). cbn [cbind].
  rewrite profileUrl_gate.
  destruct (profileUrlOk _); cbn [negb andb]; [|reflexivity].
  rewrite nonEmptyString_spec.
  destruct (truthy (field payload (lit "mbtiResult"))),
    (JsType_eqb (typeof (field payload (lit "mbtiResult"))) TString);
    cbn [negb orb andb]; try reflexivity.
  unfold mbtiCodeOk.
  destruct (truthy (field payload (lit "mbtiCode"))),
    (JsType_eqb (typeof (field payload (lit "mbtiCode"))) TString);
    cbn [negb orb andb]; try reflexivity;
    unfold traitsOk;
    destruct (isValidTraitObject_spec (field payload (lit "traits")))
      as ([] & -> & _); reflexivity.
Qed.

(** ** The decision table *)

Lemma gate_not_nullish (payload : JsVal) :
  negb (truthy payload) || negb (JsType_eqb (typeof payload) TObject) = false ->
  nullish payload = false.
Proof. destruct payload; (discriminate || reflexivity). Qed.

Lemma resultOk_traitsOk (payload : JsVal) :
  resultOk payload = true -> traitsOk (field payload (lit "traits")) = true.
Proof. unfold resultOk. now intros [_ H]%andb_true_iff. Qed.

Section Table.
Context {rt : Runtime} (db : Oracle).

Lemma validation_failure_400 (msg : jsstring) (st : Store) :
  exists r,
    Main.onError (new ValidationError msg) st = (st, Normal r)
    /\ status r = 400%Z /\ headers r = Main.corsHeaders.
Proof. answered. Qed.

Lemma handleEvent_table (payload : JsVal) (st : Store) :
  nullish payload = false ->
  Main.isEventName (field payload (lit "eventName")) = true ->
  exists r,
    try_catch (Main.handleEvent db payload) Main.onError st
    = (fst (if commonOk payload
            then run db (Execute (eventRow payload)) 200 st
            else (st, 400%Z)),
       Normal r)
    /\ status r = snd (if commonOk payload
                       then run db (Execute (eventRow payload)) 200 st
                       else (st, 400%Z))
    /\ headers r = Main.corsHeaders.
Proof.
  intros Hn Hev. unfold Main.handleEvent, try_catch, bind, lift.
  destruct (commonOk payload) eqn:Hc.
  - destruct (commonOk_fields _ Hc) as (Hu & Hs & Ht).
    rewrite (validateCommonFields_ok _ Hn Hu Hs Ht), (get_field _ _ Hn).
    rewrite (interpolate_eventName _ Hev).
    unfold perform, run, eventRow.
    destruct (db (rows st) _); answered.
  - rewrite (validateCommonFields_fail _ Hn Hc). answered.
Qed.

Lemma handleAnswers_table (payload : JsVal) (st : Store) :
  nullish payload = false ->
  let outcome :=
    if commonOk payload then
      match field payload (lit "answers") with
      | JArr ((_ :: _) as items) =>
          match find illFormed items with
          | Some answer => (st, if nullish answer then 500%Z else 400%Z)
          | None => run db (Transaction (answerRows payload items)) 201 st
          end
      | _ => (st, 400%Z)
      end
    else (st, 400%Z) in
  exists r,
    try_catch (Main.handleAnswers db payload) Main.onError st
    = (fst outcome, Normal r)
    /\ status r = snd outcome /\ headers r = Main.corsHeaders.
Proof.
  intros Hn. cbv zeta. unfold Main.handleAnswers, try_catch, bind, lift.
  destruct (commonOk payload) eqn:Hc;
    [|rewrite (validateCommonFields_fail _ Hn Hc); answered].
  destruct (commonOk_fields _ Hc) as (Hu & Hs & Ht).
  rewrite (validateCommonFields_ok _ Hn Hu Hs Ht), (get_field _ _ Hn).
  destruct (field payload (lit "answers")) as [| | b | n | s | [|a items] | fs];
    try answered.
  unfold Main.validateAnswers.
  pose proof (forEachAnswer_find (a :: items)) as Hf.
  destruct (find illFormed (a :: items)) as [bad|] eqn:Efind.
  - destruct (nullish bad).
    + destruct Hf as (msg & ->). answered.
    + rewrite Hf. answered.
  - rewrite Hf. cbn [cbind elements].
    rewrite (map_answerQuery _ _ _ _ (find_none_wellFormed _ Efind)).
    unfold perform, run, answerRows.
    destruct (db (rows st) _); answered.
Qed.

Lemma handleTestResult_table (payload : JsVal) (st : Store) :
  nullish payload = false ->
  let outcome :=
    if commonOk payload then
      if resultOk payload
      then run db (Execute (resultRow payload)) 201 st
      else (st, 400%Z)
    else (st, 400%Z) in
  exists r,
    try_catch (Main.handleTestResult db payload) Main.onError st
    = (fst outcome, Normal r)
    /\ status r = snd outcome /\ headers r = Main.corsHeaders.
Proof.
  intros Hn. cbv zeta. unfold Main.handleTestResult, try_catch, bind, lift.
  destruct (commonOk payload) eqn:Hc;
    [|rewrite (validateCommonFields_fail _ Hn Hc); answered].
  destruct (commonOk_fields _ Hc) as (Hu & Hs & Ht).
  rewrite (validateCommonFields_ok _ Hn Hu Hs Ht), (validateTestResult_run _ Hn).
  destruct (resultOk payload) eqn:Hr; [|answered].
  rewrite (traitsOk_columns _ (resultOk_traitsOk _ Hr)).
  unfold perform, run, resultRow.
  destruct (db (rows st) _); answered.
Qed.

(** The refactored handler follows the decision table. *)
Lemma Main_table (payload : JsVal) (st : Store) :
  exists r,
    Main.handler db (post payload) st
    = (fst (decisionTable db payload st), Normal r)
    /\ status r = snd (decisionTable db payload st)
    /\ headers r = Main.corsHeaders.
Proof.
  rewrite handler_post. unfold decisionTable.
  destruct (negb (truthy payload) || negb (JsType_eqb (typeof payload) TObject))
    eqn:Hg.
  { unfold try_catch, Main.route, post, bind, lift. cbn [body]. rewrite Hg.
    answered. }
  pose proof (gate_not_nullish _ Hg) as Hn.
  assert (Hr : Main.route db (post payload)
               = if is_string (field payload (lit "type")) (lit "event")
                    && Main.isEventName (field payload (lit "eventName"))
                 then Main.handleEvent db payload
                 else if is_string (field payload (lit "type")) (lit "answers")
                 then Main.handleAnswers db payload
                 else if is_string (field payload (lit "type")) (lit "result")
                 then Main.handleTestResult db payload
                 else
                   shown <~ lift (interpolate (field payload (lit "type"))) ;;
                   ret (json Main.corsHeaders 400
                          (lit "Invalid payload type specified: '"
                           ++ shown ++ lit "'"))).
  { unfold Main.route, post, bind, lift. cbn [body]. rewrite Hg.
    now rewrite !(get_field _ _ Hn). }
  rewrite Hr. clear Hr. cbv zeta.
  destruct (is_string (field payload (lit "type")) (lit "event")
            && Main.isEventName (field payload (lit "eventName"))) eqn:Hev.
  { apply andb_true_iff in Hev as [_ Hev].
    destruct (handleEvent_table payload st Hn Hev) as (r & -> & Hs & Hh).
    exists r. auto. }
  destruct (is_string (field payload (lit "type")) (lit "answers")).
  { destruct (handleAnswers_table payload st Hn) as (r & -> & Hs & Hh).
    exists r. auto. }
  destruct (is_string (field payload (lit "type")) (lit "result")).
  { destruct (handleTestResult_table payload st Hn) as (r & -> & Hs & Hh).
    exists r. auto. }
  unfold try_catch, bind, lift.
  destruct (convertible (field payload (lit "type"))) eqn:Hshown.
  - rewrite (interpolate_convertible _ Hshown). answered.
  - rewrite (interpolate_stuck _ Hshown). answered.
Qed.

(** The second log-answers variant follows its table. *)
Lemma V2_table (payload : JsVal) (st : Store) :
  exists r,
    LogAnswersV2.handler db (post payload) st
    = (fst (decisionTableV2 db payload st), Normal r)
    /\ status r = snd (decisionTableV2 db payload st)
    /\ headers r = Main.corsHeaders.
Proof.
  unfold LogAnswersV2.handler, post. cbn [method].
  change (str_eqb (lit "POST") (lit "OPTIONS")) with false.
  change (str_eqb (lit "POST") (lit "POST")) with true.
  cbn [negb].
  unfold decisionTableV2, decisionTable, LogAnswersV2.route, try_catch at 1.
  unfold bind at 1, lift at 1. cbn [body].
  destruct (negb (truthy payload) || negb (JsType_eqb (typeof payload) TObject))
    eqn:Hg; [answered|].
  pose proof (gate_not_nullish _ Hg) as Hn.
  unfold bind, lift. rewrite !(get_field _ _ Hn).
  rewrite commonFieldsMissing_commonOk.
  destruct (commonOk payload) eqn:Hc; cbn [negb]; [|answered].
  destruct (is_string (field payload (lit "type")) (lit "event")
            && Main.isEventName (field payload (lit "eventName"))).
  { unfold try_catch, perform, run, eventRow.
    destruct (db (rows st) _); answered. }
  destruct (is_string (field payload (lit "type")) (lit "answers")).
  { unfold LogAnswersV2.handleAnswers.
    destruct (field payload (lit "answers"))
      as [| | b | n | s | [|a items] | fs]; try answered.
    pose proof (map_answerQuery_V2_find (field payload (lit "userId"))
                  (field payload (lit "sessionId"))
                  (field payload (lit "timestamp")) (a :: items)) as Hm.
    unfold try_catch, bind, lift.
    destruct (find illFormed (a :: items)) as [bad|].
    - destruct (nullish bad).
      + destruct Hm as (msg & ->). answered.
      + rewrite Hm. answered.
    - rewrite Hm. unfold perform, run, answerRows.
      destruct (db (rows st) _); answered. }
  destruct (is_string (field payload (lit "type")) (lit "result")).
  2: { destruct (convertible (field payload (lit "type"))) eqn:Hshown.
       - rewrite (interpolate_convertible _ Hshown). answered.
       - rewrite (interpolate_stuck _ Hshown). answered. }
  unfold LogAnswersV2.handleResult, bind, lift.
  rewrite !(get_field _ _ Hn), profileUrl_gate. unfold resultOk.
  destruct (profileUrlOk _); cbn [negb andb]; [|answered].
  rewrite nonEmptyString_spec.
  destruct (truthy (field payload (lit "mbtiResult"))),
    (JsType_eqb (typeof (field payload (lit "mbtiResult"))) TString);
    cbn [negb orb andb]; try answered.
  unfold mbtiCodeOk.
  destruct (truthy (field payload (lit "mbtiCode"))),
    (JsType_eqb (typeof (field payload (lit "mbtiCode"))) TString);
    cbn [negb orb andb]; try answered.
  all: destruct (isValidTraitObject_spec (field payload (lit "traits")))
         as (ok & Hrun & _);
    assert (Hcols : ok = true ->
              Main.allTraitParams (field payload (lit "traits")) requiredTraits
              = Normal (traitColumns (field payload (lit "traits"))))
      by (intros ->; apply traitsOk_columns; unfold traitsOk; now rewrite Hrun);
    unfold traitsOk; rewrite Hrun; destruct ok; cbn [negb]; [|answered];
    rewrite (Hcols eq_refl);
    unfold try_catch, perform, run, resultRow;
    destruct (db (rows st) _); answered.
Qed.

End Table.

Lemma run_effect (db : Oracle) (call : StoreCall) (success : Z) (st : Store) :
  success = 200%Z \/ success = 201%Z ->
  effect db st (fst (run db call success st)) (snd (run db call success st)).
Proof.
  intros Hs. unfold run. right. exists call.
  destruct (db (rows st) call) as [e|] eqn:E; cbn [fst snd rows calls].
  - split; [reflexivity|]. right. eauto.
  - split; [reflexivity|]. left. auto.
Qed.

Lemma decisionTable_effect (db : Oracle) (payload : JsVal) (st : Store) :
  effect db st (fst (decisionTable db payload st))
    (snd (decisionTable db payload st)).
Proof.
  assert (H400 : effect db st st 400) by (left; cbn; auto).
  assert (H500 : effect db st st 500) by (left; cbn; auto 10).
  unfold decisionTable.
  repeat match goal with
         | |- context [if ?b then _ else _] => destruct b
         | |- context [match ?x with _ => _ end] => destruct x
         end;
    cbn [fst snd]; auto using run_effect.
Qed.

Lemma decisionTable_status (db : Oracle) (payload : JsVal) (st : Store) :
  In (snd (decisionTable db payload st)) [200; 201; 400; 500]%Z.
Proof.
  unfold decisionTable, run.
  repeat match goal with
         | |- context [if ?b then _ else _] => destruct b
         | |- context [match ?x with _ => _ end] => destruct x
         end;
    cbn; auto 10.
Qed.

Lemma decisionTableV2_effect (db : Oracle) (payload : JsVal) (st : Store) :
  effect db st (fst (decisionTableV2 db payload st))
    (snd (decisionTableV2 db payload st)).
Proof.
  unfold decisionTableV2.
  destruct (negb (truthy payload) || negb (JsType_eqb (typeof payload) TObject));
    [left; cbn; auto|].
  destruct (negb (commonOk payload)); [left; cbn; auto|].
  apply decisionTable_effect.
Qed.

Lemma decisionTableV2_status (db : Oracle) (payload : JsVal) (st : Store) :
  In (snd (decisionTableV2 db payload st)) [200; 201; 400; 500]%Z.
Proof.
  unfold decisionTableV2.
  destruct (negb (truthy payload) || negb (JsType_eqb (typeof payload) TObject));
    [cbn; auto|].
  destruct (negb (commonOk payload)); [cbn; auto|].
  apply decisionTable_status.
Qed.

(** The two tables leave the same store, and give the same status unless
    the common fields are not in order and the type is none of the three
    and cannot be rendered: the refactored handler then fails on the
    message it builds, where the variant has already answered 400. *)
Lemma tables_agree (db : Oracle) (payload : JsVal) (st : Store) :
  fst (decisionTableV2 db payload st) = fst (decisionTable db payload st)
  /\ (snd (decisionTable db payload st) = snd (decisionTableV2 db payload st)
      \/ (snd (decisionTable db payload st) = 500%Z
          /\ snd (decisionTableV2 db payload st) = 400%Z
          /\ commonOk payload = false
          /\ convertible (field payload (lit "type")) = false)).
Proof.
  unfold decisionTableV2, decisionTable.
  destruct (negb (truthy payload) || negb (JsType_eqb (typeof payload) TObject));
    [auto|].
  destruct (commonOk payload); cbn [negb]; [auto|].
  destruct (is_string (field payload (lit "type")) (lit "event")
            && Main.isEventName (field payload (lit "eventName"))); [auto|].
  destruct (is_string (field payload (lit "type")) (lit "answers")); [auto|].
  destruct (is_string (field payload (lit "type")) (lit "result")); [auto|].
  destruct (convertible (field payload (lit "type"))); cbn; auto 10.
Qed.

Lemma request_is_post (req : Request) (payload : JsVal) :
  str_eqb (method req) (lit "POST") = true ->
  body req = Normal payload ->
  req = post payload.
Proof.
  destruct req as [m b]. cbn. intros ->%str_eqb_eq ->. reflexivity.
Qed.

Lemma existsb_find (items : list JsVal) :
  existsb illFormed items = true ->
  exists bad, find illFormed items = Some bad.
Proof.
  induction items as [|a items IH]; [discriminate|].
  cbn [existsb find]. destruct (illFormed a); [eauto | exact IH].
Qed.

(** ** The label of a stored answer *)

Section StoredLabels.
Context {rt : Runtime} (db : Oracle).

Lemma map_answerQuery_V3 (userId sessionId timestamp : JsVal)
  (items : list JsVal) :
  find illFormed items = None ->
  map_completion (LogAnswersV3.answerQuery userId sessionId timestamp) items
  = Normal (map (answerRow userId sessionId timestamp) items).
Proof.
  induction items as [|a items IH]; [reflexivity|].
  cbn [find map_completion map].
  destruct (illFormed a) eqn:Ea; [discriminate|]. intros Hfind.
  rewrite (IH Hfind). pose proof (wellFormed_not_nullish _ Ea) as Hn.
  unfold LogAnswersV3.answerQuery.
  now rewrite (answerIsInvalid_spec _ Hn), Ea, !(get_field _ _ Hn).
Qed.

(** C10.  Take an answers request that reaches statement construction: its
    common fields validate, its [answers] array is not empty and every
    element passes per-element validation.  Then an insert is built for
    every element, in order, by [handleAnswers] and by the [map] callbacks
    of the second and third log-answers variants alike, and in each insert
    the [answer_label] parameter is the element's label when that is truthy
    and the string 'N/A' when it is falsy (absent, null, the empty string,
    0): never the empty string, [null] or [undefined].  These inserts are
    what the refactored handler and the second variant submit, as one
    transaction, and what the store holds afterwards when it accepts
    them. *)
Theorem answer_label_defaults_to_NA (fields : list (jsstring * JsVal))
  (items : list JsVal) (st : Store) :
  let payload := JObj fields in
  let userId := lookup (lit "userId") fields in
  let sessionId := lookup (lit "sessionId") fields in
  let timestamp := lookup (lit "timestamp") fields in
  let stored (answer : JsVal) : JsVal :=
    if truthy (field answer (lit "answer_label"))
    then field answer (lit "answer_label")
    else JStr (lit "N/A") in
  lookup (lit "type") fields = JStr (lit "answers") ->
  nonEmptyString userId = true ->
  nonEmptyString sessionId = true ->
  nonEmptyString timestamp = true ->
  lookup (lit "answers") fields = JArr items ->
  items <> [] ->
  find illFormed items = None ->
  exists inserts,
    map_completion (Main.answerQuery userId sessionId timestamp) items
    = Normal inserts
    /\ map_completion (LogAnswersV2.answerQuery userId sessionId timestamp)
         items
       = Normal inserts
    /\ map_completion (LogAnswersV3.answerQuery userId sessionId timestamp)
         items
       = Normal inserts
    /\ map labelParam inserts = map (fun answer => Some (stored answer)) items
    /\ Forall (fun q => labelParam q <> Some (JStr [])
                        /\ labelParam q <> Some JNull
                        /\ labelParam q <> Some JUndefined) inserts
    /\ calls (fst (Main.handler db (post payload) st))
       = calls st ++ [Transaction inserts]
    /\ calls (fst (LogAnswersV2.handler db (post payload) st))
       = calls st ++ [Transaction inserts]
    /\ (db (rows st) (Transaction inserts) = None ->
        rows (fst (Main.handler db (post payload) st)) = rows st ++ inserts
        /\ rows (fst (LogAnswersV2.handler db (post payload) st))
           = rows st ++ inserts).
Proof.
  intros payload userId sessionId timestamp stored
    Htype Hu Hs Ht Hans Hne Hfind.
  pose proof (find_none_wellFormed _ Hfind) as Hnn.
  set (inserts := map (answerRow userId sessionId timestamp) items).
  assert (Hc : commonOk payload = true).
  { unfold commonOk, payload. cbn [field].
    fold userId sessionId timestamp. now rewrite Hu, Hs, Ht. }
  assert (Htable : decisionTable db payload st
                   = run db (Transaction inserts) 201 st).
  { unfold decisionTable. cbv zeta. rewrite Hc. subst payload.
    cbn [truthy typeof JsType_eqb negb orb field]. rewrite Htype, Hans.
    change (is_string (JStr (lit "answers")) (lit "event")) with false.
    change (is_string (JStr (lit "answers")) (lit "answers")) with true.
    cbn [andb]. destruct items as [|a items']; [now destruct Hne|].
    now rewrite Hfind. }
  assert (Htable2 : decisionTableV2 db payload st
                    = run db (Transaction inserts) 201 st).
  { unfold decisionTableV2. now rewrite Hc, Htable. }
  assert (Hcalls : calls (fst (run db (Transaction inserts) 201 st))
                   = calls st ++ [Transaction inserts]).
  { unfold run. now destruct (db (rows st) _). }
  destruct (Main_table db payload st) as (r1 & H1 & _).
  destruct (V2_table db payload st) as (r2 & H2 & _).
  rewrite Htable in H1. rewrite Htable2 in H2. rewrite H1, H2.
  cbn [fst]. exists inserts.
  repeat match goal with |- _ /\ _ => split end.
  - apply map_answerQuery, Hnn.
  - rewrite (map_answerQuery_V2 _ _ _ _ Hnn). now rewrite Hfind.
  - apply map_answerQuery_V3, Hfind.
  - unfold inserts. rewrite map_map. apply map_ext. reflexivity.
  - unfold inserts. apply Forall_forall. intros q Hin.
    apply in_map_iff in Hin as (answer & <- & _).
    unfold labelParam, answerRow, Main.labelOrNA. cbn [params nth_error].
    destruct (truthy (field answer (lit "answer_label"))) eqn:Et.
    + repeat split; intros [= E]; rewrite E in Et; discriminate Et.
    + repeat split; discriminate.
  - exact Hcalls.
  - exact Hcalls.
  - intros Hdb. unfold run. rewrite Hdb. split; reflexivity.
Qed.

End StoredLabels.

Lemma answer_label_defaults_to_NA_witness :
  exists inserts,
    map labelParam inserts = [Some (JStr (lit "N/A"))]
    /\ calls (fst (@Main.handler plainRuntime accepting
                     (post (answersPayload [answer_empty_label])) emptyStore))
       = [Transaction inserts]
    /\ rows (fst (@Main.handler plainRuntime accepting
                    (post (answersPayload [answer_empty_label])) emptyStore))
       = inserts.
Proof.
  destruct (@answer_label_defaults_to_NA plainRuntime accepting
              (answersFields [answer_empty_label]) [answer_empty_label]
              emptyStore eq_refl eq_refl eq_refl eq_refl eq_refl
              ltac:(discriminate) eq_refl)
    as (inserts & _ & _ & _ & Hlabels & _ & Hcalls & _ & Hrows).
  exists inserts. split; [exact Hlabels|].
  split; [exact Hcalls | exact (proj1 (Hrows eq_refl))].
Defined.

Section Whole.
Context {rt : Runtime} (db : Oracle).

(** X1.  The refactoring kept the behaviour, up to one case.  On every
    request whose body parsed, the refactored handler and the second
    log-answers variant leave the same store and answer with the same
    headers, and with the same status whenever the common fields are in
    order or the [type] can be rendered into a message (every string,
    number, boolean, [null] and absent [type] can).  Otherwise the statuses
    differ only in this way: the refactored handler answers 500 where the
    variant answers 400.  (The message texts are not compared.) *)
Theorem handlers_agree (req : Request) (payload : JsVal) (st : Store) :
  body req = Normal payload ->
  exists st' r1 r2,
    Main.handler db req st = (st', Normal r1)
    /\ LogAnswersV2.handler db req st = (st', Normal r2)
    /\ headers r1 = headers r2
    /\ (commonOk payload = true
        \/ convertible (field payload (lit "type")) = true ->
        status r1 = status r2)
    /\ (status r1 = status r2
        \/ (status r1 = 500%Z /\ status r2 = 400%Z)).
Proof.
  intros Hb. unfold Main.handler, LogAnswersV2.handler.
  destruct (str_eqb (method req) (lit "OPTIONS")).
  { do 3 eexists. repeat split. now left. }
  destruct (str_eqb (method req) (lit "POST")) eqn:Hp; cbn [negb].
  2: { do 3 eexists. repeat split. now left. }
  rewrite (request_is_post _ _ Hp Hb).
  destruct (Main_table db payload st) as (r1 & H1 & Hs1 & Hh1).
  destruct (V2_table db payload st) as (r2 & H2 & Hs2 & Hh2).
  rewrite handler_post in H1.
  unfold LogAnswersV2.handler, post in H2. cbn [method] in H2.
  change (str_eqb (lit "POST") (lit "OPTIONS")) with false in H2.
  change (str_eqb (lit "POST") (lit "POST")) with true in H2.
  cbn [negb] in H2.
  destruct (tables_agree db payload st) as (Hst & Hcode).
  rewrite Hst in H2.
  exists (fst (decisionTable db payload st)), r1, r2.
  split; [exact H1|]. split; [exact H2|]. split; [congruence|].
  rewrite Hs1, Hs2. split.
  - intros Hok.
    destruct Hcode as [E | (_ & _ & Hc & Hshown)]; [exact E|].
    destruct Hok as [Hok | Hok]; congruence.
  - destruct Hcode as [E | (E1 & E2 & _)]; auto.
Qed.

(** X2.  Every request makes at most one store call.  Rows are only ever
    appended, and only by a call the database accepted, which is answered
    200 or 201; a rejected call leaves the rows as they were and is
    answered 500; a 400 or a 405 is sent without any call.  This holds of
    the refactored handler and of the second log-answers variant, whatever
    the method and whether or not the body parses. *)
Theorem one_store_call_per_request (req : Request) (st : Store) :
  (exists st' r,
      Main.handler db req st = (st', Normal r)
      /\ effect db st st' (status r))
  /\ (exists st' r,
         LogAnswersV2.handler db req st = (st', Normal r)
         /\ effect db st st' (status r)).
Proof.
  assert (Hst : forall code, In code [200; 400; 405; 500]%Z ->
                             effect db st st code) by (intros; now left).
  unfold Main.handler, LogAnswersV2.handler.
  destruct (str_eqb (method req) (lit "OPTIONS")).
  { split; do 2 eexists; (split; [reflexivity|]); apply Hst; cbn; auto. }
  destruct (str_eqb (method req) (lit "POST")) eqn:Hp; cbn [negb].
  2: { split; do 2 eexists; (split; [reflexivity|]); apply Hst; cbn; auto. }
  destruct (body req) as [payload|e] eqn:Hb.
  - rewrite (request_is_post _ _ Hp Hb).
    pose proof (decisionTable_effect db payload st) as He.
    pose proof (decisionTableV2_effect db payload st) as He2.
    destruct (Main_table db payload st) as (r1 & H1 & Hs1 & _).
    destruct (V2_table db payload st) as (r2 & H2 & Hs2 & _).
    rewrite handler_post in H1.
    unfold LogAnswersV2.handler, post in H2. cbn [method] in H2.
    change (str_eqb (lit "POST") (lit "OPTIONS")) with false in H2.
    change (str_eqb (lit "POST") (lit "POST")) with true in H2.
    cbn [negb] in H2.
    split; do 2 eexists; (split; [eassumption|]); congruence.
  - unfold try_catch, Main.route, LogAnswersV2.route, bind, lift.
    rewrite Hb. split.
    + destruct (onError_answers e st) as (code & msg & -> & [-> | ->] & _);
        do 2 eexists; (split; [reflexivity|]); apply Hst; cbn; auto 10.
    + destruct (onError_V2_answers e st) as (code & msg & -> & [-> | ->]);
        do 2 eexists; (split; [reflexivity|]); apply Hst; cbn; auto 10.
Qed.

(** X3.  Every response carries the four CORS headers set at the head of
    the handler; a 405 carries the Allow header after them, and no other
    response does.  This holds of the refactored handler and of the second
    log-answers variant, on every request. *)
Theorem cors_on_every_response (req : Request) (st : Store) :
  let expected (r : Response) :=
    (status r = 405%Z /\ headers r = Main.corsHeaders ++ [allowHeader])
    \/ (status r <> 405%Z /\ headers r = Main.corsHeaders) in
  (exists st' r, Main.handler db req st = (st', Normal r) /\ expected r)
  /\ (exists st' r,
         LogAnswersV2.handler db req st = (st', Normal r) /\ expected r).
Proof.
  cbv zeta. unfold Main.handler, LogAnswersV2.handler.
  destruct (str_eqb (method req) (lit "OPTIONS")).
  { split; do 2 eexists; (split; [reflexivity|]); right;
      (split; [discriminate | reflexivity]). }
  destruct (str_eqb (method req) (lit "POST")) eqn:Hp; cbn [negb].
  2: { split; do 2 eexists; (split; [reflexivity|]); left;
      (split; reflexivity). }
  destruct (body req) as [payload|e] eqn:Hb.
  - rewrite (request_is_post _ _ Hp Hb).
    assert (Hne : snd (decisionTable db payload st) <> 405%Z).
    { intros E. pose proof (decisionTable_status db payload st) as Hin.
      rewrite E in Hin. cbn in Hin.
      repeat destruct Hin as [Hin | Hin]; try discriminate Hin. exact Hin. }
    assert (Hne2 : snd (decisionTableV2 db payload st) <> 405%Z).
    { intros E. pose proof (decisionTableV2_status db payload st) as Hin.
      rewrite E in Hin. cbn in Hin.
      repeat destruct Hin as [Hin | Hin]; try discriminate Hin. exact Hin. }
    destruct (Main_table db payload st) as (r1 & H1 & Hs1 & Hh1).
    destruct (V2_table db payload st) as (r2 & H2 & Hs2 & Hh2).
    rewrite handler_post in H1.
    unfold LogAnswersV2.handler, post in H2. cbn [method] in H2.
    change (str_eqb (lit "POST") (lit "OPTIONS")) with false in H2.
    change (str_eqb (lit "POST") (lit "POST")) with true in H2.
    cbn [negb] in H2.
    split; do 2 eexists; (split; [eassumption|]); right;
      (split; [congruence | assumption]).
  - unfold try_catch, Main.route, LogAnswersV2.route, bind, lift.
    rewrite Hb. split.
    + destruct (onError_answers e st) as (code & msg & -> & [-> | ->] & _);
        do 2 eexists; (split; [reflexivity|]); right;
        (split; [discriminate | reflexivity]).
    + destruct (onError_V2_answers e st) as (code & msg & -> & [-> | ->]);
        do 2 eexists; (split; [reflexivity|]); right;
        (split; [discriminate | reflexivity]).
Qed.

End Whole.

(** ** Validators, in full *)

Lemma profileUrlOk_spec (profileUrl : JsVal) :
  profileUrlOk profileUrl = true
  <-> exists rest, profileUrl = JStr (profilePrefix ++ rest).
Proof.
  split.
  - destruct profileUrl; try discriminate. cbn [profileUrlOk].
    intros (rest & ->)%startsWith_inv. now exists rest.
  - intros (rest & ->). apply startsWith_app.
Qed.

Lemma mbtiCodeOk_spec (mbtiCode : JsVal) :
  mbtiCodeOk mbtiCode = true
  <-> truthy mbtiCode = false \/ exists s, mbtiCode = JStr s.
Proof.
  unfold mbtiCodeOk. split.
  - destruct (truthy mbtiCode); [|auto]. cbn [negb orb].
    destruct mbtiCode; try discriminate. eauto.
  - intros [-> | (s & ->)]; [reflexivity|]. apply orb_true_r.
Qed.

Lemma traitsOk_spec (traits : JsVal) :
  traitsOk traits = true <-> validTraits passesRangeTest traits.
Proof.
  unfold traitsOk.
  destruct (isValidTraitObject_spec traits) as (ok & -> & Hok). exact Hok.
Qed.

Section ValidatorsInFull.
Context {rt : Runtime}.

(** X4.  [validateTestResult] succeeds exactly when [profileUrl] is a
    string starting with the fixed prefix, [mbtiResult] is a non-empty
    string, [mbtiCode] is falsy (absent, null, the empty string, 0, false)
    or a string, and the traits object is valid; it then returns the four
    fields as they are.  Otherwise it throws a ValidationError whose
    message is that of the first failing check, in the order profileUrl,
    mbtiResult, mbtiCode, traits. *)
Theorem validateTestResult_spec (payload : JsVal) :
  nullish payload = false ->
  let profileUrl := field payload (lit "profileUrl") in
  let mbtiResult := field payload (lit "mbtiResult") in
  let mbtiCode := field payload (lit "mbtiCode") in
  let traits := field payload (lit "traits") in
  let valid :=
    (exists rest, profileUrl = JStr (profilePrefix ++ rest))
    /\ nonEmptyString mbtiResult = true
    /\ (truthy mbtiCode = false \/ exists s, mbtiCode = JStr s)
    /\ validTraits passesRangeTest traits in
  (valid ->
   Main.validateTestResult payload
   = Normal (profileUrl, mbtiResult, mbtiCode, traits))
  /\ (~ valid ->
      Main.validateTestResult payload
      = Throw (new ValidationError (firstResultError payload)))
  /\ (firstResultError payload
      = if negb (profileUrlOk profileUrl)
        then lit "Missing or invalid profileUrl format"
        else if negb (nonEmptyString mbtiResult)
        then lit "Missing or invalid mbtiResult (full string)"
        else if negb (mbtiCodeOk mbtiCode)
        then lit "Invalid mbtiCode format (should be string or null)"
        else lit "Invalid or incomplete traits object").
Proof.
  intros Hn profileUrl mbtiResult mbtiCode traits valid.
  assert (Hvalid : resultOk payload = true <-> valid).
  { unfold resultOk, valid. fold profileUrl mbtiResult mbtiCode traits.
    rewrite !andb_true_iff, profileUrlOk_spec, mbtiCodeOk_spec, traitsOk_spec.
    tauto. }
  rewrite (validateTestResult_run _ Hn).
  fold profileUrl mbtiResult mbtiCode traits.
  repeat split.
  - intros Hv. apply Hvalid in Hv. now rewrite Hv.
  - intros Hv. destruct (resultOk payload); [|reflexivity].
    destruct Hv. now apply Hvalid.
Qed.

(** X5.  When a common field is missing, [validateCommonFields] names the
    first one that is not a non-empty string, in the order userId,
    sessionId, timestamp, whatever the later fields are. *)
Theorem validateCommonFields_first_failure (payload : JsVal) :
  nullish payload = false ->
  let userId := field payload (lit "userId") in
  let sessionId := field payload (lit "sessionId") in
  let timestamp := field payload (lit "timestamp") in
  (nonEmptyString userId = false ->
   Main.validateCommonFields payload
   = Throw (new ValidationError
              (lit "Missing or invalid userId (string required)")))
  /\ (nonEmptyString userId = true -> nonEmptyString sessionId = false ->
      Main.validateCommonFields payload
      = Throw (new ValidationError
                 (lit "Missing or invalid sessionId (string required)")))
  /\ (nonEmptyString userId = true -> nonEmptyString sessionId = true ->
      nonEmptyString timestamp = false ->
      Main.validateCommonFields payload
      = Throw (new ValidationError
                 (lit "Missing or invalid timestamp (string required)"))).
Proof.
  intros Hn userId sessionId timestamp.
  repeat split.
  - intros Hu. rewrite (validateCommonFields_fail _ Hn).
    + unfold firstMissing. fold userId. now rewrite Hu.
    + unfold commonOk. fold userId. now rewrite Hu.
  - intros Hu Hs. rewrite (validateCommonFields_fail _ Hn).
    + unfold firstMissing. fold userId sessionId. now rewrite Hu, Hs.
    + unfold commonOk. fold userId sessionId. now rewrite Hu, Hs.
  - intros Hu Hs Ht. rewrite (validateCommonFields_fail _ Hn).
    + unfold firstMissing. fold userId sessionId timestamp.
      now rewrite Hu, Hs.
    + unfold commonOk. fold userId sessionId timestamp.
      now rewrite Hu, Hs, Ht.
Qed.

(** X6.  [validateAnswers] rejects whatever is not a non-empty array, then
    visits the elements in order and is decided by the first one that is
    null, undefined or ill-formed: a TypeError when that element is null
    or undefined, a ValidationError naming it otherwise.  When there is no
    such element the array is returned as it is. *)
Theorem validateAnswers_first_stop (answers : JsVal) :
  match answers with
  | JArr ((_ :: _) as items) =>
      match find illFormed items with
      | None => Main.validateAnswers answers = Normal answers
      | Some bad =>
          if nullish bad
          then exists msg,
              Main.validateAnswers answers = Throw (new TypeError msg)
          else Main.validateAnswers answers
               = Throw (new ValidationError (Main.invalidAnswerMessage bad))
      end
  | _ =>
      Main.validateAnswers answers
      = Throw (new ValidationError (missingAnswers []))
  end.
Proof.
  destruct answers as [| | b | n | s | [|a items] | fs]; try reflexivity.
  unfold Main.validateAnswers.
  pose proof (forEachAnswer_find (a :: items)) as Hf.
  destruct (find illFormed (a :: items)) as [bad|].
  - destruct (nullish bad).
    + destruct Hf as (msg & ->). now exists msg.
    + now rewrite Hf.
  - now rewrite Hf.
Qed.

End ValidatorsInFull.

Lemma validateTestResult_spec_witness :
  Main.validateTestResult resultPayload
  = Normal (field resultPayload (lit "profileUrl"),
            field resultPayload (lit "mbtiResult"),
            field resultPayload (lit "mbtiCode"),
            field resultPayload (lit "traits")).
Proof.
  apply (proj1 (validateTestResult_spec resultPayload eq_refl)).
  split; [now exists (lit "abcd")|].
  split; [reflexivity|].
  split; [right; now exists (lit "INTJ")|].
  apply traitsOk_spec. reflexivity.
Defined.

Lemma validateCommonFields_first_failure_witness :
  Main.validateCommonFields
    (obj [("userId"%string, JStr (lit "u1"));
          ("timestamp"%string, JNum 5)])
  = Throw (new ValidationError
             (lit "Missing or invalid sessionId (string required)")).
Proof.
  exact (proj1 (proj2 (validateCommonFields_first_failure
                         (obj [("userId"%string, JStr (lit "u1"));
                               ("timestamp"%string, JNum 5)]) eq_refl))
           eq_refl eq_refl).
Defined.

(** ** Requests, path by path *)

Lemma is_string_inv (v : JsVal) (s : jsstring) :
  is_string v s = true -> v = JStr s.
Proof. destruct v; try discriminate. now intros ->%str_eqb_eq. Qed.

Lemma str_eqb_neq (a b : jsstring) : a <> b -> str_eqb a b = false.
Proof.
  intros Hne. destruct (str_eqb a b) eqn:E; [|reflexivity].
  apply str_eqb_eq in E. contradiction.
Qed.

Lemma field_not_nullish (payload : JsVal) (k : jsstring) (s : jsstring) :
  field payload k = JStr s -> exists fields, payload = JObj fields.
Proof. destruct payload; try discriminate. eauto. Qed.

Section Paths.
Context {rt : Runtime} (db : Oracle).

Lemma V2_handler_post (payload : JsVal) (st : Store) :
  LogAnswersV2.handler db (post payload) st
  = try_catch (LogAnswersV2.route db (post payload)) LogAnswersV2.onError st.
Proof. reflexivity. Qed.

Lemma V1_handler_post (payload : JsVal) (st : Store) :
  LogAnswersV1.handler db (post payload) st
  = try_catch (LogAnswersV1.route db (post payload)) LogAnswersV1.onError st.
Proof. reflexivity. Qed.

(** X7.  An answers request whose array holds an element that is null,
    undefined or ill-formed never reaches the store, whatever else the
    payload carries: the store is left exactly as it was and the answer is
    a 400 or a 500.  This holds of the refactored handler and of the first
    and second log-answers variants. *)
Theorem invalid_answer_never_reaches_store (payload : JsVal)
  (items : list JsVal) (st : Store) :
  field payload (lit "type") = JStr (lit "answers") ->
  field payload (lit "answers") = JArr items ->
  existsb illFormed items = true ->
  exists r r1 r2,
    Main.handler db (post payload) st = (st, Normal r)
    /\ LogAnswersV1.handler db (post payload) st = (st, Normal r1)
    /\ LogAnswersV2.handler db (post payload) st = (st, Normal r2)
    /\ (status r = 400%Z \/ status r = 500%Z)
    /\ (status r1 = 400%Z \/ status r1 = 500%Z)
    /\ status r2 = status r.
Proof.
  intros Htype Hans Hbad.
  destruct (existsb_find _ Hbad) as (bad & Hfind).
  assert (Htable : fst (decisionTable db payload st) = st
                   /\ (snd (decisionTable db payload st) = 400%Z
                       \/ snd (decisionTable db payload st) = 500%Z)).
  { unfold decisionTable. rewrite Htype, Hans.
    destruct (negb (truthy payload) || _); [cbn; auto|].
    change (is_string (JStr (lit "answers")) (lit "event")) with false.
    change (is_string (JStr (lit "answers")) (lit "answers")) with true.
    cbn [andb]. destruct (commonOk payload); [|cbn; auto].
    destruct items as [|a items]; [discriminate Hbad|].
    rewrite Hfind. cbn [fst snd]. destruct (nullish bad); auto. }
  destruct Htable as (Hst & Hcode).
  destruct (tables_agree db payload st) as (Hst2 & Hcode2).
  assert (Hsame : snd (decisionTable db payload st)
                  = snd (decisionTableV2 db payload st)).
  { destruct Hcode2 as [E | (_ & _ & _ & Hshown)]; [exact E|].
    rewrite Htype in Hshown. discriminate Hshown. }
  destruct (Main_table db payload st) as (r & Hr & Hs & _).
  destruct (V2_table db payload st) as (r2 & Hr2 & Hs2 & _).
  rewrite Hst2 in Hr2. rewrite Hst in Hr, Hr2.
  assert (H1 : exists r1,
             LogAnswersV1.handler db (post payload) st = (st, Normal r1)
             /\ (status r1 = 400%Z \/ status r1 = 500%Z)).
  { destruct (field_not_nullish _ _ _ Htype) as (fields & ->).
    rewrite V1_handler_post.
    unfold try_catch, LogAnswersV1.route, post, bind, lift.
    cbn [body truthy typeof JsType_eqb negb orb get].
    cbn [field] in Htype, Hans. rewrite Htype, Hans.
    destruct (commonFieldsMissing _ _ _); [eexists; split; [reflexivity | auto]|].
    change (is_string (JStr (lit "answers")) (lit "event")) with false.
    change (is_string (JStr (lit "answers")) (lit "answers")) with true.
    cbn [andb]. destruct items as [|a items]; [discriminate Hbad|].
    pose proof (map_answerQuery_V1_find
                  (lookup (lit "userId") fields)
                  (lookup (lit "sessionId") fields)
                  (lookup (lit "timestamp") fields) (a :: items)) as Hm.
    rewrite Hfind in Hm.
    assert (He : exists e,
               map_completion
                 (LogAnswersV1.answerQuery (lookup (lit "userId") fields)
                    (lookup (lit "sessionId") fields)
                    (lookup (lit "timestamp") fields)) (a :: items)
               = Throw e).
    { destruct (nullish bad); [destruct Hm as (msg & Hm)|]; eauto. }
    destruct He as (e & ->).
    destruct (onError_V1_answers e st) as (code & msg & Hrun & Hcode1).
    eexists. split; [exact Hrun | exact Hcode1]. }
  destruct H1 as (r1 & Hr1 & Hs1).
  exists r, r1, r2. repeat split; auto; congruence.
Qed.

(** X8.  A result request whose common fields and result fields validate
    issues exactly one INSERT, with fifteen parameters: userId, sessionId,
    mbtiCode, profileUrl, the percent and type of mind, energy, nature,
    tactics and identity in that order, and the timestamp.  When the store
    accepts it the row is committed and the answer is 201; when the store
    rejects it nothing is committed and the answer is 500 with the store's
    message.  This holds of the refactored handler and of the second
    log-answers variant. *)
Theorem result_insert_all_or_nothing (payload : JsVal) (st : Store) :
  field payload (lit "type") = JStr (lit "result") ->
  commonOk payload = true ->
  resultOk payload = true ->
  let insert := Execute (resultRow payload) in
  let outcome :=
    match db (rows st) insert with
    | None =>
        ({| rows := rows st ++ [resultRow payload];
            calls := calls st ++ [insert] |},
         Normal (json Main.corsHeaders 201
                   (lit "Test result logged successfully.")))
    | Some e =>
        ({| rows := rows st; calls := calls st ++ [insert] |},
         Normal (json_error Main.corsHeaders 500
                   (lit "Database error inserting test result")
                   (emessage e)))
    end in
  Main.handler db (post payload) st = outcome
  /\ LogAnswersV2.handler db (post payload) st = outcome
  /\ List.length (params (resultRow payload)) = 15
  /\ firstn 4 (params (resultRow payload))
     = [field payload (lit "userId"); field payload (lit "sessionId");
        field payload (lit "mbtiCode"); field payload (lit "profileUrl")].
Proof.
  intros Htype Hc Hr. cbv zeta.
  destruct (field_not_nullish _ _ _ Htype) as (fields & ->).
  destruct (commonOk_fields _ Hc) as (Hu & Hs & Ht).
  pose proof (traitsOk_columns _ (resultOk_traitsOk _ Hr)) as Hcols.
  repeat split.
  - rewrite handler_post.
    unfold try_catch at 1, Main.route, post, bind at 1, lift at 1.
    cbn [body truthy typeof JsType_eqb negb orb].
    unfold bind, lift. rewrite !(get_field (JObj fields) _ eq_refl), Htype.
    change (is_string (JStr (lit "result")) (lit "event")) with false.
    change (is_string (JStr (lit "result")) (lit "answers")) with false.
    change (is_string (JStr (lit "result")) (lit "result")) with true.
    cbn [andb]. unfold Main.handleTestResult, bind, lift, try_catch.
    rewrite (validateCommonFields_ok (JObj fields) eq_refl Hu Hs Ht),
      (validateTestResult_run (JObj fields) eq_refl), Hr, Hcols.
    unfold perform, resultRow.
    now destruct (db (rows st) _).
  - rewrite V2_handler_post.
    unfold try_catch at 1, LogAnswersV2.route, post, bind at 1, lift at 1.
    cbn [body truthy typeof JsType_eqb negb orb].
    unfold bind, lift. rewrite !(get_field (JObj fields) _ eq_refl), Htype.
    rewrite commonFieldsMissing_commonOk, Hc. cbn [negb].
    change (is_string (JStr (lit "result")) (lit "event")) with false.
    change (is_string (JStr (lit "result")) (lit "answers")) with false.
    change (is_string (JStr (lit "result")) (lit "result")) with true.
    cbn [andb]. unfold LogAnswersV2.handleResult, bind, lift.
    rewrite !(get_field (JObj fields) _ eq_refl), profileUrl_gate.
    unfold resultOk in Hr.
    apply andb_true_iff in Hr as [Hr Htr].
    apply andb_true_iff in Hr as [Hr Hcode].
    apply andb_true_iff in Hr as [Hurl Hm].
    rewrite Hurl. cbn [negb].
    apply nonEmptyString_pass in Hm as [-> ->]. cbn [negb orb].
    unfold mbtiCodeOk in Hcode.
    destruct (truthy (field (JObj fields) (lit "mbtiCode"))),
      (JsType_eqb (typeof (field (JObj fields) (lit "mbtiCode"))) TString);
      try discriminate Hcode; cbn [negb andb];
      unfold traitsOk in Htr;
      destruct (Main.isValidTraitObject (field (JObj fields) (lit "traits")))
        as [[]|]; try discriminate Htr; cbn [negb];
      unfold try_catch; rewrite Hcols;
      unfold perform, resultRow;
      now destruct (db (rows st) _).
Qed.

End Paths.

Lemma invalid_answer_never_reaches_store_witness :
  exists r r1 r2,
    @Main.handler plainRuntime accepting
      (post (answersPayload [answer1; JNull])) emptyStore
    = (emptyStore, Normal r)
    /\ @LogAnswersV1.handler plainRuntime accepting
         (post (answersPayload [answer1; JNull])) emptyStore
       = (emptyStore, Normal r1)
    /\ @LogAnswersV2.handler plainRuntime accepting
         (post (answersPayload [answer1; JNull])) emptyStore
       = (emptyStore, Normal r2)
    /\ (status r = 400%Z \/ status r = 500%Z)
    /\ (status r1 = 400%Z \/ status r1 = 500%Z)
    /\ status r2 = status r.
Proof.
  exact (@invalid_answer_never_reaches_store plainRuntime accepting
           (answersPayload [answer1; JNull]) [answer1; JNull] emptyStore
           eq_refl eq_refl eq_refl).
Defined.

Lemma result_insert_all_or_nothing_witness :
  @Main.handler plainRuntime accepting (post resultPayload) emptyStore
  = ({| rows := [resultRow resultPayload];
        calls := [Execute (resultRow resultPayload)] |},
     Normal (json Main.corsHeaders 201
               (lit "Test result logged successfully."))).
Proof.
  exact (proj1 (@result_insert_all_or_nothing plainRuntime accepting
                  resultPayload emptyStore eq_refl eq_refl eq_refl)).
Defined.

Section MorePaths.
Context {rt : Runtime} (db : Oracle).

(** X9.  An event request that passes validation and whose INSERT the
    store accepts commits exactly one row, with the parameters userId,
    sessionId, eventName and timestamp in that order, and is answered 200
    with the event's name in the message.  This holds of the refactored
    handler and of the second log-answers variant. *)
Theorem event_insert_commits_one_row (payload : JsVal) (st : Store) :
  field payload (lit "type") = JStr (lit "event") ->
  Main.isEventName (field payload (lit "eventName")) = true ->
  commonOk payload = true ->
  db (rows st) (Execute (eventRow payload)) = None ->
  let committedOne :=
    ({| rows := rows st ++ [eventRow payload];
        calls := calls st ++ [Execute (eventRow payload)] |},
     Normal (json Main.corsHeaders 200
               (ToString (field payload (lit "eventName"))
                ++ lit " event received (logged server-side)"))) in
  Main.handler db (post payload) st = committedOne
  /\ LogAnswersV2.handler db (post payload) st = committedOne
  /\ params (eventRow payload)
     = [field payload (lit "userId"); field payload (lit "sessionId");
        field payload (lit "eventName"); field payload (lit "timestamp")]
  /\ (ToString (field payload (lit "eventName")) = lit "test_started"
      \/ ToString (field payload (lit "eventName")) = lit "test_finished").
Proof.
  intros Htype Hev Hc Hdb. cbv zeta.
  destruct (field_not_nullish _ _ _ Htype) as (fields & ->).
  destruct (commonOk_fields _ Hc) as (Hu & Hs & Ht).
  repeat split.
  - rewrite handler_post.
    unfold try_catch at 1, Main.route, post, bind at 1, lift at 1.
    cbn [body truthy typeof JsType_eqb negb orb].
    unfold bind, lift. rewrite !(get_field (JObj fields) _ eq_refl).
    rewrite Htype, Hev.
    change (is_string (JStr (lit "event")) (lit "event")) with true.
    cbn [andb]. unfold Main.handleEvent, bind, lift, try_catch.
    rewrite (validateCommonFields_ok (JObj fields) eq_refl Hu Hs Ht),
      (get_field (JObj fields) _ eq_refl), (interpolate_eventName _ Hev).
    unfold perform. fold (eventRow (JObj fields)). now rewrite Hdb.
  - rewrite V2_handler_post.
    unfold try_catch at 1, LogAnswersV2.route, post, bind at 1, lift at 1.
    cbn [body truthy typeof JsType_eqb negb orb].
    unfold bind, lift. rewrite !(get_field (JObj fields) _ eq_refl).
    rewrite commonFieldsMissing_commonOk, Hc, Htype, Hev. cbn [negb].
    change (is_string (JStr (lit "event")) (lit "event")) with true.
    cbn [andb]. unfold try_catch, perform.
    fold (eventRow (JObj fields)). now rewrite Hdb.
  - apply isEventName_spec in Hev as [-> | ->]; auto.
Qed.

(** X10.  In the first log-answers variant an event request that passes
    validation is answered 200 whatever the store does: the one INSERT
    (its timestamp sent without a cast) is committed when the store
    accepts it and dropped without a trace in the response when the store
    rejects it. *)
Theorem first_variant_event_always_200 (payload : JsVal) (st : Store) :
  field payload (lit "type") = JStr (lit "event") ->
  Main.isEventName (field payload (lit "eventName")) = true ->
  commonOk payload = true ->
  let insert :=
    {| text := InsertTestEvents false;
       params := [field payload (lit "userId");
                  field payload (lit "sessionId");
                  field payload (lit "eventName");
                  field payload (lit "timestamp")] |} in
  LogAnswersV1.handler db (post payload) st
  = ({| rows := match db (rows st) (Execute insert) with
                | None => rows st ++ [insert]
                | Some _ => rows st
                end;
        calls := calls st ++ [Execute insert] |},
     Normal (json LogAnswersV1.corsHeaders 200
               (ToString (field payload (lit "eventName"))
                ++ lit " event received (logged server-side)"))).
Proof.
  intros Htype Hev Hc. cbv zeta.
  destruct (field_not_nullish _ _ _ Htype) as (fields & ->).
  rewrite V1_handler_post.
  unfold try_catch at 1, LogAnswersV1.route, post, bind at 1, lift at 1.
  cbn [body truthy typeof JsType_eqb negb orb].
  unfold bind, lift. rewrite !(get_field (JObj fields) _ eq_refl).
  rewrite commonFieldsMissing_commonOk, Hc, Htype, Hev. cbn [negb].
  change (is_string (JStr (lit "event")) (lit "event")) with true.
  cbn [andb]. unfold try_catch, perform.
  now destruct (db (rows st) _).
Qed.

(** X11.  In the first log-answers variant a valid answers request issues
    one transaction with one insert per answer, in order, each carrying
    the answer's label exactly as the client sent it (no 'N/A' default)
    and the timestamp without a cast.  When the store accepts it all rows
    are committed and the answer is 201.  When the store rejects it no row
    is committed, and the status is chosen from the text of the store's
    message: 400 when it starts with 'Invalid answer format' or 'Missing',
    500 otherwise. *)
Theorem first_variant_answers (payload : JsVal) (items : list JsVal)
  (st : Store) :
  field payload (lit "type") = JStr (lit "answers") ->
  commonOk payload = true ->
  field payload (lit "answers") = JArr items ->
  items <> [] ->
  find illFormed items = None ->
  let inserts :=
    map (rawAnswerRow (field payload (lit "userId"))
           (field payload (lit "sessionId"))
           (field payload (lit "timestamp"))) items in
  LogAnswersV1.handler db (post payload) st
  = match db (rows st) (Transaction inserts) with
    | None =>
        ({| rows := rows st ++ inserts;
            calls := calls st ++ [Transaction inserts] |},
         Normal (json LogAnswersV1.corsHeaders 201
                   (lit "Successfully logged "
                    ++ nat_toString (List.length items)
                    ++ lit " answers.")))
    | Some e =>
        ({| rows := rows st; calls := calls st ++ [Transaction inserts] |},
         Normal (if looksLikeValidation (emessage e)
                 then json_error LogAnswersV1.corsHeaders 400
                        (lit "Data validation failed") (emessage e)
                 else json_error LogAnswersV1.corsHeaders 500
                        (lit "Internal Server Error processing request.")
                        (emessage e)))
    end.
Proof.
  intros Htype Hc Hans Hne Hfind. cbv zeta.
  destruct (field_not_nullish _ _ _ Htype) as (fields & ->).
  rewrite V1_handler_post.
  unfold try_catch at 1, LogAnswersV1.route, post, bind at 1, lift at 1.
  cbn [body truthy typeof JsType_eqb negb orb].
  unfold bind, lift. rewrite !(get_field (JObj fields) _ eq_refl).
  rewrite commonFieldsMissing_commonOk, Hc, Htype, Hans. cbn [negb].
  change (is_string (JStr (lit "answers")) (lit "event")) with false.
  change (is_string (JStr (lit "answers")) (lit "answers")) with true.
  cbn [andb]. destruct items as [|a items]; [now destruct Hne|].
  pose proof (map_answerQuery_V1_find (field (JObj fields) (lit "userId"))
                (field (JObj fields) (lit "sessionId"))
                (field (JObj fields) (lit "timestamp")) (a :: items)) as Hm.
  rewrite Hfind in Hm. rewrite Hm. unfold perform.
  destruct (db (rows st) _) as [e|]; [|reflexivity].
  unfold LogAnswersV1.onError, looksLikeValidation, bind, lift.
  cbn [message_of cbind message_startsWith].
  destruct (startsWith (emessage e) (lit "Invalid answer format"));
    [reflexivity|].
  now destruct (startsWith (emessage e) (lit "Missing")).
Qed.

End MorePaths.

Lemma event_insert_commits_one_row_witness :
  @Main.handler plainRuntime accepting
    (post (eventPayload (JStr (lit "test_finished")))) emptyStore
  = ({| rows := [eventRow (eventPayload (JStr (lit "test_finished")))];
        calls := [Execute (eventRow (eventPayload
                                       (JStr (lit "test_finished"))))] |},
     Normal (json Main.corsHeaders 200
               (lit "test_finished event received (logged server-side)"))).
Proof.
  exact (proj1 (@event_insert_commits_one_row plainRuntime accepting
                  (eventPayload (JStr (lit "test_finished"))) emptyStore
                  eq_refl eq_refl eq_refl eq_refl)).
Defined.

Lemma first_variant_event_always_200_witness :
  exists st' r,
    @LogAnswersV1.handler plainRuntime (rejecting storeDown)
      (post (eventPayload (JStr (lit "test_started")))) emptyStore
    = (st', Normal r)
    /\ rows st' = [] /\ status r = 200%Z.
Proof.
  do 2 eexists. split.
  - exact (@first_variant_event_always_200 plainRuntime (rejecting storeDown)
             (eventPayload (JStr (lit "test_started"))) emptyStore
             eq_refl eq_refl eq_refl).
  - split; reflexivity.
Defined.

Lemma first_variant_answers_witness :
  @LogAnswersV1.handler plainRuntime (rejecting missingColumn)
    (post (answersPayload [answer1])) emptyStore
  = ({| rows := [];
        calls := [Transaction
                    [rawAnswerRow (JStr (lit "u1")) (JStr (lit "s1"))
                       (JStr (lit "2024-01-01T00:00:00Z")) answer1]] |},
     Normal (json_error LogAnswersV1.corsHeaders 400
               (lit "Data validation failed")
               (lit "Missing column answer_label in relation test_answers"))).
Proof.
  refine (@first_variant_answers plainRuntime (rejecting missingColumn)
            (answersPayload [answer1]) [answer1] emptyStore
            eq_refl eq_refl eq_refl _ eq_refl).
  discriminate.
Defined.

(** ** The gates in front of the handlers *)

Section Gates.
Context {rt : Runtime} (db : Oracle).

(** X12.  The method and payload gates of the POST endpoint, in the
    refactored handler and in the first and second log-answers variants.
    An OPTIONS request is answered 200 with no body and any method other
    than OPTIONS and POST is answered 405 with the Allow header, in both
    cases without reading the body (so even when reading it would throw)
    and without touching the store; the comparison is exact, so a
    lower-case method is refused.  A POST whose body parsed to something
    that is not an object (null, a boolean, a number, a string) is
    answered 400 'Invalid payload format' and the store is not touched. *)
Theorem request_gates (req : Request) (st : Store) :
  (method req = lit "OPTIONS" ->
   Main.handler db req st
   = (st, Normal {| headers := Main.corsHeaders; status := 200; sent := End |})
   /\ LogAnswersV1.handler db req st
      = (st, Normal {| headers := LogAnswersV1.corsHeaders; status := 200;
                       sent := End |})
   /\ LogAnswersV2.handler db req st
      = (st, Normal {| headers := Main.corsHeaders; status := 200;
                       sent := End |}))
  /\ (method req <> lit "OPTIONS" -> method req <> lit "POST" ->
      Main.handler db req st
      = (st, Normal (json (Main.corsHeaders ++ [allowHeader]) 405
                       (lit "Method Not Allowed")))
      /\ LogAnswersV1.handler db req st
         = (st, Normal (json (LogAnswersV1.corsHeaders ++ [allowHeader]) 405
                          (lit "Method Not Allowed")))
      /\ LogAnswersV2.handler db req st
         = (st, Normal (json (Main.corsHeaders ++ [allowHeader]) 405
                          (lit "Method Not Allowed"))))
  /\ (forall payload,
         method req = lit "POST" ->
         body req = Normal payload ->
         payload = JNull \/ typeof payload <> TObject ->
         let refused cors :=
           (st, Normal (json cors 400
                          (lit "Invalid payload format. Expected JSON object."))) in
         Main.handler db req st = refused Main.corsHeaders
         /\ LogAnswersV1.handler db req st = refused LogAnswersV1.corsHeaders
         /\ LogAnswersV2.handler db req st = refused Main.corsHeaders)
  /\ str_eqb (lit "post") (lit "POST") = false
  /\ str_eqb (lit "options") (lit "OPTIONS") = false.
Proof.
  unfold Main.handler, LogAnswersV1.handler, LogAnswersV2.handler.
  repeat match goal with |- _ /\ _ => split end; try reflexivity.
  - intros ->. rewrite str_eqb_refl. repeat split.
  - intros Ho Hp. rewrite (str_eqb_neq _ _ Ho), (str_eqb_neq _ _ Hp).
    repeat split.
  - intros payload Hm Hb Hshape. cbv zeta. rewrite Hm.
    change (str_eqb (lit "POST") (lit "OPTIONS")) with false.
    change (str_eqb (lit "POST") (lit "POST")) with true. cbn [negb].
    assert (Hg : negb (truthy payload)
                 || negb (JsType_eqb (typeof payload) TObject) = true).
    { destruct Hshape as [-> | Hty]; [reflexivity|].
      destruct payload; try reflexivity; try (now destruct Hty);
        apply orb_true_r. }
    unfold try_catch, Main.route, LogAnswersV1.route, LogAnswersV2.route,
      bind, lift.
    rewrite Hb, Hg. repeat split.
Qed.

End Gates.

(** The scenario of the specification for the hello endpoint, and the
    same request on the server-time endpoint ([floor] is [Math.floor]). *)
Example scenario_hello (host : Diagnostics.Host) (now : Diagnostics.Instant)
  (floor : float -> float) :
  Diagnostics.hello host now (lit "GET")
  = {| Diagnostics.replyHeaders := Diagnostics.helloHeaders;
       Diagnostics.replyStatus := 200;
       Diagnostics.replyBody :=
         Some (JObj [(lit "message", JStr (lit "Hello, World!"));
                     (lit "timestamp", JStr (Diagnostics.toISOString now));
                     (lit "environment", Diagnostics.environment host)]) |}
  /\ Diagnostics.replyStatus
       (Diagnostics.checkTime floor host now (lit "GET")) = 200%Z
  /\ Diagnostics.replyStatus
       (Diagnostics.checkTime floor host now (lit "DELETE")) = 405%Z.
Proof. repeat split. Qed.

(** ** Edge cases *)

Lemma run_accepting (db : Oracle) (call : StoreCall) (success : Z)
  (st : Store) :
  (forall committedRows c, db committedRows c = None) ->
  run db call success st
  = ({| rows := rows st ++ statements call; calls := calls st ++ [call] |},
     success).
Proof. intros Hdb. unfold run. now rewrite Hdb. Qed.

Lemma decisionTable_accepting (db : Oracle) (payload : JsVal) :
  (forall committedRows c, db committedRows c = None) ->
  exists cs code,
    forall st,
      decisionTable db payload st
      = ({| rows := rows st ++ flat_map statements cs;
            calls := calls st ++ cs |}, code).
Proof.
  intros Hdb.
  assert (Hnone : forall code : Z, exists cs code',
             forall st : Store,
               (st, code)
               = ({| rows := rows st ++ flat_map statements cs;
                     calls := calls st ++ cs |}, code')).
  { intros code. exists [], code. intros [r c]. cbn.
    now rewrite !app_nil_r. }
  assert (Hrun : forall call success, exists cs code',
             forall st : Store,
               run db call success st
               = ({| rows := rows st ++ flat_map statements cs;
                     calls := calls st ++ cs |}, code')).
  { intros call success. exists [call], success. intros st.
    rewrite (run_accepting _ _ _ _ Hdb). cbn [flat_map].
    now rewrite app_nil_r. }
  unfold decisionTable.
  repeat match goal with
         | |- context [if ?b then _ else _] => destruct b
         | |- context [match ?x with _ => _ end] => destruct x
         end; auto.
Qed.

Section Edges.
Context {rt : Runtime} (db : Oracle).

(** X14.  In the refactored handler a payload object whose [type] is none
    of 'answers', 'result' and 'event' with a known event name is answered
    before the common fields are looked at, and the store is not touched.
    When the type can be rendered the answer is 400 with the type quoted in
    the message (a missing type reads 'undefined'); when it cannot, building
    the message throws and the answer is 500 with 'Cannot convert object to
    primitive value'.  Every type that is neither an object nor an array
    can be rendered, and an object can unless it has a property of its own
    named [toString]. *)
Theorem unknown_type_rejected (fields : list (jsstring * JsVal))
  (st : Store) :
  let type := lookup (lit "type") fields in
  is_string type (lit "event")
  && Main.isEventName (lookup (lit "eventName") fields) = false ->
  type <> JStr (lit "answers") ->
  type <> JStr (lit "result") ->
  (convertible type = true ->
   Main.handler db (post (JObj fields)) st
   = (st, Normal (json Main.corsHeaders 400
                    (lit "Invalid payload type specified: '"
                     ++ ToString type ++ lit "'"))))
  /\ (convertible type = false ->
      Main.handler db (post (JObj fields)) st
      = (st, Normal (json_error Main.corsHeaders 500
                       (lit "Internal Server Error processing request.")
                       (lit "Cannot convert object to primitive value"))))
  /\ (type = JUndefined ->
      lit "Invalid payload type specified: '" ++ ToString type ++ lit "'"
      = lit "Invalid payload type specified: 'undefined'")
  /\ ((forall own, type <> JObj own) -> (forall items, type <> JArr items) ->
      convertible type = true)
  /\ (forall own,
         type = JObj own ->
         (convertible type = false
          <-> exists v, In (lit "toString", v) own)).
Proof.
  intros type Hev Ha Hr.
  assert (Hstr : forall s, type <> JStr s -> is_string type s = false).
  { intros s Hne. destruct (is_string type s) eqn:E; [|reflexivity].
    apply is_string_inv in E. contradiction. }
  assert (Hroute : Main.handler db (post (JObj fields)) st
                   = try_catch
                       (shown <~ lift (interpolate type) ;;
                        ret (json Main.corsHeaders 400
                               (lit "Invalid payload type specified: '"
                                ++ shown ++ lit "'")))
                       Main.onError st).
  { rewrite handler_post. unfold try_catch, Main.route, post, bind, lift.
    cbn [body truthy typeof JsType_eqb negb orb get]. fold type.
    now rewrite Hev, (Hstr _ Ha), (Hstr _ Hr). }
  rewrite Hroute. unfold try_catch, bind, lift.
  repeat match goal with |- _ /\ _ => split end.
  - intros Hshown. now rewrite (interpolate_convertible _ Hshown).
  - intros Hshown. now rewrite (interpolate_stuck _ Hshown).
  - now intros ->.
  - intros Hobj Harr.
    destruct type as [| | b | n | s | items | own]; try reflexivity.
    + now destruct (Harr items).
    + now destruct (Hobj own).
  - intros own ->. cbn [convertible]. rewrite negb_false_iff, existsb_exists.
    split.
    + intros ([k v] & Hin & Hk). apply str_eqb_eq in Hk. cbn in Hk.
      subst k. now exists v.
    + intros (v & Hin). exists (lit "toString", v).
      split; [exact Hin | apply str_eqb_refl].
Qed.

(** X15.  [isValidTraitObject] turns down a traits object as soon as one
    of the five required keys is missing, holds a percent that is not a
    number (a numeric string, say), or holds a type that is not a string or
    is made only of white space. *)
Theorem traits_edge_cases (traits : JsVal) (trait : jsstring) :
  In trait requiredTraits ->
  let entry := field traits trait in
  entry = JUndefined
  \/ typeof (field entry (lit "percent")) <> TNumber
  \/ typeof (field entry (lit "type")) <> TString
  \/ (exists s, field entry (lit "type") = JStr s
                /\ forallb isWhiteSpace s = true) ->
  Main.isValidTraitObject traits = Normal false.
Proof.
  intros Hin entry Hbad.
  destruct (isValidTraitObject_spec traits) as ([] & Hrun & Hok);
    [exfalso | exact Hrun].
  pose proof (proj1 Hok eq_refl) as Hv. unfold validTraits in Hv.
  rewrite Forall_forall in Hv.
  destruct (Hv _ Hin) as (p & s & Hp & _ & Hs & Hne). fold entry in Hp, Hs.
  destruct Hbad as [E | [E | [E | (s' & E & Hws)]]].
  - rewrite E in Hp. discriminate Hp.
  - rewrite Hp in E. now apply E.
  - rewrite Hs in E. now apply E.
  - rewrite Hs in E. injection E as <-. apply Hne. now apply trim_nil.
Qed.

(** X16.  Nothing is deduplicated.  With a store that accepts every call,
    sending the same request twice commits its rows twice: the second run
    appends again exactly what the first one appended, and both runs are
    answered with the same status. *)
Theorem resubmission_duplicates_rows (payload : JsVal) (st : Store) :
  (forall committedRows call, db committedRows call = None) ->
  exists added st1 st2 r1 r2,
    Main.handler db (post payload) st = (st1, Normal r1)
    /\ Main.handler db (post payload) st1 = (st2, Normal r2)
    /\ rows st1 = rows st ++ added
    /\ rows st2 = rows st ++ added ++ added
    /\ status r1 = status r2.
Proof.
  intros Hdb.
  destruct (decisionTable_accepting db payload Hdb) as (cs & code & Htable).
  destruct (Main_table db payload st) as (r1 & H1 & Hs1 & _).
  rewrite Htable in H1, Hs1. cbn [fst snd] in H1, Hs1.
  set (st1 := {| rows := rows st ++ flat_map statements cs;
                 calls := calls st ++ cs |}) in *.
  destruct (Main_table db payload st1) as (r2 & H2 & Hs2 & _).
  rewrite Htable in H2, Hs2. cbn [fst snd] in H2, Hs2.
  exists (flat_map statements cs), st1,
    {| rows := rows st1 ++ flat_map statements cs; calls := calls st1 ++ cs |},
    r1, r2.
  repeat split; [exact H1 | exact H2 | | congruence].
  unfold st1. cbn [rows]. now rewrite app_assoc.
Qed.

(** X17.  The first log-answers variant checks the common fields before
    the type, and knows no result type: a payload object with a missing
    common field is answered 400 about the fields whatever its type, and a
    result payload with valid common fields is answered 400 'Invalid
    payload type specified.'; neither touches the store. *)
Theorem first_variant_refusals (fields : list (jsstring * JsVal))
  (st : Store) :
  (commonOk (JObj fields) = false ->
   LogAnswersV1.handler db (post (JObj fields)) st
   = (st, Normal (json LogAnswersV1.corsHeaders 400 missingCommonFields)))
  /\ (commonOk (JObj fields) = true ->
      lookup (lit "type") fields = JStr (lit "result") ->
      LogAnswersV1.handler db (post (JObj fields)) st
      = (st, Normal (json LogAnswersV1.corsHeaders 400
                       (lit "Invalid payload type specified.")))).
Proof.
  split.
  - intros Hc. rewrite V1_handler_post.
    unfold try_catch, LogAnswersV1.route, post, bind, lift.
    cbn [body truthy typeof JsType_eqb negb orb get].
    pose proof (commonFieldsMissing_commonOk (JObj fields)) as Hm.
    cbn [field] in Hm. now rewrite Hm, Hc.
  - intros Hc Htype. rewrite V1_handler_post.
    unfold try_catch, LogAnswersV1.route, post, bind, lift.
    cbn [body truthy typeof JsType_eqb negb orb get].
    pose proof (commonFieldsMissing_commonOk (JObj fields)) as Hm.
    cbn [field] in Hm. now rewrite Hm, Hc, Htype.
Qed.

End Edges.

Lemma unknown_type_rejected_witness :
  @Main.handler plainRuntime accepting
    (post (JObj (fieldsOf common))) emptyStore
  = (emptyStore,
     Normal (json Main.corsHeaders 400
               (lit "Invalid payload type specified: 'undefined'")))
  /\ @Main.handler plainRuntime accepting
       (post (obj [("type"%string, obj [("toString"%string, JNum 1)])]))
       emptyStore
     = (emptyStore,
        Normal (json_error Main.corsHeaders 500
                  (lit "Internal Server Error processing request.")
                  (lit "Cannot convert object to primitive value"))).
Proof.
  split.
  - refine (proj1 (@unknown_type_rejected plainRuntime accepting
                     (fieldsOf common) emptyStore eq_refl _ _) eq_refl);
      discriminate.
  - refine (proj1 (proj2 (@unknown_type_rejected plainRuntime accepting
                     (fieldsOf [("type"%string,
                                 obj [("toString"%string, JNum 1)])])
                     emptyStore eq_refl _ _)) eq_refl);
      discriminate.
Defined.

Lemma traits_edge_cases_witness :
  Main.isValidTraitObject
    (obj [("mind"%string,
           obj [("percent"%string, JStr (lit "50"));
                ("type"%string, JStr (lit "Introverted"))])])
  = Normal false.
Proof.
  refine (traits_edge_cases
            (obj [("mind"%string,
                   obj [("percent"%string, JStr (lit "50"));
                        ("type"%string, JStr (lit "Introverted"))])])
            (lit "mind") (or_introl eq_refl) _).
  right. left. discriminate.
Defined.

Lemma resubmission_duplicates_rows_witness :
  exists added st1 st2 r1 r2,
    @Main.handler plainRuntime accepting
      (post (eventPayload (JStr (lit "test_started")))) emptyStore
    = (st1, Normal r1)
    /\ @Main.handler plainRuntime accepting
         (post (eventPayload (JStr (lit "test_started")))) st1
       = (st2, Normal r2)
    /\ rows st1 = rows emptyStore ++ added
    /\ rows st2 = rows emptyStore ++ added ++ added
    /\ status r1 = status r2.
Proof.
  exact (@resubmission_duplicates_rows plainRuntime accepting
           (eventPayload (JStr (lit "test_started"))) emptyStore
           (fun _ _ => eq_refl)).
Defined.

Lemma handlers_agree_witness :
  exists st' r1 r2,
    @Main.handler plainRuntime accepting
      (post (answersPayload [answer1; answer2_missing_number])) emptyStore
    = (st', Normal r1)
    /\ @LogAnswersV2.handler plainRuntime accepting
         (post (answersPayload [answer1; answer2_missing_number])) emptyStore
       = (st', Normal r2)
    /\ headers r1 = headers r2
    /\ (commonOk (answersPayload [answer1; answer2_missing_number]) = true
        \/ convertible (field (answersPayload [answer1; answer2_missing_number])
                          (lit "type")) = true ->
        status r1 = status r2)
    /\ (status r1 = status r2
        \/ (status r1 = 500%Z /\ status r2 = 400%Z)).
Proof.
  exact (@handlers_agree plainRuntime accepting
           (post (answersPayload [answer1; answer2_missing_number]))
           (answersPayload [answer1; answer2_missing_number]) emptyStore
           eq_refl).
Defined.

(** The one case in which the two handlers part: no common fields and a
    [type] that cannot be rendered. *)
Example handlers_part_on_unrenderable_type :
  let payload := obj [("type"%string, obj [("toString"%string, JNum 1)])] in
  @Main.handler plainRuntime accepting (post payload) emptyStore
  = (emptyStore,
     Normal (json_error Main.corsHeaders 500
               (lit "Internal Server Error processing request.")
               (lit "Cannot convert object to primitive value")))
  /\ @LogAnswersV2.handler plainRuntime accepting (post payload) emptyStore
     = (emptyStore, Normal (json Main.corsHeaders 400 missingCommonFields)).
Proof. split; reflexivity. Qed.
